(** * Property-management backend: access policy, occupancy, schedules, payments

    A shallow embedding of the Express route handlers of the repository
    ([routes/tenants.js], [routes/properties.js], [routes/rentSchedules.js],
    [routes/payments.js]) together with the Mongoose schemas they rely on.

    - The MongoDB collections are finite maps from the document id to the
      document ([gmap string _]); an [ObjectId] is its canonical string.
    - A handler is a state-passing computation over the collections that
      either falls through to the next statement, answers the request
      ([return res.status(..).json(..)]) or throws; the [try]/[catch] of every
      route turns a throw into the 500 answer.
    - Amounts are the rational values of the JavaScript numbers: the code
      only compares them, and a field validated with [isNumeric] (a JSON
      number or a numeric string) enters a comparison as its number.
    - Dates are time values, milliseconds since the epoch.
    - What the runtime and third-party libraries decide (express-validator's
      string checks, the ObjectId cast of Mongoose, the date parser and the
      local time zone of the JavaScript engine) is a parameter, gathered in
      the class [Platform]. *)

From Stdlib Require Import ZArith QArith Lia.
From stdpp Require Import base option list gmap strings fin_maps sorting pretty.

Local Open Scope Z_scope.

(** ** Data model *)

Module Role.
Inductive t := admin | landlord | tenant.
End Role.

#[global] Instance Role_eq_dec : EqDecision Role.t.
Proof. solve_decision. Defined.

(** The authenticated principal that [auth] stores in [req.user]. *)
Record Principal := { _id : string; role : Role.t }.

(** Modelled from the spec: [models/User.js] is not among the sources. The
    data model of the specification and the schema printed in the README give
    a user one role and, for tenants, the move-in and lease-end dates of
    [tenantInfo]; these are the fields the handlers below touch. *)
Module User.
Record TenantInfo := { moveInDate : option Z; leaseEndDate : option Z }.
Record t := { role : Role.t; tenantInfo : TenantInfo }.
End User.

Module Property.
Inductive Status := available | occupied | maintenance | unavailable.
Record LeaseTerms :=
  { startDate : option Z; endDate : option Z; renewalTerms : option string }.
(** [property.leaseTerms = {}] *)
Definition noLeaseTerms : LeaseTerms :=
  {| startDate := None; endDate := None; renewalTerms := None |}.
Record t :=
  { name : string;
    monthlyRent : Q;
    landlord : string;
    currentTenant : option string;
    status : Status;
    leaseTerms : LeaseTerms }.
End Property.

#[global] Instance PropertyStatus_eq_dec : EqDecision Property.Status.
Proof. solve_decision. Defined.

Module RentSchedule.
Inductive Status := pending | paid | overdue | partial.
Record t :=
  { property : string;
    tenant : string;
    amount : Q;
    dueDate : Z;
    status : Status;
    paymentMethod : string;
    lateFee : Q;
    notes : option string;
    recurring : bool;
    frequency : string }.
End RentSchedule.

#[global] Instance RentScheduleStatus_eq_dec : EqDecision RentSchedule.Status.
Proof. solve_decision. Defined.

Module Payment.
Inductive Status := pending | completed | failed | refunded.
Record t :=
  { rentSchedule : string;
    property : string;
    tenant : string;
    amount : Q;
    paymentDate : Z;
    paymentMethod : string;
    status : Status;
    transactionId : string;
    notes : option string }.
End Payment.

#[global] Instance PaymentStatus_eq_dec : EqDecision Payment.Status.
Proof. solve_decision. Defined.

(** The four collections. *)
Record Store :=
  { users : gmap string User.t;
    properties : gmap string Property.t;
    rentSchedules : gmap string RentSchedule.t;
    payments : gmap string Payment.t }.

Definition set_users (f : gmap string User.t → gmap string User.t) (s : Store) : Store :=
  {| users := f (users s); properties := properties s;
     rentSchedules := rentSchedules s; payments := payments s |}.
Definition set_properties (f : gmap string Property.t → gmap string Property.t) (s : Store) : Store :=
  {| users := users s; properties := f (properties s);
     rentSchedules := rentSchedules s; payments := payments s |}.
Definition set_rentSchedules (f : gmap string RentSchedule.t → gmap string RentSchedule.t) (s : Store) : Store :=
  {| users := users s; properties := properties s;
     rentSchedules := f (rentSchedules s); payments := payments s |}.
Definition set_payments (f : gmap string Payment.t → gmap string Payment.t) (s : Store) : Store :=
  {| users := users s; properties := properties s;
     rentSchedules := rentSchedules s; payments := f (payments s) |}.

(** ** Responses *)

Inductive Payload :=
| NoPayload
| Errors (errors : list string)
| PropertyDoc (property : option Property.t)
| PaymentDoc (payment : option Payment.t)
| RentScheduleList (rentSchedules : list (string * RentSchedule.t)) (total : nat)
| PaymentList (payments : list (string * Payment.t)) (total : nat)
| Count (count : nat).

Record Response :=
  { statusCode : Z; success : bool; message : option string; payload : Payload }.

Definition json (code : Z) (ok : bool) (msg : option string) (p : Payload) : Response :=
  {| statusCode := code; success := ok; message := msg; payload := p |}.

(** The failure kinds of the specification, read off the answer. Both the
    validation failure and the state precondition failure answer 400; the
    former carries the [errors] array, the latter a [message]. *)
Inductive Kind :=
| Success | Unauthorized | Forbidden | NotFound | InvalidState
| ValidationFailed | InternalFailure.

Definition kindOf (r : Response) : Kind :=
  if success r then Success
  else if statusCode r =? 401 then Unauthorized
  else if statusCode r =? 403 then Forbidden
  else if statusCode r =? 404 then NotFound
  else if statusCode r =? 400 then
    match payload r with Errors _ => ValidationFailed | _ => InvalidState end
  else InternalFailure.

(** ** Handlers as state-passing computations *)

Inductive Outcome (A : Type) :=
| Continue (a : A) (s : Store)
| Respond (r : Response) (s : Store)
| Raise (s : Store).
Arguments Continue {A} a s.
Arguments Respond {A} r s.
Arguments Raise {A} s.

Definition Handler (A : Type) := Store → Outcome A.

Definition ret {A} (a : A) : Handler A := λ s, Continue a s.
Definition bind {A B} (m : Handler A) (k : A → Handler B) : Handler B :=
  λ s, match m s with
       | Continue a s' => k a s'
       | Respond r s' => Respond r s'
       | Raise s' => Raise s'
       end.
Definition reply {A} (r : Response) : Handler A := λ s, Respond r s.
Definition throw {A} : Handler A := λ s, Raise s.
Definition gets {A} (f : Store → A) : Handler A := λ s, Continue (f s) s.
Definition modify (f : Store → Store) : Handler unit := λ s, Continue tt (f s).

Notation "'let*' x ':=' m 'in' k" := (bind m (λ x, k))
  (at level 10, x pattern, m at level 100, k at level 200).
Notation "m ';;;' k" := (bind m (λ _, k))
  (at level 100, k at level 200, right associativity).

(** [return res.status(code).json({ success: false, message })] when [b]. *)
Definition rejectIf (b : bool) (code : Z) (msg : string) : Handler unit :=
  if b then reply (json code false (Some msg) NoPayload) else ret tt.

(** [try { .. } catch (error) { res.status(500).json(..) }] *)
Definition serverError : Response := json 500 false (Some "Server error") NoPayload.

Definition route (h : Handler Response) (s : Store) : Response * Store :=
  match h s with
  | Continue r s' => (r, s')
  | Respond r s' => (r, s')
  | Raise s' => (serverError, s')
  end.

(** ** JavaScript dates

    Time values are milliseconds since the epoch; the day and calendar
    functions are those of ECMA-262 (section "Time Values and Time Range"),
    of which [getMonth], [setMonth], [getFullYear] and [setFullYear] are
    the local-time readers and writers the bulk generator calls. *)
Module JSDate.
Definition msPerDay : Z := 86400000.
Definition Day (t : Z) : Z := t / msPerDay.
Definition TimeWithinDay (t : Z) : Z := t mod msPerDay.

Definition DayFromYear (y : Z) : Z :=
  365 * (y - 1970) + (y - 1969) / 4 - (y - 1901) / 100 + (y - 1601) / 400.
Definition InLeapYear (y : Z) : Z :=
  if (y mod 4 =? 0) && (negb (y mod 100 =? 0) || (y mod 400 =? 0)) then 1 else 0.

(** The largest [y] with [DayFromYear y <= d]: the estimate from the mean
    year length is off by at most one. *)
Definition YearFromDay (d : Z) : Z :=
  let y := 1970 + (400 * d) / 146097 in
  if DayFromYear (y + 1) <=? d then y + 1
  else if DayFromYear y <=? d then y
  else y - 1.
Definition YearFromTime (t : Z) : Z := YearFromDay (Day t).
Definition DayWithinYear (t : Z) : Z := Day t - DayFromYear (YearFromTime t).

(** Day number within the year of the first day of month [m] (0 to 11). *)
Definition firstDayOfMonth (m leap : Z) : Z :=
  match m with
  | 0 => 0 | 1 => 31 | 2 => 59 + leap | 3 => 90 + leap | 4 => 120 + leap
  | 5 => 151 + leap | 6 => 181 + leap | 7 => 212 + leap | 8 => 243 + leap
  | 9 => 273 + leap | 10 => 304 + leap | _ => 334 + leap
  end.

Definition MonthFromTime (t : Z) : Z :=
  let d := DayWithinYear t in
  let leap := InLeapYear (YearFromTime t) in
  if d <? 31 then 0 else if d <? 59 + leap then 1
  else if d <? 90 + leap then 2 else if d <? 120 + leap then 3
  else if d <? 151 + leap then 4 else if d <? 181 + leap then 5
  else if d <? 212 + leap then 6 else if d <? 243 + leap then 7
  else if d <? 273 + leap then 8 else if d <? 304 + leap then 9
  else if d <? 334 + leap then 10 else 11.

Definition DateFromTime (t : Z) : Z :=
  DayWithinYear t
  - firstDayOfMonth (MonthFromTime t) (InLeapYear (YearFromTime t)) + 1.

Definition MakeDay (year month date : Z) : Z :=
  let ym := year + month / 12 in
  let mn := month mod 12 in
  DayFromYear ym + firstDayOfMonth mn (InLeapYear ym) + date - 1.
Definition MakeDate (day time : Z) : Z := day * msPerDay + time.
Definition TimeClip (t : Z) : option Z :=
  if Z.abs t <=? 8640000000000000 then Some t else None.
End JSDate.

(** ** The platform *)

Class Platform :=
  { (** express-validator's [isMongoId] and [isISO8601] on a body field *)
    isMongoId : string → bool;
    isISO8601 : string → bool;
    (** Mongoose's cast of a string to an ObjectId (its canonical string);
        [None] is the CastError *)
    castObjectId : string → option string;
    (** Mongoose's cast of a string to a Date path; [None] is the CastError *)
    Date_cast : string → option Z;
    (** [new Date(string)]; [None] is the invalid date (time value NaN) *)
    Date_parse : string → option Z;
    (** ECMA-262's [LocalTZA(t, isUTC)]: the offset of local time from UTC
        in milliseconds, at the UTC time value [t] when [isUTC] is true and
        at the local time value [t] when it is false; it follows the
        daylight-saving rules of the server's zone *)
    LocalTZA : Z → bool → Z;
    (** the [trim()] sanitizer of a validation chain and the schema option
        [trim: true]: [String.prototype.trim] *)
    String_trim : string → string }.

(** What the runtime draws while a request is served: [Date.now()], the
    nine characters [Math.random().toString(36).substr(2, 9)] and the
    ObjectIds given to new documents, in order. *)
Record Env :=
  { Date_now : Z; randomSuffix : string; newObjectId : nat → string;
    (** the later clock reading of the schema default [paymentDate: Date.now] *)
    defaultPaymentDate : Z }.

(** Modelled from the spec: [middleware/auth.js] is not among the sources.
    [auth] supplies the resolved principal and answers 401 when there is
    none (the tests of every route expect 401 and [success: false]);
    [authorize(...roles)] forbids every role outside [roles]. *)
Definition auth (user : option Principal) : Handler Principal :=
  match user with
  | Some u => ret u
  | None => reply (json 401 false (Some "Unauthorized") NoPayload)
  end.

Definition authorize (roles : list Role.t) (u : Principal) : Handler unit :=
  rejectIf (negb (bool_decide (role u ∈ roles))) 403 "Forbidden".

(** express-validator: one entry per failing chain. *)
Definition check (ok : bool) (msg : string) : list string :=
  if ok then [] else [msg].
Definition optional {A} (field : option A) (ok : A → bool) (msg : string) : list string :=
  match field with None => [] | Some v => check (ok v) msg end.
Definition isIn (values : list string) (v : string) : bool := bool_decide (v ∈ values).

(** [if (!errors.isEmpty()) return res.status(400).json({ success: false, errors })] *)
Definition validationResult (errors : list string) : Handler unit :=
  match errors with
  | [] => ret tt
  | _ => reply (json 400 false None (Errors errors))
  end.

(** JavaScript truthiness of an optional string field. *)
Definition truthy (field : option string) : bool :=
  match field with Some v => negb (String.eqb v "") | None => false end.

Definition paymentMethods : list string := ["online"; "check"; "cash"; "bank-transfer"].
Definition frequencies : list string := ["monthly"; "quarterly"; "yearly"].

(** *** Request bodies and query strings *)

(** Body of the assign-property and remove-property requests. *)
Module TenantProperty.
Record Body :=
  { propertyId : string; moveInDate : option string; leaseEndDate : option string }.
End TenantProperty.

(** Body of PUT /api/properties/:id, for the requests that name no other
    field than those the record above keeps: [name], [monthlyRent] and
    [status]. *)
Module PropertyUpdate.
Record Body :=
  { name : option string; monthlyRent : option Q; status : option string }.
End PropertyUpdate.

(** Body of POST /api/rent-schedules/bulk. *)
Module Bulk.
Record Body :=
  { property : string; tenant : string; amount : Q;
    startDate : string; endDate : string;
    frequency : string; paymentMethod : option string }.
(** One object pushed on [schedules]. *)
Record Entry :=
  { e_property : string; e_tenant : string; e_amount : Q; e_dueDate : Z;
    e_paymentMethod : string; e_recurring : bool; e_frequency : string }.
End Bulk.

(** Body of POST /api/payments; [amount] is the number the validated field
    denotes. *)
Module NewPayment.
Record Body :=
  { rentSchedule : string; amount : Q; paymentMethod : string;
    notes : option string }.
End NewPayment.

(** Query string of the list routes. *)
Module ListQuery.
(** [dateFrom]/[dateTo] are [dueDateFrom]/[dueDateTo] for rent schedules
    and [paymentDateFrom]/[paymentDateTo] for payments; [paymentMethod]
    is read by the payments list only. *)
Record t :=
  { page : option Z; limit : option Z;
    status : option string; propertyId : option string;
    tenantId : option string;
    dateFrom : option string; dateTo : option string;
    paymentMethod : option string }.
End ListQuery.

(** The MongoDB filter the list routes build. *)
Module Filter.
Inductive IdCond := Eq (id : string) | In_ (ids : list string).
Record t :=
  { tenant : option string;
    property : option IdCond;
    status : option string;
    paymentMethod : option string;
    gte : option Z;
    lte : option Z }.
Definition empty : t :=
  {| tenant := None; property := None; status := None;
     paymentMethod := None; gte := None; lte := None |}.
Definition with_tenant (v : string) (q : t) : t :=
  {| tenant := Some v; property := property q; status := status q;
     paymentMethod := paymentMethod q; gte := gte q; lte := lte q |}.
Definition with_property (c : IdCond) (q : t) : t :=
  {| tenant := tenant q; property := Some c; status := status q;
     paymentMethod := paymentMethod q; gte := gte q; lte := lte q |}.
Definition with_status (v : string) (q : t) : t :=
  {| tenant := tenant q; property := property q; status := Some v;
     paymentMethod := paymentMethod q; gte := gte q; lte := lte q |}.
Definition with_paymentMethod (v : string) (q : t) : t :=
  {| tenant := tenant q; property := property q; status := status q;
     paymentMethod := Some v; gte := gte q; lte := lte q |}.
Definition with_gte (d : Z) (q : t) : t :=
  {| tenant := tenant q; property := property q; status := status q;
     paymentMethod := paymentMethod q; gte := Some d; lte := lte q |}.
Definition with_lte (d : Z) (q : t) : t :=
  {| tenant := tenant q; property := property q; status := status q;
     paymentMethod := paymentMethod q; gte := gte q; lte := Some d |}.
Definition idCond (c : option IdCond) (id : string) : bool :=
  match c with
  | None => true
  | Some (Eq i) => String.eqb id i
  | Some (In_ ids) => bool_decide (id ∈ ids)
  end.
Definition opt {A} (c : option A) (ok : A → bool) : bool :=
  match c with None => true | Some v => ok v end.
(** Does a document with these fields satisfy the filter? *)
Definition matches (q : t) (docTenant docProperty docStatus docMethod : string)
    (docDate : Z) : bool :=
  opt (tenant q) (String.eqb docTenant)
  && idCond (property q) docProperty
  && opt (status q) (String.eqb docStatus)
  && opt (paymentMethod q) (String.eqb docMethod)
  && opt (gte q) (λ d, d <=? docDate)
  && opt (lte q) (λ d, docDate <=? d).
End Filter.

Definition rentScheduleStatusName (st : RentSchedule.Status) : string :=
  match st with
  | RentSchedule.pending => "pending" | RentSchedule.paid => "paid"
  | RentSchedule.overdue => "overdue" | RentSchedule.partial => "partial"
  end.

Definition paymentStatusName (st : Payment.Status) : string :=
  match st with
  | Payment.pending => "pending" | Payment.completed => "completed"
  | Payment.failed => "failed" | Payment.refunded => "refunded"
  end.

Definition propertyStatusOfName (v : string) : option Property.Status :=
  if String.eqb v "available" then Some Property.available
  else if String.eqb v "occupied" then Some Property.occupied
  else if String.eqb v "maintenance" then Some Property.maintenance
  else if String.eqb v "unavailable" then Some Property.unavailable
  else None.

Section Routes.
Context {P : Platform}.

(** [Model.findById(id)]: the id is cast first. *)
Definition findById {D} (coll : Store → gmap string D) (id : string)
  : Handler (option D) :=
  match castObjectId id with
  | Some oid => gets (λ s, coll s !! oid)
  | None => throw
  end.

(** Mongoose's cast of a date path that was assigned the string [field];
    the path keeps [old] when the assignment was skipped. *)
Definition castDate (field : option string) (old : option Z) : Handler (option Z) :=
  if truthy field then
    match field ≫= Date_cast with
    | Some d => ret (Some d)
    | None => throw
    end
  else ret old.

(** [property.landlord.toString() !== req.user._id.toString()] for a landlord *)
Definition foreignLandlord (u : Principal) (owner : string) : bool :=
  bool_decide (role u = Role.landlord) && negb (String.eqb owner (_id u)).

(** *** routes/tenants.js *)

(** POST /api/tenants/:id/assign-property *)
Definition assignProperty (user : option Principal) (id : string)
    (body : TenantProperty.Body) : Handler Response :=
  let* u := auth user in
  authorize [Role.admin; Role.landlord] u;;;
  validationResult
    (check (isMongoId (TenantProperty.propertyId body)) "Valid property ID required"
     ++ optional (TenantProperty.moveInDate body) isISO8601 "Invalid value"
     ++ optional (TenantProperty.leaseEndDate body) isISO8601 "Invalid value");;;
  let propertyId := TenantProperty.propertyId body in
  let moveInDate := TenantProperty.moveInDate body in
  let leaseEndDate := TenantProperty.leaseEndDate body in
  let tenantId := id in
  (* Verify tenant exists *)
  let* tenant := findById users tenantId in
  rejectIf (negb (bool_decide (User.role <$> tenant = Some Role.tenant)))
    404 "Tenant not found";;;
  (* Verify property exists *)
  let* property := findById properties propertyId in
  match property with
  | None => reply (json 404 false (Some "Property not found") NoPayload)
  | Some property =>
    (* Check if landlord owns the property *)
    rejectIf (foreignLandlord u (Property.landlord property)) 403 "Access denied";;;
    (* Check if property is available *)
    rejectIf (negb (bool_decide (Property.status property = Property.available)))
      400 "Property is not available for assignment";;;
    (* Update property *)
    match castObjectId tenantId, castObjectId propertyId with
    | Some tenantOid, Some propertyOid =>
      let lease := Property.leaseTerms property in
      let* start := castDate moveInDate (Property.startDate lease) in
      let* end_ := castDate leaseEndDate (Property.endDate lease) in
      let property' :=
        {| Property.name := Property.name property;
           Property.monthlyRent := Property.monthlyRent property;
           Property.landlord := Property.landlord property;
           Property.currentTenant := Some tenantOid;
           Property.status := Property.occupied;
           Property.leaseTerms :=
             {| Property.startDate := start;
                Property.endDate := end_;
                Property.renewalTerms := Property.renewalTerms lease |} |} in
      modify (set_properties <[propertyOid := property']>);;;
      (* Update tenant info *)
      (if truthy moveInDate || truthy leaseEndDate then
         modify (set_users (alter (λ t,
           {| User.role := User.role t;
              User.tenantInfo :=
                {| User.moveInDate :=
                     if truthy moveInDate then start
                     else User.moveInDate (User.tenantInfo t);
                   User.leaseEndDate :=
                     if truthy leaseEndDate then end_
                     else User.leaseEndDate (User.tenantInfo t) |} |})
           tenantOid))
       else ret tt);;;
      let* updatedProperty := findById properties propertyId in
      ret (json 200 true (Some "Tenant assigned to property successfully")
             (PropertyDoc updatedProperty))
    | _, _ => throw
    end
  end.

(** POST /api/tenants/:id/remove-property *)
Definition removeProperty (user : option Principal) (id : string)
    (body : TenantProperty.Body) : Handler Response :=
  let* u := auth user in
  authorize [Role.admin; Role.landlord] u;;;
  validationResult
    (check (isMongoId (TenantProperty.propertyId body)) "Valid property ID required");;;
  let propertyId := TenantProperty.propertyId body in
  let tenantId := id in
  (* Verify tenant exists *)
  let* tenant := findById users tenantId in
  rejectIf (negb (bool_decide (User.role <$> tenant = Some Role.tenant)))
    404 "Tenant not found";;;
  (* Verify property exists *)
  let* property := findById properties propertyId in
  match property with
  | None => reply (json 404 false (Some "Property not found") NoPayload)
  | Some property =>
    (* Check if landlord owns the property *)
    rejectIf (foreignLandlord u (Property.landlord property)) 403 "Access denied";;;
    (* Check if tenant is currently assigned to this property *)
    rejectIf (negb (bool_decide (Property.currentTenant property = Some tenantId)))
      400 "Tenant is not currently assigned to this property";;;
    (* Update property *)
    match castObjectId propertyId with
    | Some propertyOid =>
      let property' :=
        {| Property.name := Property.name property;
           Property.monthlyRent := Property.monthlyRent property;
           Property.landlord := Property.landlord property;
           Property.currentTenant := None;
           Property.status := Property.available;
           Property.leaseTerms := Property.noLeaseTerms |} in
      modify (set_properties <[propertyOid := property']>);;;
      let* updatedProperty := findById properties propertyId in
      ret (json 200 true (Some "Tenant removed from property successfully")
             (PropertyDoc updatedProperty))
    | None => throw
    end
  end.

(** *** routes/properties.js *)

(** [Property.findByIdAndUpdate(id, req.body, { new: true, runValidators: true })]
    on the sanitized body: the name was trimmed by its validation chain and
    is trimmed again by the schema; the update validators reject an empty
    name ([required]), a negative rent and a status outside the enum. *)
Definition updateProperty (body : PropertyUpdate.Body) (p : Property.t)
  : option Property.t :=
  let name' := String_trim <$> (String_trim <$> PropertyUpdate.name body) in
  let nameOk :=
    match name' with
    | Some v => negb (String.eqb v "")
    | None => true
    end in
  let rentOk :=
    match PropertyUpdate.monthlyRent body with
    | Some r => Qle_bool 0 r
    | None => true
    end in
  let status' :=
    match PropertyUpdate.status body with
    | Some v => propertyStatusOfName v
    | None => Some (Property.status p)
    end in
  match nameOk && rentOk, status' with
  | true, Some st =>
    Some {| Property.name := default (Property.name p) name';
            Property.monthlyRent :=
              default (Property.monthlyRent p) (PropertyUpdate.monthlyRent body);
            Property.landlord := Property.landlord p;
            Property.currentTenant := Property.currentTenant p;
            Property.status := st;
            Property.leaseTerms := Property.leaseTerms p |}
  | _, _ => None
  end.

(** PUT /api/properties/:id *)
Definition putProperty (user : option Principal) (id : string)
    (body : PropertyUpdate.Body) : Handler Response :=
  let* u := auth user in
  validationResult
    (optional (PropertyUpdate.name body) (λ v, negb (String.eqb v "")) "Invalid value"
     ++ optional (PropertyUpdate.status body)
          (isIn ["available"; "occupied"; "maintenance"; "unavailable"])
          "Invalid value");;;
  let* property := findById properties id in
  match property with
  | None => reply (json 404 false (Some "Property not found") NoPayload)
  | Some property =>
    (* Check permissions *)
    rejectIf (foreignLandlord u (Property.landlord property)) 403 "Access denied";;;
    match castObjectId id, updateProperty body property with
    | Some oid, Some property' =>
      modify (set_properties <[oid := property']>);;;
      ret (json 200 true (Some "Property updated successfully")
             (PropertyDoc (Some property')))
    | _, _ => throw
    end
  end.

(** DELETE /api/properties/:id *)
Definition deleteProperty (user : option Principal) (id : string)
  : Handler Response :=
  let* u := auth user in
  let* property := findById properties id in
  match property with
  | None => reply (json 404 false (Some "Property not found") NoPayload)
  | Some property =>
    (* Check permissions *)
    rejectIf (foreignLandlord u (Property.landlord property)) 403 "Access denied";;;
    match castObjectId id with
    | Some oid =>
      modify (set_properties (delete oid));;;
      ret (json 200 true (Some "Property deleted successfully") NoPayload)
    | None => throw
    end
  end.

(** *** The list queries of routes/rentSchedules.js and routes/payments.js *)

(** [Property.find({ landlord: req.user._id }).select('_id')] *)
Definition ownedPropertyIds (uid : string) (s : Store) : list string :=
  (map_to_list (filter (λ kp, Property.landlord kp.2 = uid) (properties s))).*1.

(** Role-based filtering *)
Definition roleFilter (u : Principal) : Handler Filter.t :=
  match role u with
  | Role.tenant => ret (Filter.with_tenant (_id u) Filter.empty)
  | Role.landlord =>
    (* Get properties owned by landlord *)
    let* propertyIds := gets (ownedPropertyIds (_id u)) in
    ret (Filter.with_property (Filter.In_ propertyIds) Filter.empty)
  | Role.admin => ret Filter.empty
  end.

(** A filter value that Mongoose casts when the query runs. *)
Definition castInto {A} (cast : string → option A) (field : option string)
    (set : A → Filter.t → Filter.t) (q : Filter.t) : Handler Filter.t :=
  match field ≫= cast with
  | Some v => ret (set v q)
  | None => throw
  end.

Definition newDate (v : string) : option Z := Date_parse v ≫= JSDate.TimeClip.

(** Apply filters *)
Definition applyFilters (u : Principal) (query : ListQuery.t) (forPayments : bool)
    (q : Filter.t) : Handler Filter.t :=
  let q :=
    match ListQuery.status query with
    | Some v => if truthy (Some v) then Filter.with_status v q else q
    | None => q
    end in
  let* q :=
    if truthy (ListQuery.propertyId query)
    then castInto castObjectId (ListQuery.propertyId query)
           (λ v, Filter.with_property (Filter.Eq v)) q
    else ret q in
  let* q :=
    if truthy (ListQuery.tenantId query) && bool_decide (role u = Role.admin)
    then castInto castObjectId (ListQuery.tenantId query) Filter.with_tenant q
    else ret q in
  let q :=
    match ListQuery.paymentMethod query with
    | Some v => if forPayments && truthy (Some v)
                then Filter.with_paymentMethod v q else q
    | None => q
    end in
  let* q :=
    if truthy (ListQuery.dateFrom query)
    then castInto newDate (ListQuery.dateFrom query) Filter.with_gte q
    else ret q in
  if truthy (ListQuery.dateTo query)
  then castInto newDate (ListQuery.dateTo query) Filter.with_lte q
  else ret q.

(** [.limit(limit * 1).skip((page - 1) * limit)]: the server refuses a
    negative skip, reads a zero limit as no limit and a negative limit as
    its absolute value. *)
Definition paginate {A} (page limit : option Z) (docs : list A) : Handler (list A) :=
  let page := default 1 page in
  let limit := default 10 limit in
  let skip := (page - 1) * limit in
  if skip <? 0 then throw
  else
    let rest := drop (Z.to_nat skip) docs in
    ret (if limit =? 0 then rest else take (Z.to_nat (Z.abs limit)) rest).

Definition matchesRentSchedule (q : Filter.t) (d : string * RentSchedule.t) : bool :=
  Filter.matches q (RentSchedule.tenant d.2) (RentSchedule.property d.2)
    (rentScheduleStatusName (RentSchedule.status d.2))
    (RentSchedule.paymentMethod d.2) (RentSchedule.dueDate d.2).

Definition matchesPayment (q : Filter.t) (d : string * Payment.t) : bool :=
  Filter.matches q (Payment.tenant d.2) (Payment.property d.2)
    (paymentStatusName (Payment.status d.2))
    (Payment.paymentMethod d.2) (Payment.paymentDate d.2).

(** [.sort({ dueDate: 1 })] and [.sort({ paymentDate: -1 })] *)
Definition dueDateAscending (a b : string * RentSchedule.t) : Prop :=
  RentSchedule.dueDate a.2 ≤ RentSchedule.dueDate b.2.
Definition paymentDateDescending (a b : string * Payment.t) : Prop :=
  Payment.paymentDate b.2 ≤ Payment.paymentDate a.2.

#[local] Instance dueDateAscending_dec : RelDecision dueDateAscending.
Proof. intros a b. unfold dueDateAscending. apply _. Defined.
#[local] Instance paymentDateDescending_dec : RelDecision paymentDateDescending.
Proof. intros a b. unfold paymentDateDescending. apply _. Defined.

(** GET /api/rent-schedules *)
Definition listRentSchedules (user : option Principal) (query : ListQuery.t)
  : Handler Response :=
  let* u := auth user in
  let* q := roleFilter u in
  let* q := applyFilters u query false q in
  let* found := gets (λ s, List.filter (matchesRentSchedule q)
                             (map_to_list (rentSchedules s))) in
  let* rentSchedules :=
    paginate (ListQuery.page query) (ListQuery.limit query)
      (merge_sort dueDateAscending found) in
  ret (json 200 true None (RentScheduleList rentSchedules (length found))).

(** GET /api/payments *)
Definition listPayments (user : option Principal) (query : ListQuery.t)
  : Handler Response :=
  let* u := auth user in
  let* q := roleFilter u in
  let* q := applyFilters u query true q in
  let* found := gets (λ s, List.filter (matchesPayment q)
                             (map_to_list (payments s))) in
  let* payments :=
    paginate (ListQuery.page query) (ListQuery.limit query)
      (merge_sort paymentDateDescending found) in
  ret (json 200 true None (PaymentList payments (length found))).

(** *** routes/rentSchedules.js *)

(** DELETE /api/rent-schedules/:id *)
Definition deleteRentSchedule (user : option Principal) (id : string)
  : Handler Response :=
  let* u := auth user in
  let* rentSchedule := findById rentSchedules id in
  match rentSchedule with
  | None => reply (json 404 false (Some "Rent schedule not found") NoPayload)
  | Some rentSchedule =>
    (* .populate('property', 'landlord') *)
    let* property := gets (λ s, properties s !! RentSchedule.property rentSchedule) in
    (* Check permissions *)
    let* denied :=
      if bool_decide (role u = Role.landlord) then
        match property with
        | Some property => ret (negb (String.eqb (Property.landlord property) (_id u)))
        | None => throw
        end
      else ret false in
    rejectIf denied 403 "Access denied";;;
    match castObjectId id with
    | Some oid =>
      modify (set_rentSchedules (delete oid));;;
      ret (json 200 true (Some "Rent schedule deleted successfully") NoPayload)
    | None => throw
    end
  end.

(** ECMA-262's [LocalTime(t)] and [UTC(t)]. *)
Definition LocalTime (t : Z) : Z := t + LocalTZA t true.
Definition UTC (t : Z) : Z := t - LocalTZA t false.

(** The local-time readers and writers of [Date]. *)
Definition getMonth (t : Z) : Z := JSDate.MonthFromTime (LocalTime t).
Definition getFullYear (t : Z) : Z := JSDate.YearFromTime (LocalTime t).
Definition setMonth (t month : Z) : option Z :=
  let local := LocalTime t in
  let newDate :=
    JSDate.MakeDate
      (JSDate.MakeDay (JSDate.YearFromTime local) month (JSDate.DateFromTime local))
      (JSDate.TimeWithinDay local) in
  JSDate.TimeClip (UTC newDate).
Definition setFullYear (t year : Z) : option Z :=
  let local := LocalTime t in
  let newDate :=
    JSDate.MakeDate
      (JSDate.MakeDay year (JSDate.MonthFromTime local) (JSDate.DateFromTime local))
      (JSDate.TimeWithinDay local) in
  JSDate.TimeClip (UTC newDate).

(** Calculate next date based on frequency: the [switch] has no default. *)
Definition nextDate (frequency : string) (currentDate : Z) : option Z :=
  if String.eqb frequency "monthly" then
    setMonth currentDate (getMonth currentDate + 1)
  else if String.eqb frequency "quarterly" then
    setMonth currentDate (getMonth currentDate + 3)
  else if String.eqb frequency "yearly" then
    setFullYear currentDate (getFullYear currentDate + 1)
  else Some currentDate.

Definition bulkEntry (body : Bulk.Body) (currentDate : Z) : Bulk.Entry :=
  {| Bulk.e_property := Bulk.property body;
     Bulk.e_tenant := Bulk.tenant body;
     Bulk.e_amount := Bulk.amount body;
     Bulk.e_dueDate := currentDate;
     Bulk.e_paymentMethod := default "online" (Bulk.paymentMethod body);
     Bulk.e_recurring := true;
     Bulk.e_frequency := Bulk.frequency body |}.

(** [while (currentDate <= end) { schedules.push(..); switch .. }], for at
    most [fuel] rounds; [None] when the rounds do not suffice. An invalid
    date compares false. *)
Fixpoint bulkLoop (fuel : nat) (body : Bulk.Body) (end_ currentDate : option Z)
  : option (list Bulk.Entry) :=
  match currentDate, end_ with
  | Some c, Some e =>
    if c <=? e then
      match fuel with
      | O => None
      | S fuel' =>
        cons (bulkEntry body c)
          <$> bulkLoop fuel' body end_ (nextDate (Bulk.frequency body) c)
      end
    else Some []
  | _, _ => Some []
  end.

(** The rounds the loop is given: one for each day from the start date to
    the end date. Every step advances by more than a day as long as the
    offsets of the zone differ by less than 27 days
    ([nextDate_advances] below). *)
Definition bulkFuel (start end_ : option Z) : nat :=
  match start, end_ with
  | Some c, Some e => S (Z.to_nat ((e - c) / JSDate.msPerDay))
  | _, _ => O
  end.

(** The document Mongoose builds from a pushed object: casts, schema
    defaults ([status: 'pending'], [lateFee: 0]) and validators. *)
Definition newRentSchedule (e : Bulk.Entry) : option RentSchedule.t :=
  match castObjectId (Bulk.e_property e), castObjectId (Bulk.e_tenant e) with
  | Some property, Some tenant =>
    if Qle_bool 0 (Bulk.e_amount e)
       && isIn paymentMethods (Bulk.e_paymentMethod e)
       && isIn frequencies (Bulk.e_frequency e)
    then Some {| RentSchedule.property := property;
                 RentSchedule.tenant := tenant;
                 RentSchedule.amount := Bulk.e_amount e;
                 RentSchedule.dueDate := Bulk.e_dueDate e;
                 RentSchedule.status := RentSchedule.pending;
                 RentSchedule.paymentMethod := Bulk.e_paymentMethod e;
                 RentSchedule.lateFee := 0;
                 RentSchedule.notes := None;
                 RentSchedule.recurring := Bulk.e_recurring e;
                 RentSchedule.frequency := Bulk.e_frequency e |}
    else None
  | _, _ => None
  end.

(** The ordered insert: documents go in one by one under the ids the
    driver generates, and a duplicate key stops the batch. *)
Fixpoint insertAll (ids : nat → string) (k : nat) (docs : list RentSchedule.t)
  : Handler (list (string * RentSchedule.t)) :=
  match docs with
  | [] => ret []
  | d :: docs' =>
    let* taken := gets (λ s, rentSchedules s !! ids k) in
    match taken with
    | Some _ => throw
    | None =>
      modify (set_rentSchedules <[ids k := d]>);;;
      let* rest := insertAll ids (S k) docs' in
      ret ((ids k, d) :: rest)
    end
  end.

(** [RentSchedule.insertMany(schedules)]: every document is validated
    before the first one is written. *)
Definition insertMany (env : Env) (schedules : list Bulk.Entry)
  : Handler (list (string * RentSchedule.t)) :=
  match mapM newRentSchedule schedules with
  | Some docs => insertAll (newObjectId env) O docs
  | None => throw
  end.

(** [`${createdSchedules.length} rent schedules created successfully`] *)
Definition bulkMessage (n : nat) : string :=
  pretty n +:+ " rent schedules created successfully".

(** POST /api/rent-schedules/bulk *)
Definition bulkRentSchedules (env : Env) (user : option Principal)
    (body : Bulk.Body) : Handler Response :=
  let* u := auth user in
  authorize [Role.admin; Role.landlord] u;;;
  validationResult
    (check (isMongoId (Bulk.property body)) "Invalid value"
     ++ check (isMongoId (Bulk.tenant body)) "Invalid value"
     ++ check (isISO8601 (Bulk.startDate body)) "Invalid value"
     ++ check (isISO8601 (Bulk.endDate body)) "Invalid value"
     ++ check (isIn frequencies (Bulk.frequency body)) "Invalid value"
     ++ optional (Bulk.paymentMethod body) (isIn paymentMethods) "Invalid value");;;
  (* Verify property exists and user has access *)
  let* propertyDoc := findById properties (Bulk.property body) in
  match propertyDoc with
  | None => reply (json 404 false (Some "Property not found") NoPayload)
  | Some propertyDoc =>
    rejectIf (foreignLandlord u (Property.landlord propertyDoc)) 403 "Access denied";;;
    let start := newDate (Bulk.startDate body) in
    let end_ := newDate (Bulk.endDate body) in
    match bulkLoop (bulkFuel start end_) body end_ start with
    | None => throw
    | Some schedules =>
      let* createdSchedules := insertMany env schedules in
      ret (json 201 true (Some (bulkMessage (length createdSchedules)))
             (Count (length createdSchedules)))
    end
  end.

(** *** routes/payments.js *)

Definition setStatus (st : RentSchedule.Status) (r : RentSchedule.t) : RentSchedule.t :=
  {| RentSchedule.property := RentSchedule.property r;
     RentSchedule.tenant := RentSchedule.tenant r;
     RentSchedule.amount := RentSchedule.amount r;
     RentSchedule.dueDate := RentSchedule.dueDate r;
     RentSchedule.status := st;
     RentSchedule.paymentMethod := RentSchedule.paymentMethod r;
     RentSchedule.lateFee := RentSchedule.lateFee r;
     RentSchedule.notes := RentSchedule.notes r;
     RentSchedule.recurring := RentSchedule.recurring r;
     RentSchedule.frequency := RentSchedule.frequency r |}.

(** Generate transaction ID *)
Definition transactionIdOf (env : Env) : string :=
  "TXN_" +:+ pretty (Date_now env) +:+ "_" +:+ randomSuffix env.

(** [payment.save()]: the schema validators ([amount] at least 0, the
    payment method in the enum), then the insert under the unique indexes
    on [_id] and [transactionId]. *)
Definition savePayment (env : Env) (payment : Payment.t) : Handler string :=
  let id := newObjectId env O in
  let* existing := gets payments in
  if negb (Qle_bool 0 (Payment.amount payment)
           && isIn paymentMethods (Payment.paymentMethod payment))
  then throw
  else if bool_decide (is_Some (existing !! id)) then throw
  else if bool_decide
            (Exists (λ d, Payment.transactionId d.2 = Payment.transactionId payment)
               (map_to_list existing))
  then throw
  else modify (set_payments <[id := payment]>);;; ret id.

(** POST /api/payments *)
Definition createPayment (env : Env) (user : option Principal)
    (body : NewPayment.Body) : Handler Response :=
  let* u := auth user in
  validationResult
    (check (isMongoId (NewPayment.rentSchedule body)) "Valid rent schedule ID required"
     ++ check (isIn paymentMethods (NewPayment.paymentMethod body)) "Invalid value");;;
  let rentScheduleId := NewPayment.rentSchedule body in
  let amount := NewPayment.amount body in
  (* body('notes').optional().trim() *)
  let notes := String_trim <$> NewPayment.notes body in
  (* Verify rent schedule exists *)
  let* rentSchedule := findById rentSchedules rentScheduleId in
  match rentSchedule with
  | None => reply (json 404 false (Some "Rent schedule not found") NoPayload)
  | Some rentSchedule =>
    (* .populate('property', 'landlord') *)
    let* property := gets (λ s, properties s !! RentSchedule.property rentSchedule) in
    (* Check permissions *)
    let* hasAccess :=
      if bool_decide (role u = Role.admin) then ret true
      else match property with
           | Some property =>
             ret (String.eqb (Property.landlord property) (_id u)
                  || String.eqb (RentSchedule.tenant rentSchedule) (_id u))
           | None => throw
           end in
    rejectIf (negb hasAccess) 403 "Access denied";;;
    (* Generate transaction ID *)
    let transactionId := transactionIdOf env in
    match property, castObjectId rentScheduleId with
    | Some _, Some rentScheduleOid =>
      let payment :=
        {| Payment.rentSchedule := rentScheduleOid;
           Payment.property := RentSchedule.property rentSchedule;
           Payment.tenant := RentSchedule.tenant rentSchedule;
           Payment.amount := amount;
           Payment.paymentDate := defaultPaymentDate env;
           Payment.paymentMethod := NewPayment.paymentMethod body;
           Payment.status := Payment.completed;
           Payment.transactionId := transactionId;
           Payment.notes := String_trim <$> notes |} in
      let* paymentId := savePayment env payment in
      (* Update rent schedule status if payment covers full amount *)
      (if Qle_bool (RentSchedule.amount rentSchedule) amount then
         modify (set_rentSchedules (alter (setStatus RentSchedule.paid) rentScheduleOid))
       else if negb (Qle_bool amount 0) then
         modify (set_rentSchedules (alter (setStatus RentSchedule.partial) rentScheduleOid))
       else ret tt);;;
      let* populatedPayment := gets (λ s, payments s !! paymentId) in
      ret (json 201 true (Some "Payment created successfully")
             (PaymentDoc populatedPayment))
    | _, _ => throw
    end
  end.

End Routes.

(** ** Vocabulary of the properties

    The predicates the theorems below are stated with: preconditions of the
    routes, the invariants of the data model, and the specification's
    sentences where the code departs from them. *)

Section Vocabulary.
Context {P : Platform}.

(** The occupancy invariant of the data model. *)
Definition occupancyInvariant (p : Property.t) : Prop :=
  (Property.status p = Property.occupied → Property.currentTenant p ≠ None)
  ∧ (Property.status p = Property.available → Property.currentTenant p = None).

(** The actor may manage the property: an admin, or the landlord who owns it. *)
Definition managesProperty (u : Principal) (p : Property.t) : Prop :=
  role u = Role.admin ∨ (role u = Role.landlord ∧ Property.landlord p = _id u).

(** The assign-property body passes its validators. *)
Definition validAssignBody (body : TenantProperty.Body) : Prop :=
  isMongoId (TenantProperty.propertyId body) = true
  ∧ (∀ v, TenantProperty.moveInDate body = Some v → isISO8601 v = true)
  ∧ (∀ v, TenantProperty.leaseEndDate body = Some v → isISO8601 v = true).

(** The sentence of C4 as the specification has it, at one request. *)
Definition assign_fails_with_InvalidState user id body (s : Store) : Prop :=
  ∀ oid p,
    castObjectId (TenantProperty.propertyId body) = Some oid →
    properties s !! oid = Some p →
    Property.status p ≠ Property.available →
    kindOf (route (assignProperty user id body) s).1 = InvalidState
    ∧ (route (assignProperty user id body) s).2 = s.

(** The sentence of C5 as the specification has it, at one request. *)
Definition remove_fails_with_InvalidState user id body (s : Store) : Prop :=
  ∀ oid p,
    castObjectId (TenantProperty.propertyId body) = Some oid →
    properties s !! oid = Some p →
    Property.currentTenant p ≠ Some id →
    kindOf (route (removeProperty user id body) s).1 = InvalidState
    ∧ (route (removeProperty user id body) s).2 = s.

(** The actor may record a payment against the schedule: an admin, the
    landlord of the schedule's property, or the schedule's tenant. *)
Definition hasAccess (u : Principal) (p : Property.t) (r : RentSchedule.t) : Prop :=
  role u = Role.admin ∨ Property.landlord p = _id u ∨ RentSchedule.tenant r = _id u.

(** Neither the id nor the transaction identifier drawn for the new payment
    is in use. *)
Definition freshTransaction (env : Env) (s : Store) : Prop :=
  payments s !! newObjectId env O = None
  ∧ ∀ k d, payments s !! k = Some d → Payment.transactionId d ≠ transactionIdOf env.

(** The payment body passes its validators. *)
Definition validPaymentBody (body : NewPayment.Body) : Prop :=
  isMongoId (NewPayment.rentSchedule body) = true
  ∧ NewPayment.paymentMethod body ∈ paymentMethods.

(** The record [payment.save()] writes. *)
Definition newPayment (env : Env) (body : NewPayment.Body) (oid : string)
    (r : RentSchedule.t) : Payment.t :=
  {| Payment.rentSchedule := oid;
     Payment.property := RentSchedule.property r;
     Payment.tenant := RentSchedule.tenant r;
     Payment.amount := NewPayment.amount body;
     Payment.paymentDate := defaultPaymentDate env;
     Payment.paymentMethod := NewPayment.paymentMethod body;
     Payment.status := Payment.completed;
     Payment.transactionId := transactionIdOf env;
     Payment.notes := String_trim <$> (String_trim <$> NewPayment.notes body) |}.

(** Transaction ids are pairwise distinct: the unique index. *)
Definition uniqueTransactionIds (s : Store) : Prop :=
  ∀ k1 k2 d1 d2,
    payments s !! k1 = Some d1 → payments s !! k2 = Some d2 →
    Payment.transactionId d1 = Payment.transactionId d2 → k1 = k2.

(** The identifier that will be generated is the one of a stored payment. *)
Definition collides (env : Env) (s : Store) : Prop :=
  ∃ k d, payments s !! k = Some d ∧ Payment.transactionId d = transactionIdOf env.

(** The sentence of C1 as the specification has it, at one request. *)
Definition payment_status_as_stated env user body (s : Store) : Prop :=
  ∀ oid r,
    castObjectId (NewPayment.rentSchedule body) = Some oid →
    rentSchedules s !! oid = Some r →
    let amount := NewPayment.amount body in
    ∃ r', rentSchedules (route (createPayment env user body) s).2 !! oid = Some r'
      ∧ ((RentSchedule.amount r <= amount)%Q →
         RentSchedule.status r' = RentSchedule.paid)
      ∧ ((0 < amount)%Q ∧ (amount < RentSchedule.amount r)%Q →
         RentSchedule.status r' = RentSchedule.partial)
      ∧ ((amount == 0)%Q → RentSchedule.status r' = RentSchedule.status r).

(** The retry reading of C9: a colliding identifier never surfaces as the
    generic failure. *)
Definition collision_is_retried env user body (s : Store) : Prop :=
  collides env s →
  kindOf (route (createPayment env user body) s).1 ≠ InternalFailure.

(** The date the loop holds after [k] rounds: [nextDate] iterated. *)
Fixpoint advanced (frequency : string) (k : nat) (start : Z) : option Z :=
  match k with
  | O => Some start
  | S k' => nextDate frequency start ≫= advanced frequency k'
  end.

(** The stored document of the schedule due on [d]. *)
Definition bulkDocument (body : Bulk.Body) (propertyOid tenantOid : string) (d : Z)
  : RentSchedule.t :=
  {| RentSchedule.property := propertyOid;
     RentSchedule.tenant := tenantOid;
     RentSchedule.amount := Bulk.amount body;
     RentSchedule.dueDate := d;
     RentSchedule.status := RentSchedule.pending;
     RentSchedule.paymentMethod := default "online" (Bulk.paymentMethod body);
     RentSchedule.lateFee := 0;
     RentSchedule.notes := None;
     RentSchedule.recurring := true;
     RentSchedule.frequency := Bulk.frequency body |}.

(** The bulk body passes its validators. *)
Definition validBulkBody (body : Bulk.Body) : Prop :=
  isMongoId (Bulk.property body) = true
  ∧ isMongoId (Bulk.tenant body) = true
  ∧ isISO8601 (Bulk.startDate body) = true
  ∧ isISO8601 (Bulk.endDate body) = true
  ∧ Bulk.frequency body ∈ frequencies
  ∧ (∀ v, Bulk.paymentMethod body = Some v → v ∈ paymentMethods).

(** The ids of new documents are unused and pairwise distinct. *)
Definition freshIds (env : Env) (s : Store) : Prop :=
  (∀ k, rentSchedules s !! newObjectId env k = None)
  ∧ ∀ j k, newObjectId env j = newObjectId env k → j = k.

(** The collection after [docs] went in under the ids [ids k], [ids (k+1)], ... *)
Fixpoint inserted (ids : nat → string) (k : nat) (docs : list RentSchedule.t)
    (m : gmap string RentSchedule.t) : gmap string RentSchedule.t :=
  match docs with
  | [] => m
  | d :: docs' => inserted ids (S k) docs' (<[ids k := d]> m)
  end.

(** [nextDate] on a clock set to UTC. *)
Definition nextMidnight (frequency : string) (day : Z) : option Z :=
  let t := day * JSDate.msPerDay in
  if String.eqb frequency "monthly" then
    JSDate.TimeClip
      (JSDate.MakeDay (JSDate.YearFromTime t) (JSDate.MonthFromTime t + 1)
         (JSDate.DateFromTime t) * JSDate.msPerDay)
  else if String.eqb frequency "quarterly" then
    JSDate.TimeClip
      (JSDate.MakeDay (JSDate.YearFromTime t) (JSDate.MonthFromTime t + 3)
         (JSDate.DateFromTime t) * JSDate.msPerDay)
  else if String.eqb frequency "yearly" then
    JSDate.TimeClip
      (JSDate.MakeDay (JSDate.YearFromTime t + 1) (JSDate.MonthFromTime t)
         (JSDate.DateFromTime t) * JSDate.msPerDay)
  else Some t.

(** The offsets of the server's zone never differ by more than [v]
    milliseconds: [v] is 0 in a zone without daylight-saving transitions
    and an hour in most zones with them. *)
Definition offsetsVaryBy (v : Z) : Prop :=
  ∀ t t' isUTC isUTC', LocalTZA t isUTC - LocalTZA t' isUTC' ≤ v.

(** The server's zone is at the fixed offset [tza] from UTC. *)
Definition fixedOffset (tza : Z) : Prop := ∀ t isUTC, LocalTZA t isUTC = tza.

End Vocabulary.

(** *** The calendar of the specification

    The steps of the bulk generator in the words of the specification:
    monthly +1 calendar month, quarterly +3 calendar months, yearly +1
    calendar year. *)

Definition stepMonths (frequency : string) : Z :=
  if String.eqb frequency "monthly" then 1
  else if String.eqb frequency "quarterly" then 3
  else if String.eqb frequency "yearly" then 12
  else 0.

(** A reading of the calendar: year, month (from 0), day of the month and
    time of day. *)
Record Civil := { c_year : Z; c_month : Z; c_day : Z; c_time : Z }.

Definition civil (t : Z) : Civil :=
  {| c_year := JSDate.YearFromTime t; c_month := JSDate.MonthFromTime t;
     c_day := JSDate.DateFromTime t; c_time := JSDate.TimeWithinDay t |}.

(** The time value that reads [c]. *)
Definition civilTime (c : Civil) : Z :=
  JSDate.MakeDate (JSDate.MakeDay (c_year c) (c_month c) (c_day c)) (c_time c).

(** [n] calendar months later: the same day of the month at the same time
    of day, the months past December carried into the year. *)
Definition monthsLater (n : Z) (c : Civil) : Civil :=
  let months := 12 * c_year c + c_month c + n in
  {| c_year := months / 12; c_month := months mod 12;
     c_day := c_day c; c_time := c_time c |}.

(** The start date advanced [k] steps of the frequency, on the calendar of
    a clock [tza] milliseconds ahead of UTC. *)
Definition advancedDate (frequency : string) (tza : Z) (k : nat) (start : Z) : Z :=
  civilTime (monthsLater (stepMonths frequency * Z.of_nat k) (civil (start + tza))) - tza.

(** The sentence of C8 on the example dates, at one request. *)
Definition bulk_example_as_stated (P : Platform) env user body (s : Store) : Prop :=
  Bulk.startDate body = "2024-01-01" → Bulk.endDate body = "2024-03-01" →
  Bulk.frequency body = "monthly" →
  payload (route (bulkRentSchedules env user body) s).1 = Count 3.


(** ** A concrete platform and sample data

    Ids are accepted when they are 24 hexadecimal digits; the date parser
    knows the dates the examples use, as the UTC instants they denote. *)

Definition isHexDigit (c : Ascii.ascii) : bool :=
  let n := Ascii.nat_of_ascii c in
  ((48 <=? n) && (n <=? 57) || (97 <=? n) && (n <=? 102))%nat.

Definition isHex24 (v : string) : bool :=
  (String.length v =? 24)%nat && forallb isHexDigit (String.list_ascii_of_string v).

Definition parseSampleDate (v : string) : option Z :=
  if String.eqb v "2024-01-01" then Some 1704067200000
  else if String.eqb v "2024-02-01" then Some 1706745600000
  else if String.eqb v "2024-03-01" then Some 1709251200000
  else if String.eqb v "2024-12-31" then Some 1735603200000
  else if String.eqb v "2023-02-15T17:00:00Z" then Some 1676480400000
  else if String.eqb v "2023-03-15T16:00:00Z" then Some 1678896000000
  else None.

(** A trim for the examples: leading and trailing blanks, tabs and line
    ends go. *)
Definition isBlank (c : Ascii.ascii) : bool :=
  let n := Ascii.nat_of_ascii c in
  ((n =? 32) || (9 <=? n) && (n <=? 13))%nat.

Fixpoint dropBlanks (l : list Ascii.ascii) : list Ascii.ascii :=
  match l with
  | c :: l' => if isBlank c then dropBlanks l' else l
  | [] => []
  end.

Definition trimBlanks (v : string) : string :=
  String.string_of_list_ascii
    (rev (dropBlanks (rev (dropBlanks (String.list_ascii_of_string v))))).

Definition samplePlatformOf (offset : Z → bool → Z) : Platform :=
  {| isMongoId := isHex24;
     isISO8601 := λ v, bool_decide (is_Some (parseSampleDate v));
     castObjectId := λ v, if isHex24 v then Some v else None;
     Date_cast := parseSampleDate;
     Date_parse := parseSampleDate;
     LocalTZA := offset;
     String_trim := trimBlanks |}.

(** A server in a zone at the fixed offset [tza]. *)
Definition samplePlatform (tza : Z) : Platform := samplePlatformOf (λ _ _, tza).

(** The server clock set to UTC, and to New York winter time (UTC-5). *)
Definition utc : Platform := samplePlatform 0.
Definition newYork : Platform := samplePlatform (-18000000).

(** Eastern Time with the daylight-saving period of 2023: UTC-4 from
    2023-03-12T07:00Z to 2023-11-05T06:00Z, UTC-5 otherwise. A local time
    that the clock skips or shows twice is read with the offset in force
    before the transition. *)
Definition easternOffset (t : Z) (isUTC : bool) : Z :=
  if isUTC
  then if (1678604400000 <=? t) && (t <? 1699164000000) then -14400000 else -18000000
  else if (1678590000000 <=? t) && (t <? 1699149600000) then -14400000 else -18000000.
Definition easternTime : Platform := samplePlatformOf easternOffset.

Definition adminId : string := "507f1f77bcf86cd7994390a0".
Definition landlord1 : string := "507f1f77bcf86cd7994390b1".
Definition landlord2 : string := "507f1f77bcf86cd7994390b2".
Definition tenant1 : string := "507f1f77bcf86cd7994390c1".
Definition tenant2 : string := "507f1f77bcf86cd7994390c2".
Definition property1 : string := "507f1f77bcf86cd7994390d1".
Definition property2 : string := "507f1f77bcf86cd7994390d2".
Definition schedule1 : string := "507f1f77bcf86cd7994390e1".
Definition schedule2 : string := "507f1f77bcf86cd7994390e2".
Definition payment1 : string := "507f1f77bcf86cd7994390f1".

Definition sampleUser (r : Role.t) : User.t :=
  {| User.role := r;
     User.tenantInfo := {| User.moveInDate := None; User.leaseEndDate := None |} |}.

Definition sampleProperty (owner : string) (occupant : option string) : Property.t :=
  {| Property.name := "Flat";
     Property.monthlyRent := 1000;
     Property.landlord := owner;
     Property.currentTenant := occupant;
     Property.status :=
       match occupant with Some _ => Property.occupied | None => Property.available end;
     Property.leaseTerms := Property.noLeaseTerms |}.

Definition sampleSchedule (prop who : string) (due : Q) (st : RentSchedule.Status)
  : RentSchedule.t :=
  {| RentSchedule.property := prop;
     RentSchedule.tenant := who;
     RentSchedule.amount := due;
     RentSchedule.dueDate := 1704067200000;
     RentSchedule.status := st;
     RentSchedule.paymentMethod := "online";
     RentSchedule.lateFee := 0;
     RentSchedule.notes := None;
     RentSchedule.recurring := true;
     RentSchedule.frequency := "monthly" |}.

(** A recorded payment of tenant 2 on property 2. *)
Definition samplePayment : Payment.t :=
  {| Payment.rentSchedule := schedule2;
     Payment.property := property2;
     Payment.tenant := tenant2;
     Payment.amount := 0;
     Payment.paymentDate := 1704067200000;
     Payment.paymentMethod := "cash";
     Payment.status := Payment.completed;
     Payment.transactionId := "TXN_1704067200000_k3j9x0q2m";
     Payment.notes := None |}.

Definition sampleUsers : gmap string User.t :=
  <[adminId := sampleUser Role.admin]>
  (<[landlord1 := sampleUser Role.landlord]>
  (<[landlord2 := sampleUser Role.landlord]>
  (<[tenant1 := sampleUser Role.tenant]>
  (<[tenant2 := sampleUser Role.tenant]> ∅)))).

(** Property 1 of landlord 1 is let to tenant 1; property 2 of landlord 2 is
    free. Each has one rent schedule, and one payment is on record. *)
Definition sampleStore : Store :=
  {| users := sampleUsers;
     properties :=
       <[property1 := sampleProperty landlord1 (Some tenant1)]>
       (<[property2 := sampleProperty landlord2 None]> ∅);
     rentSchedules :=
       <[schedule1 := sampleSchedule property1 tenant1 1000 RentSchedule.pending]>
       (<[schedule2 := sampleSchedule property2 tenant2 0 RentSchedule.pending]> ∅);
     payments := <[payment1 := samplePayment]> ∅ |}.

Definition asAdmin : option Principal := Some {| _id := adminId; role := Role.admin |}.
Definition asLandlord1 : option Principal := Some {| _id := landlord1; role := Role.landlord |}.
Definition asLandlord2 : option Principal := Some {| _id := landlord2; role := Role.landlord |}.
Definition asTenant1 : option Principal := Some {| _id := tenant1; role := Role.tenant |}.
Definition asTenant2 : option Principal := Some {| _id := tenant2; role := Role.tenant |}.

Definition onProperty (pid : string) : TenantProperty.Body :=
  {| TenantProperty.propertyId := pid;
     TenantProperty.moveInDate := None;
     TenantProperty.leaseEndDate := None |}.

Definition markAvailable : PropertyUpdate.Body :=
  {| PropertyUpdate.name := None;
     PropertyUpdate.monthlyRent := None;
     PropertyUpdate.status := Some "available" |}.

(** The query string without filters, every record on one page. *)
Definition everything : ListQuery.t :=
  {| ListQuery.page := None; ListQuery.limit := Some 0;
     ListQuery.status := None; ListQuery.propertyId := None;
     ListQuery.tenantId := None; ListQuery.dateFrom := None;
     ListQuery.dateTo := None; ListQuery.paymentMethod := None |}.

Definition ofProperty (pid : string) : ListQuery.t :=
  {| ListQuery.page := None; ListQuery.limit := None;
     ListQuery.status := None; ListQuery.propertyId := Some pid;
     ListQuery.tenantId := None; ListQuery.dateFrom := None;
     ListQuery.dateTo := None; ListQuery.paymentMethod := None |}.

Definition payment2 : string := "507f1f77bcf86cd7994390f2".

(** A request served at a later instant, and one whose clock reading and
    random suffix repeat those of the recorded payment. *)
Definition laterEnv : Env :=
  {| Date_now := 1717200000000; randomSuffix := "a1b2c3d4e";
     newObjectId := λ _, payment2; defaultPaymentDate := 1717200000001 |}.

Definition collidingEnv : Env :=
  {| Date_now := 1704067200000; randomSuffix := "k3j9x0q2m";
     newObjectId := λ _, payment2; defaultPaymentDate := 1704067200001 |}.

Definition pay (sid : string) (amount : Q) : NewPayment.Body :=
  {| NewPayment.rentSchedule := sid; NewPayment.amount := amount;
     NewPayment.paymentMethod := "cash"; NewPayment.notes := None |}.

(** A payment with a note typed between blanks. *)
Definition payNoting (sid : string) (amount : Q) (note : string) : NewPayment.Body :=
  {| NewPayment.rentSchedule := sid; NewPayment.amount := amount;
     NewPayment.paymentMethod := "cash"; NewPayment.notes := Some note |}.

Definition sampleIds (k : nat) : string := "60c72b2f9b1e8a001c8e" +:+ pretty (1000 + k)%nat.

Definition bulkEnv : Env :=
  {| Date_now := 1717200000000; randomSuffix := "a1b2c3d4e";
     newObjectId := sampleIds; defaultPaymentDate := 1717200000001 |}.

(** Monthly rent of property 1 from [startDate] to [endDate]. *)
Definition monthly (startDate endDate : string) : Bulk.Body :=
  {| Bulk.property := property1; Bulk.tenant := tenant1; Bulk.amount := 1000;
     Bulk.startDate := startDate; Bulk.endDate := endDate;
     Bulk.frequency := "monthly"; Bulk.paymentMethod := None |}.

(** ** Further routes

    The routes of the same files that read one record, create a property
    or a rent schedule, update a rent schedule and list the properties of a
    tenant. A route that answers with a document the payload type has no
    case for carries it beside the envelope of the answer. *)

Definition routeWith {A} (h : Handler (Response * A)) (s : Store)
  : Response * option A * Store :=
  match h s with
  | Continue (r, a) s' => (r, Some a, s')
  | Respond r s' => (r, None, s')
  | Raise s' => (serverError, None, s')
  end.

(** Body of POST /api/rent-schedules: the validated fields and the other
    schema fields that the rest pattern [...scheduleData] lets through. *)
Module NewRentSchedule.
Record Body :=
  { property : string; tenant : string; amount : Q; dueDate : string;
    paymentMethod : option string; recurring : option bool;
    frequency : option string; status : option string;
    lateFee : option Q; notes : option string }.
End NewRentSchedule.

(** Body of PUT /api/rent-schedules/:id: the fields its validators name. *)
Module RentScheduleUpdate.
Record Body :=
  { amount : option Q; dueDate : option string; status : option string;
    paymentMethod : option string; lateFee : option Q; notes : option string }.
End RentScheduleUpdate.

Definition rentScheduleStatuses : list string := ["pending"; "paid"; "overdue"; "partial"].

Definition rentScheduleStatusOfName (v : string) : option RentSchedule.Status :=
  if String.eqb v "pending" then Some RentSchedule.pending
  else if String.eqb v "paid" then Some RentSchedule.paid
  else if String.eqb v "overdue" then Some RentSchedule.overdue
  else if String.eqb v "partial" then Some RentSchedule.partial
  else None.

(** Body of POST /api/properties: the validated fields, and the schema
    fields [landlord], [status] and [currentTenant] that the spread
    [...req.body] lets through. *)
Module NewProperty.
Record Body :=
  { name : string; street : string; city : string; state : string;
    zipCode : string; propertyType : string; monthlyRent : Q;
    bedrooms : option Q; bathrooms : option Q; squareFootage : option Q;
    securityDeposit : option Q;
    landlord : option string; status : option string;
    currentTenant : option string }.
End NewProperty.

Definition propertyTypes : list string :=
  ["apartment"; "house"; "condo"; "townhouse"; "commercial"].

Section MoreRoutes.
Context {P : Platform}.

(** *** routes/properties.js, continued *)

(** GET /api/properties/:id. The landlord and the current tenant are
    populated from the users collection: a reference that does not resolve
    is [null]. *)
Definition getProperty (user : option Principal) (id : string) : Handler Response :=
  let* u := auth user in
  let* property := findById properties id in
  match property with
  | None => reply (json 404 false (Some "Property not found") NoPayload)
  | Some property =>
    let* landlordDoc := gets (λ s, users s !! Property.landlord property) in
    let* currentTenantId :=
      gets (λ s, t ← Property.currentTenant property; _ ← users s !! t; Some t) in
    (* Check access permissions *)
    rejectIf (bool_decide (role u = Role.tenant)
              && negb (bool_decide (currentTenantId = Some (_id u))))
      403 "Access denied";;;
    let* denied :=
      if bool_decide (role u = Role.landlord) then
        match landlordDoc with
        | Some _ => ret (negb (String.eqb (Property.landlord property) (_id u)))
        | None => throw
        end
      else ret false in
    rejectIf denied 403 "Access denied";;;
    ret (json 200 true None (PropertyDoc (Some property)))
  end.

(** [min: 0] on an optional number. *)
Definition atLeastZero (field : option Q) : bool :=
  match field with Some v => Qle_bool 0 v | None => true end.

(** The document [new Property(propertyData)] saves, [owner] being the
    ObjectId of the [landlord] of [propertyData] ([None] when it is missing
    or does not cast): casts, schema defaults and validators ([required]
    refuses the empty string); [None] is the validation error. [trim] is
    the sanitizer the validation chains applied to the strings. *)
Definition newPropertyDoc (trim : string → string) (body : NewProperty.Body)
    (owner : option string) : option Property.t :=
  let status :=
    match NewProperty.status body with
    | Some v => propertyStatusOfName v
    | None => Some Property.available
    end in
  let currentTenant :=
    match NewProperty.currentTenant body with
    | Some v => Some <$> castObjectId v
    | None => Some None
    end in
  match owner, status, currentTenant with
  | Some ownerOid, Some status, Some currentTenant =>
    if negb (String.eqb (trim (NewProperty.name body)) "")
       && negb (String.eqb (trim (NewProperty.street body)) "")
       && negb (String.eqb (trim (NewProperty.city body)) "")
       && negb (String.eqb (trim (NewProperty.state body)) "")
       && negb (String.eqb (trim (NewProperty.zipCode body)) "")
       && isIn propertyTypes (NewProperty.propertyType body)
       && Qle_bool 0 (NewProperty.monthlyRent body)
       && atLeastZero (NewProperty.bedrooms body)
       && atLeastZero (NewProperty.bathrooms body)
       && atLeastZero (NewProperty.squareFootage body)
       && atLeastZero (NewProperty.securityDeposit body)
    then Some {| Property.name := trim (NewProperty.name body);
                 Property.monthlyRent := NewProperty.monthlyRent body;
                 Property.landlord := ownerOid;
                 Property.currentTenant := currentTenant;
                 Property.status := status;
                 Property.leaseTerms := Property.noLeaseTerms |}
    else None
  | _, _, _ => None
  end.

(** POST /api/properties *)
Definition createProperty (trim : string → string) (env : Env)
    (user : option Principal) (body : NewProperty.Body) : Handler Response :=
  let* u := auth user in
  authorize [Role.admin; Role.landlord] u;;;
  validationResult
    (check (negb (String.eqb (NewProperty.name body) "")) "Invalid value"
     ++ check (negb (String.eqb (NewProperty.street body) "")) "Invalid value"
     ++ check (negb (String.eqb (NewProperty.city body) "")) "Invalid value"
     ++ check (negb (String.eqb (NewProperty.state body) "")) "Invalid value"
     ++ check (negb (String.eqb (NewProperty.zipCode body) "")) "Invalid value"
     ++ check (isIn propertyTypes (NewProperty.propertyType body)) "Invalid value");;;
  let owner :=
    if bool_decide (role u = Role.landlord) then Some (_id u)
    else NewProperty.landlord body ≫= castObjectId in
  match newPropertyDoc trim body owner with
  | None => throw
  | Some property =>
    (* property.save() *)
    let id := newObjectId env O in
    let* taken := gets (λ s, properties s !! id) in
    match taken with
    | Some _ => throw
    | None =>
      modify (set_properties <[id := property]>);;;
      let* populatedProperty := gets (λ s, properties s !! id) in
      ret (json 201 true (Some "Property created successfully")
             (PropertyDoc populatedProperty))
    end
  end.

(** *** routes/rentSchedules.js, continued *)

(** GET /api/rent-schedules/:id *)
Definition getRentSchedule (user : option Principal) (id : string)
  : Handler (Response * RentSchedule.t) :=
  let* u := auth user in
  let* rentSchedule := findById rentSchedules id in
  match rentSchedule with
  | None => reply (json 404 false (Some "Rent schedule not found") NoPayload)
  | Some rentSchedule =>
    (* .populate('property', ..).populate('tenant', ..) *)
    let* property := gets (λ s, properties s !! RentSchedule.property rentSchedule) in
    let* tenant := gets (λ s, users s !! RentSchedule.tenant rentSchedule) in
    (* Check access permissions *)
    let* denied :=
      if bool_decide (role u = Role.tenant) then
        match tenant with
        | Some _ => ret (negb (String.eqb (RentSchedule.tenant rentSchedule) (_id u)))
        | None => throw
        end
      else ret false in
    rejectIf denied 403 "Access denied";;;
    let* denied :=
      if bool_decide (role u = Role.landlord) then
        match property with
        | Some property => ret (negb (String.eqb (Property.landlord property) (_id u)))
        | None => throw
        end
      else ret false in
    rejectIf denied 403 "Access denied";;;
    ret (json 200 true None NoPayload, rentSchedule)
  end.

(** The document [new RentSchedule({ property, tenant, ...scheduleData })]
    saves: casts, schema defaults, the schema's trim of the notes and
    validators; [None] is the validation error. *)
Definition newRentScheduleDoc (body : NewRentSchedule.Body) (propertyOid : string)
  : option RentSchedule.t :=
  let status :=
    match NewRentSchedule.status body with
    | Some v => rentScheduleStatusOfName v
    | None => Some RentSchedule.pending
    end in
  let paymentMethod := default "online" (NewRentSchedule.paymentMethod body) in
  let frequency := default "monthly" (NewRentSchedule.frequency body) in
  match castObjectId (NewRentSchedule.tenant body),
        Date_cast (NewRentSchedule.dueDate body), status with
  | Some tenantOid, Some dueDate, Some status =>
    if Qle_bool 0 (NewRentSchedule.amount body)
       && isIn paymentMethods paymentMethod && isIn frequencies frequency
    then Some {| RentSchedule.property := propertyOid;
                 RentSchedule.tenant := tenantOid;
                 RentSchedule.amount := NewRentSchedule.amount body;
                 RentSchedule.dueDate := dueDate;
                 RentSchedule.status := status;
                 RentSchedule.paymentMethod := paymentMethod;
                 RentSchedule.lateFee := default 0%Q (NewRentSchedule.lateFee body);
                 RentSchedule.notes := String_trim <$> NewRentSchedule.notes body;
                 RentSchedule.recurring := default true (NewRentSchedule.recurring body);
                 RentSchedule.frequency := frequency |}
    else None
  | _, _, _ => None
  end.

(** POST /api/rent-schedules *)
Definition createRentSchedule (env : Env) (user : option Principal)
    (body : NewRentSchedule.Body) : Handler (Response * option RentSchedule.t) :=
  let* u := auth user in
  authorize [Role.admin; Role.landlord] u;;;
  validationResult
    (check (isMongoId (NewRentSchedule.property body)) "Valid property ID required"
     ++ check (isMongoId (NewRentSchedule.tenant body)) "Valid tenant ID required"
     ++ check (isISO8601 (NewRentSchedule.dueDate body)) "Valid due date required"
     ++ optional (NewRentSchedule.paymentMethod body) (isIn paymentMethods) "Invalid value"
     ++ optional (NewRentSchedule.frequency body) (isIn frequencies) "Invalid value");;;
  let propertyId := NewRentSchedule.property body in
  (* Verify property exists and user has access *)
  let* property := findById properties propertyId in
  match property with
  | None => reply (json 404 false (Some "Property not found") NoPayload)
  | Some property =>
    rejectIf (foreignLandlord u (Property.landlord property)) 403 "Access denied";;;
    match castObjectId propertyId ≫= newRentScheduleDoc body with
    | None => throw
    | Some rentSchedule =>
      (* rentSchedule.save() *)
      let id := newObjectId env O in
      let* taken := gets (λ s, rentSchedules s !! id) in
      match taken with
      | Some _ => throw
      | None =>
        modify (set_rentSchedules <[id := rentSchedule]>);;;
        let* populatedSchedule := gets (λ s, rentSchedules s !! id) in
        ret (json 201 true (Some "Rent schedule created successfully") NoPayload,
             populatedSchedule)
      end
    end
  end.

(** [RentSchedule.findByIdAndUpdate(id, req.body, { new: true, runValidators: true })]
    on the sanitized body: the notes were trimmed by their validation chain
    and are trimmed again by the schema; [None] is the cast or validation
    error. *)
Definition updateRentSchedule (body : RentScheduleUpdate.Body) (r : RentSchedule.t)
  : option RentSchedule.t :=
  let amountOk :=
    match RentScheduleUpdate.amount body with
    | Some a => Qle_bool 0 a
    | None => true
    end in
  let methodOk :=
    match RentScheduleUpdate.paymentMethod body with
    | Some v => isIn paymentMethods v
    | None => true
    end in
  let dueDate :=
    match RentScheduleUpdate.dueDate body with
    | Some v => Date_cast v
    | None => Some (RentSchedule.dueDate r)
    end in
  let status :=
    match RentScheduleUpdate.status body with
    | Some v => rentScheduleStatusOfName v
    | None => Some (RentSchedule.status r)
    end in
  match dueDate, status with
  | Some dueDate, Some status =>
    if amountOk && methodOk then
      Some {| RentSchedule.property := RentSchedule.property r;
              RentSchedule.tenant := RentSchedule.tenant r;
              RentSchedule.amount :=
                default (RentSchedule.amount r) (RentScheduleUpdate.amount body);
              RentSchedule.dueDate := dueDate;
              RentSchedule.status := status;
              RentSchedule.paymentMethod :=
                default (RentSchedule.paymentMethod r)
                  (RentScheduleUpdate.paymentMethod body);
              RentSchedule.lateFee :=
                default (RentSchedule.lateFee r) (RentScheduleUpdate.lateFee body);
              RentSchedule.notes :=
                match RentScheduleUpdate.notes body with
                | Some v => Some (String_trim (String_trim v))
                | None => RentSchedule.notes r
                end;
              RentSchedule.recurring := RentSchedule.recurring r;
              RentSchedule.frequency := RentSchedule.frequency r |}
    else None
  | _, _ => None
  end.

(** PUT /api/rent-schedules/:id *)
Definition putRentSchedule (user : option Principal) (id : string)
    (body : RentScheduleUpdate.Body) : Handler (Response * option RentSchedule.t) :=
  let* u := auth user in
  validationResult
    (optional (RentScheduleUpdate.dueDate body) isISO8601 "Invalid value"
     ++ optional (RentScheduleUpdate.status body) (isIn rentScheduleStatuses) "Invalid value"
     ++ optional (RentScheduleUpdate.paymentMethod body) (isIn paymentMethods)
          "Invalid value");;;
  let* rentSchedule := findById rentSchedules id in
  match rentSchedule with
  | None => reply (json 404 false (Some "Rent schedule not found") NoPayload)
  | Some rentSchedule =>
    (* .populate('property', 'landlord') *)
    let* property := gets (λ s, properties s !! RentSchedule.property rentSchedule) in
    (* Check permissions *)
    let* hasAccess :=
      if bool_decide (role u = Role.admin) then ret true
      else match property with
           | Some property =>
             ret (String.eqb (Property.landlord property) (_id u)
                  || String.eqb (RentSchedule.tenant rentSchedule) (_id u))
           | None => throw
           end in
    rejectIf (negb hasAccess) 403 "Access denied";;;
    match castObjectId id, updateRentSchedule body rentSchedule with
    | Some oid, Some updatedSchedule =>
      modify (set_rentSchedules <[oid := updatedSchedule]>);;;
      ret (json 200 true (Some "Rent schedule updated successfully") NoPayload,
           Some updatedSchedule)
    | _, _ => throw
    end
  end.

(** *** routes/tenants.js, continued *)

(** [.sort({ createdAt: -1 })]: the creation time of a property document is
    not among the fields kept above and is read through [createdAt]. *)
Definition newestFirst (createdAt : string → Z) (a b : string * Property.t) : Prop :=
  createdAt b.1 ≤ createdAt a.1.

#[local] Instance newestFirst_dec createdAt : RelDecision (newestFirst createdAt).
Proof. intros a b. unfold newestFirst. apply _. Defined.

(** GET /api/tenants/:id/properties *)
Definition tenantProperties (createdAt : string → Z) (user : option Principal)
    (id : string) : Handler (Response * list (string * Property.t)) :=
  let* u := auth user in
  let tenantId := id in
  (* Check permissions *)
  rejectIf (bool_decide (role u = Role.tenant) && negb (String.eqb (_id u) tenantId))
    403 "Access denied";;;
  match castObjectId tenantId with
  | None => throw
  | Some tenantOid =>
    let* found :=
      gets (λ s, List.filter
                   (λ kp, bool_decide (Property.currentTenant kp.2 = Some tenantOid)
                          && (negb (bool_decide (role u = Role.landlord))
                              || String.eqb (Property.landlord kp.2) (_id u)))
                   (map_to_list (properties s))) in
    ret (json 200 true None NoPayload, merge_sort (newestFirst createdAt) found)
  end.

End MoreRoutes.

(** *** routes/properties.js: the list *)

(** Query of GET /api/properties. [propertyType], [city], [state] and
    [search] constrain fields the record [Property.t] does not keep; what
    they let through is given by [others], on the document id; [minRent]
    and [maxRent] are the numbers their strings denote. *)
Module PropertyQuery.
Record t :=
  { page : option Z; limit : option Z; status : option string;
    minRent : option Q; maxRent : option Q; others : string → bool }.
End PropertyQuery.

Section PropertyList.

#[local] Existing Instance newestFirst_dec.

(** The query object of GET /api/properties: the role condition, then the
    filters, each under a key of its own. *)
Definition matchesProperty (u : Principal) (query : PropertyQuery.t)
    (kp : string * Property.t) : bool :=
  (* Role-based filtering *)
  match role u with
  | Role.landlord => String.eqb (Property.landlord kp.2) (_id u)
  | Role.tenant => bool_decide (Property.currentTenant kp.2 = Some (_id u))
  | Role.admin => true
  end
  (* Apply filters *)
  && (if truthy (PropertyQuery.status query)
      then bool_decide (PropertyQuery.status query ≫= propertyStatusOfName
                        = Some (Property.status kp.2))
      else true)
  && match PropertyQuery.minRent query with
     | Some m => Qle_bool m (Property.monthlyRent kp.2)
     | None => true
     end
  && match PropertyQuery.maxRent query with
     | Some m => Qle_bool (Property.monthlyRent kp.2) m
     | None => true
     end
  && PropertyQuery.others query kp.1.

(** GET /api/properties: the page and the total. *)
Definition listProperties (createdAt : string → Z) (user : option Principal)
    (query : PropertyQuery.t)
  : Handler (Response * (list (string * Property.t) * nat)) :=
  let* u := auth user in
  let* found := gets (λ s, List.filter (matchesProperty u query)
                             (map_to_list (properties s))) in
  let* properties :=
    paginate (PropertyQuery.page query) (PropertyQuery.limit query)
      (merge_sort (newestFirst createdAt) found) in
  ret (json 200 true None NoPayload, (properties, length found)).

End PropertyList.

(** *** Vocabulary of the further properties *)

Section MoreVocabulary.
Context {P : Platform}.

(** The date string of an optional body field casts when it is used. *)
Definition castableDate (field : option string) : Prop :=
  ∀ v, field = Some v → v ≠ "" → is_Some (Date_cast v).

(** The value a date path holds after [if (field) path = field]. *)
Definition assignedDate (field : option string) (old : option Z) : option Z :=
  if truthy field then field ≫= Date_cast else old.

End MoreVocabulary.

(** ** Sample requests for the further properties *)

Definition movingIn : TenantProperty.Body :=
  {| TenantProperty.propertyId := property2;
     TenantProperty.moveInDate := Some "2024-02-01";
     TenantProperty.leaseEndDate := Some "2024-12-31" |}.

(** The same list query asked for in one piece: first page, no limit. *)
Definition unpaged (query : ListQuery.t) : ListQuery.t :=
  {| ListQuery.page := Some 1; ListQuery.limit := Some 0;
     ListQuery.status := ListQuery.status query;
     ListQuery.propertyId := ListQuery.propertyId query;
     ListQuery.tenantId := ListQuery.tenantId query;
     ListQuery.dateFrom := ListQuery.dateFrom query;
     ListQuery.dateTo := ListQuery.dateTo query;
     ListQuery.paymentMethod := ListQuery.paymentMethod query |}.

Definition dueSoon : ListQuery.t :=
  {| ListQuery.page := Some 1; ListQuery.limit := Some 1;
     ListQuery.status := Some "pending"; ListQuery.propertyId := None;
     ListQuery.tenantId := None; ListQuery.dateFrom := None;
     ListQuery.dateTo := None; ListQuery.paymentMethod := None |}.

Definition pageZero : ListQuery.t :=
  {| ListQuery.page := Some 0; ListQuery.limit := None;
     ListQuery.status := None; ListQuery.propertyId := None;
     ListQuery.tenantId := None; ListQuery.dateFrom := None;
     ListQuery.dateTo := None; ListQuery.paymentMethod := None |}.

(** A flat offered by its creator; the body names landlord 2 as owner. *)
Definition newFlat : NewProperty.Body :=
  {| NewProperty.name := "Loft"; NewProperty.street := "1 Main St";
     NewProperty.city := "Springfield"; NewProperty.state := "IL";
     NewProperty.zipCode := "62701"; NewProperty.propertyType := "apartment";
     NewProperty.monthlyRent := 1200;
     NewProperty.bedrooms := None; NewProperty.bathrooms := None;
     NewProperty.squareFootage := None; NewProperty.securityDeposit := None;
     NewProperty.landlord := Some landlord2; NewProperty.status := None;
     NewProperty.currentTenant := None |}.

Definition property3 : string := "507f1f77bcf86cd7994390c3".

Definition propertyEnv : Env :=
  {| Date_now := 1717200000000; randomSuffix := "a1b2c3d4e";
     newObjectId := λ _, property3; defaultPaymentDate := 1717200000001 |}.

Definition schedule3 : string := "507f1f77bcf86cd7994390e3".

Definition scheduleEnv : Env :=
  {| Date_now := 1717200000000; randomSuffix := "a1b2c3d4e";
     newObjectId := λ _, schedule3; defaultPaymentDate := 1717200000001 |}.

(** Rent of property 1 due from tenant 1 on 1 March 2024. *)
Definition marchRent : NewRentSchedule.Body :=
  {| NewRentSchedule.property := property1; NewRentSchedule.tenant := tenant1;
     NewRentSchedule.amount := 1000; NewRentSchedule.dueDate := "2024-03-01";
     NewRentSchedule.paymentMethod := None; NewRentSchedule.recurring := None;
     NewRentSchedule.frequency := None; NewRentSchedule.status := None;
     NewRentSchedule.lateFee := None; NewRentSchedule.notes := None |}.

Definition markPaid : RentScheduleUpdate.Body :=
  {| RentScheduleUpdate.amount := None; RentScheduleUpdate.dueDate := None;
     RentScheduleUpdate.status := Some "paid";
     RentScheduleUpdate.paymentMethod := None;
     RentScheduleUpdate.lateFee := None; RentScheduleUpdate.notes := None |}.

(** Every property at a rent of 5000 at most, on one page. *)
Definition affordable : PropertyQuery.t :=
  {| PropertyQuery.page := None; PropertyQuery.limit := Some 0;
     PropertyQuery.status := None; PropertyQuery.minRent := None;
     PropertyQuery.maxRent := Some 5000%Q; PropertyQuery.others := λ _, true |}.

(** ** Properties *)

(** Unfolding a handler to the case analysis the source spells out. *)
Ltac unfold_handler :=
  unfold route, auth, authorize, findById, castDate, castInto, validationResult,
    rejectIf, bind, ret, reply, throw, gets, modify in *.

(** Split on the innermost scrutinee of a hypothesis or of the goal. *)
Ltac split_hyp :=
  match goal with
  | H : context [match ?x with _ => _ end] |- _ =>
      lazymatch x with
      | context [match _ with _ => _ end] => fail
      | _ => destruct x eqn:?; simplify_eq/=
      end
  end.

Ltac split_goal :=
  match goal with
  | |- context [match ?x with _ => _ end] =>
      lazymatch x with
      | context [match _ with _ => _ end] => fail
      | _ => destruct x eqn:?; simplify_eq/=
      end
  end.

Lemma foreignLandlord_manages `{Platform} u p :
  managesProperty u p → foreignLandlord u (Property.landlord p) = false.
Proof.
  unfold foreignLandlord. intros [Hr | [Hr Ho]]; rewrite Hr.
  - reflexivity.
  - rewrite Ho, String.eqb_refl. reflexivity.
Qed.

Lemma manages_authorized u p :
  managesProperty u p →
  negb (bool_decide (role u ∈ [Role.admin; Role.landlord])) = false.
Proof.
  intros Hm. apply negb_false_iff, bool_decide_eq_true.
  destruct Hm as [-> | [-> _]]; set_solver.
Qed.

Section TenantRoutes.
Context {P : Platform}.

Lemma validAssignBody_errors body :
  validAssignBody body →
  check (isMongoId (TenantProperty.propertyId body)) "Valid property ID required"
  ++ optional (TenantProperty.moveInDate body) isISO8601 "Invalid value"
  ++ optional (TenantProperty.leaseEndDate body) isISO8601 "Invalid value" = [].
Proof.
  intros (Hid & Hin & Hend). rewrite Hid. unfold optional. simpl.
  destruct (TenantProperty.moveInDate body) as [v|];
    [rewrite (Hin v eq_refl)|];
    (destruct (TenantProperty.leaseEndDate body) as [w|];
     [rewrite (Hend w eq_refl)|]); reflexivity.
Qed.

(** An answer other than success leaves every collection as it was:
    assign-property writes only after its last check. *)
Lemma assignProperty_failure_unchanged user id body s :
  success (route (assignProperty user id body) s).1 = false →
  (route (assignProperty user id body) s).2 = s.
Proof.
  unfold assignProperty. unfold_handler.
  repeat split_goal; simpl; try discriminate; reflexivity.
Qed.

Lemma removeProperty_failure_unchanged user id body s :
  success (route (removeProperty user id body) s).1 = false →
  (route (removeProperty user id body) s).2 = s.
Proof.
  unfold removeProperty. unfold_handler.
  repeat split_goal; simpl; try discriminate; reflexivity.
Qed.

(** C2. After every successful assign-tenant and every successful
    remove-tenant request the property named in the request satisfies the
    occupancy invariant: occupied implies a current tenant, available
    implies none. *)
Theorem occupancy_invariant_after_assign_and_remove user id body s r s' :
  route (assignProperty user id body) s = (r, s')
  ∨ route (removeProperty user id body) s = (r, s') →
  success r = true →
  ∃ oid p, castObjectId (TenantProperty.propertyId body) = Some oid
           ∧ properties s' !! oid = Some p ∧ occupancyInvariant p.
Proof.
  intros [Hrun | Hrun] Hok.
  - unfold assignProperty in Hrun. unfold_handler.
    repeat split_hyp; try discriminate.
    all: eexists _, _; split; [reflexivity|]; split; [apply lookup_insert_eq|].
    all: split; simpl; intros; congruence.
  - unfold removeProperty in Hrun. unfold_handler.
    repeat split_hyp; try discriminate.
    all: eexists _, _; split; [reflexivity|]; split; [apply lookup_insert_eq|].
    all: split; simpl; intros; congruence.
Qed.

Lemma assign_errors_valid body :
  check (isMongoId (TenantProperty.propertyId body)) "Valid property ID required"
  ++ optional (TenantProperty.moveInDate body) isISO8601 "Invalid value"
  ++ optional (TenantProperty.leaseEndDate body) isISO8601 "Invalid value" = [] →
  validAssignBody body.
Proof.
  unfold validAssignBody, optional, check. intros Herrors.
  destruct (isMongoId (TenantProperty.propertyId body)); [|discriminate].
  split; [reflexivity|]. simpl in Herrors.
  destruct (TenantProperty.moveInDate body) as [v|].
  - destruct (isISO8601 v) eqn:Hv; [|discriminate]. simpl in Herrors.
    split; [by intros ? [= <-]|].
    destruct (TenantProperty.leaseEndDate body) as [w|]; [|done].
    destruct (isISO8601 w) eqn:Hw; [|discriminate]. by intros ? [= <-].
  - simpl in Herrors. split; [done|].
    destruct (TenantProperty.leaseEndDate body) as [w|]; [|done].
    destruct (isISO8601 w) eqn:Hw; [|discriminate]. by intros ? [= <-].
Qed.

Lemma authorize_manager u s :
  role u ≠ Role.tenant →
  authorize [Role.admin; Role.landlord] u s = Continue tt s.
Proof.
  intros Hr. unfold authorize, rejectIf.
  rewrite bool_decide_eq_true_2; [reflexivity|].
  destruct (role u); [| |done]; repeat constructor.
Qed.

Lemma authorize_tenant u s :
  role u = Role.tenant →
  authorize [Role.admin; Role.landlord] u s
  = Respond (json 403 false (Some "Forbidden") NoPayload) s.
Proof.
  intros Hr. unfold authorize, rejectIf. rewrite Hr.
  rewrite bool_decide_eq_false_2; [reflexivity|].
  intros [?|[?|[]%elem_of_nil]%elem_of_cons]%elem_of_cons; discriminate.
Qed.

Lemma foreignLandlord_foreign u p :
  role u = Role.landlord → Property.landlord p ≠ _id u →
  foreignLandlord u (Property.landlord p) = true.
Proof.
  intros Hr Hown. unfold foreignLandlord. rewrite Hr.
  rewrite bool_decide_eq_true_2 by reflexivity.
  apply String.eqb_neq in Hown. by rewrite Hown.
Qed.

(** C4, amended. Assigning a tenant to a property whose status is not
    available never succeeds and leaves every record unchanged; the failure
    is InvalidState whenever the request reaches the availability check,
    that is when it is well-formed, the tenant id resolves to a tenant and
    the actor is an admin or the property's landlord. A request stopped by
    an earlier check fails with the kind of that check: Unauthorized
    without a principal, Forbidden for an actor whose role is tenant,
    ValidationFailed for a malformed body, the generic 500 failure when the
    tenant id is no ObjectId, NotFound when it is not the id of a user with
    role tenant, and Forbidden for a landlord who does not own the
    property. *)
Theorem assign_to_unavailable_property user id body s oid p :
  castObjectId (TenantProperty.propertyId body) = Some oid →
  properties s !! oid = Some p →
  Property.status p ≠ Property.available →
  success (route (assignProperty user id body) s).1 = false
  ∧ (route (assignProperty user id body) s).2 = s
  ∧ (∀ u tenantOid t,
       user = Some u → managesProperty u p → validAssignBody body →
       castObjectId id = Some tenantOid →
       users s !! tenantOid = Some t → User.role t = Role.tenant →
       kindOf (route (assignProperty user id body) s).1 = InvalidState
       ∧ message (route (assignProperty user id body) s).1
         = Some "Property is not available for assignment")
  ∧ (user = None →
     kindOf (route (assignProperty user id body) s).1 = Unauthorized)
  ∧ (∀ u, user = Some u →
       (role u = Role.tenant →
        kindOf (route (assignProperty user id body) s).1 = Forbidden)
       ∧ (role u ≠ Role.tenant → ¬ validAssignBody body →
          kindOf (route (assignProperty user id body) s).1 = ValidationFailed)
       ∧ (role u ≠ Role.tenant → validAssignBody body →
          castObjectId id = None →
          kindOf (route (assignProperty user id body) s).1 = InternalFailure)
       ∧ (∀ tenantOid,
            role u ≠ Role.tenant → validAssignBody body →
            castObjectId id = Some tenantOid →
            User.role <$> users s !! tenantOid ≠ Some Role.tenant →
            kindOf (route (assignProperty user id body) s).1 = NotFound)
       ∧ (∀ tenantOid,
            role u = Role.landlord → validAssignBody body →
            castObjectId id = Some tenantOid →
            User.role <$> users s !! tenantOid = Some Role.tenant →
            Property.landlord p ≠ _id u →
            kindOf (route (assignProperty user id body) s).1 = Forbidden)).
Proof.
  intros Hcast Hp Hst.
  assert (Hfail : success (route (assignProperty user id body) s).1 = false).
  { unfold assignProperty. unfold_handler. rewrite Hcast.
    repeat split_goal; simpl; try reflexivity.
    all: match goal with
         | Hb : negb (bool_decide _) = false |- _ =>
             apply negb_false_iff, bool_decide_eq_true in Hb; congruence
         end. }
  split; [exact Hfail|]. split; [by apply assignProperty_failure_unchanged|].
  split; [|split].
  - intros u tenantOid t -> Hm Hv Hid Ht Hrole.
    unfold assignProperty. unfold_handler.
    rewrite (manages_authorized _ _ Hm), (validAssignBody_errors _ Hv).
    rewrite Hid. simpl. rewrite Ht. simpl. rewrite Hrole. simpl.
    rewrite Hcast. simpl. rewrite Hp, (foreignLandlord_manages _ _ Hm).
    rewrite bool_decide_eq_false_2 by exact Hst. done.
  - intros ->. reflexivity.
  - intros u ->. unfold assignProperty.
    unfold route, auth, findById, validationResult, rejectIf, bind, ret, reply,
      throw, gets.
    split; [|split; [|split; [|split]]].
    + intros Hr. by rewrite (authorize_tenant _ _ Hr).
    + intros Hr Hinvalid. rewrite (authorize_manager _ _ Hr).
      destruct (check _ _ ++ _) as [|e errors] eqn:Herrors; [|reflexivity].
      by apply assign_errors_valid in Herrors.
    + intros Hr Hv Hid. rewrite (authorize_manager _ _ Hr).
      rewrite (validAssignBody_errors _ Hv), Hid. reflexivity.
    + intros tenantOid Hr Hv Hid Hnone. rewrite (authorize_manager _ _ Hr).
      rewrite (validAssignBody_errors _ Hv), Hid. cbn beta iota.
      rewrite (bool_decide_eq_false_2 _ Hnone). reflexivity.
    + intros tenantOid Hr Hv Hid Htenant Hown.
      rewrite authorize_manager by (rewrite Hr; discriminate).
      rewrite (validAssignBody_errors _ Hv), Hid. cbn beta iota.
      rewrite (bool_decide_eq_true_2 _ Htenant). cbn [negb].
      rewrite Hcast. cbn beta iota. rewrite Hp.
      rewrite (foreignLandlord_foreign _ _ Hr Hown). reflexivity.
Qed.

(** C5, amended. Removing a tenant id that is not the property's current
    tenant never succeeds and leaves every record unchanged; the failure is
    InvalidState whenever the request reaches that check, that is when it is
    well-formed, the tenant id resolves to a tenant and the actor is an
    admin or the property's landlord. A request stopped by an earlier check
    fails with the kind of that check: Unauthorized without a principal,
    Forbidden for an actor whose role is tenant, ValidationFailed for a
    property id that is no MongoDB id, the generic 500 failure when the
    tenant id is no ObjectId, NotFound when it is not the id of a user with
    role tenant, and Forbidden for a landlord who does not own the
    property. *)
Theorem remove_unassigned_tenant user id body s oid p :
  castObjectId (TenantProperty.propertyId body) = Some oid →
  properties s !! oid = Some p →
  Property.currentTenant p ≠ Some id →
  success (route (removeProperty user id body) s).1 = false
  ∧ (route (removeProperty user id body) s).2 = s
  ∧ (∀ u tenantOid t,
       user = Some u → managesProperty u p →
       isMongoId (TenantProperty.propertyId body) = true →
       castObjectId id = Some tenantOid →
       users s !! tenantOid = Some t → User.role t = Role.tenant →
       kindOf (route (removeProperty user id body) s).1 = InvalidState
       ∧ message (route (removeProperty user id body) s).1
         = Some "Tenant is not currently assigned to this property")
  ∧ (user = None →
     kindOf (route (removeProperty user id body) s).1 = Unauthorized)
  ∧ (∀ u, user = Some u →
       (role u = Role.tenant →
        kindOf (route (removeProperty user id body) s).1 = Forbidden)
       ∧ (role u ≠ Role.tenant →
          isMongoId (TenantProperty.propertyId body) = false →
          kindOf (route (removeProperty user id body) s).1 = ValidationFailed)
       ∧ (role u ≠ Role.tenant →
          isMongoId (TenantProperty.propertyId body) = true →
          castObjectId id = None →
          kindOf (route (removeProperty user id body) s).1 = InternalFailure)
       ∧ (∀ tenantOid,
            role u ≠ Role.tenant →
            isMongoId (TenantProperty.propertyId body) = true →
            castObjectId id = Some tenantOid →
            User.role <$> users s !! tenantOid ≠ Some Role.tenant →
            kindOf (route (removeProperty user id body) s).1 = NotFound)
       ∧ (∀ tenantOid,
            role u = Role.landlord →
            isMongoId (TenantProperty.propertyId body) = true →
            castObjectId id = Some tenantOid →
            User.role <$> users s !! tenantOid = Some Role.tenant →
            Property.landlord p ≠ _id u →
            kindOf (route (removeProperty user id body) s).1 = Forbidden)).
Proof.
  intros Hcast Hp Hct.
  assert (Hfail : success (route (removeProperty user id body) s).1 = false).
  { unfold removeProperty. unfold_handler. rewrite Hcast.
    repeat split_goal; simpl; try reflexivity.
    all: match goal with
         | Hb : negb (bool_decide _) = false |- _ =>
             apply negb_false_iff, bool_decide_eq_true in Hb; congruence
         end. }
  split; [exact Hfail|]. split; [by apply removeProperty_failure_unchanged|].
  split; [|split].
  - intros u tenantOid t -> Hm Hv Hid Ht Hrole.
    unfold removeProperty. unfold_handler.
    rewrite (manages_authorized _ _ Hm), Hv.
    rewrite Hid. simpl. rewrite Ht. simpl. rewrite Hrole. simpl.
    rewrite Hcast. simpl. rewrite Hp, (foreignLandlord_manages _ _ Hm).
    rewrite bool_decide_eq_false_2 by exact Hct. done.
  - intros ->. reflexivity.
  - intros u ->. unfold removeProperty.
    unfold route, auth, findById, validationResult, rejectIf, bind, ret, reply,
      throw, gets.
    split; [|split; [|split; [|split]]].
    + intros Hr. by rewrite (authorize_tenant _ _ Hr).
    + intros Hr Hinvalid. rewrite (authorize_manager _ _ Hr), Hinvalid. reflexivity.
    + intros Hr Hv Hid. rewrite (authorize_manager _ _ Hr), Hv, Hid. reflexivity.
    + intros tenantOid Hr Hv Hid Hnone.
      rewrite (authorize_manager _ _ Hr), Hv, Hid. cbn beta iota. cbn [check].
      rewrite (bool_decide_eq_false_2 _ Hnone). reflexivity.
    + intros tenantOid Hr Hv Hid Htenant Hown.
      rewrite authorize_manager by (rewrite Hr; discriminate).
      rewrite Hv, Hid. cbn beta iota. cbn [check].
      rewrite (bool_decide_eq_true_2 _ Htenant). cbn [negb].
      rewrite Hcast. cbn beta iota. rewrite Hp.
      rewrite (foreignLandlord_foreign _ _ Hr Hown). reflexivity.
Qed.

End TenantRoutes.

Lemma occupancy_invariant_after_assign_and_remove_witness :
  (∃ oid p, castObjectId (Platform := utc) property2 = Some oid
     ∧ properties (route (assignProperty (P := utc) asAdmin tenant2 (onProperty property2))
                     sampleStore).2 !! oid = Some p
     ∧ occupancyInvariant p)
  ∧ (∃ oid p, castObjectId (Platform := utc) property1 = Some oid
     ∧ properties (route (removeProperty (P := utc) asLandlord1 tenant1 (onProperty property1))
                     sampleStore).2 !! oid = Some p
     ∧ occupancyInvariant p).
Proof.
  split.
  - apply (occupancy_invariant_after_assign_and_remove (P := utc)
             asAdmin tenant2 (onProperty property2) sampleStore
             (route (assignProperty (P := utc) asAdmin tenant2 (onProperty property2))
                sampleStore).1).
    + left. apply surjective_pairing.
    + vm_compute. reflexivity.
  - apply (occupancy_invariant_after_assign_and_remove (P := utc)
             asLandlord1 tenant1 (onProperty property1) sampleStore
             (route (removeProperty (P := utc) asLandlord1 tenant1 (onProperty property1))
                sampleStore).1).
    + right. apply surjective_pairing.
    + vm_compute. reflexivity.
Defined.

(** Landlord 2 does not own property 1, which is occupied: the request is
    answered 403 before the availability check is reached. *)
Lemma assign_by_foreign_landlord_is_Forbidden :
  ¬ assign_fails_with_InvalidState (P := utc)
      asLandlord2 tenant2 (onProperty property1) sampleStore.
Proof.
  intros Hclaim.
  destruct (Hclaim property1 (sampleProperty landlord1 (Some tenant1))) as [Hkind _].
  - vm_compute. reflexivity.
  - vm_compute. reflexivity.
  - discriminate.
  - vm_compute in Hkind. discriminate.
Qed.

(** A tenant id that is no ObjectId: [User.findById] throws on the cast and
    the admin is answered the generic 500 failure, property 1 being
    occupied. *)
Example assign_with_malformed_tenant_id :
  let answer := route (assignProperty (P := utc) asAdmin "tenant-1" (onProperty property1))
                  sampleStore in
  statusCode answer.1 = 500 ∧ kindOf answer.1 = InternalFailure
  ∧ answer.2 = sampleStore.
Proof. vm_compute. repeat split. Qed.

Lemma assign_to_unavailable_property_witness :
  let answer := route (assignProperty (P := utc) asAdmin tenant2 (onProperty property1))
                  sampleStore in
  success answer.1 = false ∧ answer.2 = sampleStore ∧ kindOf answer.1 = InvalidState.
Proof.
  destruct (assign_to_unavailable_property (P := utc)
              asAdmin tenant2 (onProperty property1) sampleStore
              property1 (sampleProperty landlord1 (Some tenant1)))
    as (Hfail & Hsame & Hkind & _).
  - vm_compute. reflexivity.
  - vm_compute. reflexivity.
  - discriminate.
  - split; [exact Hfail|]. split; [exact Hsame|].
    refine (proj1 (Hkind {| _id := adminId; role := Role.admin |} tenant2
                     (sampleUser Role.tenant) eq_refl _ _ _ _ eq_refl)).
    + left. reflexivity.
    + repeat split; intros; discriminate || (vm_compute; reflexivity).
    + vm_compute. reflexivity.
    + vm_compute. reflexivity.
Defined.

(** Landlord 2 asks to remove tenant 2 from property 1, whose current tenant
    is tenant 1: the answer is 403, not the state failure. *)
Lemma remove_by_foreign_landlord_is_Forbidden :
  ¬ remove_fails_with_InvalidState (P := utc)
      asLandlord2 tenant2 (onProperty property1) sampleStore.
Proof.
  intros Hclaim.
  destruct (Hclaim property1 (sampleProperty landlord1 (Some tenant1))) as [Hkind _].
  - vm_compute. reflexivity.
  - vm_compute. reflexivity.
  - discriminate.
  - vm_compute in Hkind. discriminate.
Qed.

(** The same tenant id on the remove route. *)
Example remove_with_malformed_tenant_id :
  let answer := route (removeProperty (P := utc) asAdmin "tenant-1" (onProperty property1))
                  sampleStore in
  statusCode answer.1 = 500 ∧ kindOf answer.1 = InternalFailure
  ∧ answer.2 = sampleStore.
Proof. vm_compute. repeat split. Qed.

Lemma remove_unassigned_tenant_witness :
  let answer := route (removeProperty (P := utc) asLandlord1 tenant2 (onProperty property1))
                  sampleStore in
  success answer.1 = false ∧ answer.2 = sampleStore ∧ kindOf answer.1 = InvalidState.
Proof.
  destruct (remove_unassigned_tenant (P := utc)
              asLandlord1 tenant2 (onProperty property1) sampleStore
              property1 (sampleProperty landlord1 (Some tenant1)))
    as (Hfail & Hsame & Hkind & _).
  - vm_compute. reflexivity.
  - vm_compute. reflexivity.
  - discriminate.
  - split; [exact Hfail|]. split; [exact Hsame|].
    refine (proj1 (Hkind {| _id := landlord1; role := Role.landlord |} tenant2
                     (sampleUser Role.tenant) eq_refl _ _ _ _ eq_refl)).
    + right. split; reflexivity.
    + vm_compute. reflexivity.
    + vm_compute. reflexivity.
    + vm_compute. reflexivity.
Defined.

(** The answer of assign-property depends on the properties collection
    through the target property alone: no other record is read. *)
Lemma assignProperty_reads_target_only `{Platform} user id body s1 s2 oid :
  castObjectId (TenantProperty.propertyId body) = Some oid →
  users s1 = users s2 →
  properties s1 !! oid = properties s2 !! oid →
  (route (assignProperty user id body) s1).1
  = (route (assignProperty user id body) s2).1.
Proof.
  intros Hcast Hu Hp. unfold assignProperty. unfold_handler.
  repeat first [ progress simpl
               | progress rewrite ?Hcast, ?Hu, ?Hp, ?lookup_insert_eq
               | split_goal ].
  all: reflexivity.
Qed.

(** C10. Assign-property looks at the target property only: in the sample
    store tenant 1 is the current tenant of the occupied property 1, the
    request to assign tenant 1 to the available property 2 succeeds, and
    afterwards tenant 1 is the current tenant of both occupied properties. *)
Theorem tenant_assigned_to_two_properties :
  ∃ (s : Store) (tenantId first second : string),
    first ≠ second
    ∧ (∃ p, properties s !! first = Some p
            ∧ Property.status p = Property.occupied
            ∧ Property.currentTenant p = Some tenantId)
    ∧ (∃ p, properties s !! second = Some p
            ∧ Property.status p = Property.available)
    ∧ let answer := route (assignProperty (P := utc) asAdmin tenantId
                             {| TenantProperty.propertyId := second;
                                TenantProperty.moveInDate := None;
                                TenantProperty.leaseEndDate := None |}) s in
      success answer.1 = true
      ∧ ∀ pid, pid = first ∨ pid = second →
          ∃ p, properties answer.2 !! pid = Some p
               ∧ Property.status p = Property.occupied
               ∧ Property.currentTenant p = Some tenantId.
Proof.
  exists sampleStore, tenant1, property1, property2.
  split; [discriminate|].
  split; [eexists; split; [vm_compute; reflexivity|split; reflexivity]|].
  split; [eexists; split; [vm_compute; reflexivity|reflexivity]|].
  split; [vm_compute; reflexivity|].
  intros pid [-> | ->]; eexists; (split; [vm_compute; reflexivity|split; reflexivity]).
Qed.

Section WriteAccess.
Context {P : Platform}.

(** A landlord who does not own the property is refused, for update and
    for delete, and nothing is written. *)
Lemma foreign_landlord_cannot_write_property u id oid p body s :
  role u = Role.landlord →
  castObjectId id = Some oid →
  properties s !! oid = Some p →
  Property.landlord p ≠ _id u →
  (kindOf (route (deleteProperty (Some u) id) s).1 = Forbidden
   ∧ (route (deleteProperty (Some u) id) s).2 = s)
  ∧ (kindOf (route (putProperty (Some u) id body) s).1 ∈ [Forbidden; ValidationFailed]
     ∧ (route (putProperty (Some u) id body) s).2 = s).
Proof.
  intros Hr Hcast Hp Hown.
  assert (Hf : foreignLandlord u (Property.landlord p) = true).
  { unfold foreignLandlord. rewrite Hr. simpl.
    apply negb_true_iff, String.eqb_neq. exact Hown. }
  split.
  - unfold deleteProperty. unfold_handler. simpl. rewrite Hcast. simpl.
    rewrite Hp, Hf. done.
  - unfold putProperty. unfold_handler. simpl.
    split_goal; [|split; [set_solver|done]].
    rewrite Hcast. simpl. rewrite Hp, Hf. split; [set_solver|done].
Qed.

(** An admin may delete any property, and update any property with a
    well-formed body; a new name is stored trimmed. *)
Lemma admin_writes_any_property u id oid p s :
  role u = Role.admin →
  castObjectId id = Some oid →
  properties s !! oid = Some p →
  kindOf (route (deleteProperty (Some u) id) s).1 = Success
  ∧ properties (route (deleteProperty (Some u) id) s).2 !! oid = None
  ∧ ∀ newName,
      newName ≠ "" → String_trim (String_trim newName) ≠ "" →
      let body := {| PropertyUpdate.name := Some newName;
                     PropertyUpdate.monthlyRent := None;
                     PropertyUpdate.status := None |} in
      kindOf (route (putProperty (Some u) id body) s).1 = Success
      ∧ Property.name <$> properties (route (putProperty (Some u) id body) s).2 !! oid
        = Some (String_trim (String_trim newName)).
Proof.
  intros Hr Hcast Hp.
  assert (Hf : foreignLandlord u (Property.landlord p) = false).
  { unfold foreignLandlord. rewrite Hr. reflexivity. }
  split; [|split].
  - unfold deleteProperty. unfold_handler. simpl. rewrite Hcast. simpl.
    rewrite Hp, Hf. done.
  - unfold deleteProperty. unfold_handler. simpl. rewrite Hcast. simpl.
    rewrite Hp, Hf. simpl. apply lookup_delete_eq.
  - intros newName Hne Htrim body. unfold putProperty, updateProperty.
    unfold_handler. simpl.
    apply String.eqb_neq in Hne. rewrite Hne. simpl.
    rewrite Hcast. simpl. rewrite Hp, Hf. simpl.
    apply String.eqb_neq in Htrim. rewrite Htrim. simpl.
    split; [done|]. by rewrite lookup_insert_eq.
Qed.

(** What the code does for a tenant: the permission check of update and
    delete names the landlord role only, so a tenant principal passes it. *)
Lemma tenant_deletes_any_property u id oid p s :
  role u = Role.tenant →
  castObjectId id = Some oid →
  properties s !! oid = Some p →
  kindOf (route (deleteProperty (Some u) id) s).1 = Success
  ∧ properties (route (deleteProperty (Some u) id) s).2 !! oid = None.
Proof.
  intros Hr Hcast Hp.
  assert (Hf : foreignLandlord u (Property.landlord p) = false).
  { unfold foreignLandlord. rewrite Hr. reflexivity. }
  unfold deleteProperty. unfold_handler. simpl. rewrite Hcast. simpl.
  rewrite Hp, Hf. simpl. split; [done|apply lookup_delete_eq].
Qed.

(** A landlord may delete the rent schedules of the properties they own
    only; an admin may delete any. *)
Lemma foreign_landlord_cannot_delete_rent_schedule u id oid r p s :
  role u = Role.landlord →
  castObjectId id = Some oid →
  rentSchedules s !! oid = Some r →
  properties s !! RentSchedule.property r = Some p →
  Property.landlord p ≠ _id u →
  kindOf (route (deleteRentSchedule (Some u) id) s).1 = Forbidden
  ∧ (route (deleteRentSchedule (Some u) id) s).2 = s.
Proof.
  intros Hr Hcast Hs Hp Hown.
  unfold deleteRentSchedule. unfold_handler. simpl. rewrite Hcast. simpl.
  rewrite Hs, Hp, Hr. simpl.
  apply String.eqb_neq in Hown. rewrite Hown. done.
Qed.

(** What the code does for a tenant: the route carries no [authorize] and
    its check names the landlord role only. *)
Lemma tenant_deletes_any_rent_schedule u id oid r s :
  role u = Role.tenant →
  castObjectId id = Some oid →
  rentSchedules s !! oid = Some r →
  kindOf (route (deleteRentSchedule (Some u) id) s).1 = Success
  ∧ rentSchedules (route (deleteRentSchedule (Some u) id) s).2 !! oid = None.
Proof.
  intros Hr Hcast Hs.
  unfold deleteRentSchedule. unfold_handler. simpl. rewrite Hcast. simpl.
  rewrite Hs, Hr. simpl. split; [done|apply lookup_delete_eq].
Qed.

End WriteAccess.

(** C3, at the failing request. Tenant 2 deletes rent schedule 1, which is
    tenant 1's schedule on property 1: the answer is the 200 success and the
    schedule is gone, where the access matrix forbids the operation. *)
Theorem tenant_delete_rent_schedule_succeeds :
  let answer := route (deleteRentSchedule (P := utc) asTenant2 schedule1) sampleStore in
  is_Some (rentSchedules sampleStore !! schedule1)
  ∧ statusCode answer.1 = 200
  ∧ kindOf answer.1 = Success
  ∧ rentSchedules answer.2 !! schedule1 = None.
Proof.
  split; [vm_compute; eauto|].
  split; [vm_compute; reflexivity|].
  apply (tenant_deletes_any_rent_schedule (P := utc)
           {| _id := tenant2; role := Role.tenant |} schedule1 schedule1
           (sampleSchedule property1 tenant1 1000 RentSchedule.pending)).
  - reflexivity.
  - vm_compute. reflexivity.
  - vm_compute. reflexivity.
Qed.

(** C6, at the failing requests. Tenant 2, who has nothing to do with
    property 1, updates its status and deletes it; both requests are answered
    with the 200 success and both writes happen. *)
Theorem tenant_property_write_succeeds :
  let updated := route (putProperty (P := utc) asTenant2 property1 markAvailable)
                   sampleStore in
  let deleted := route (deleteProperty (P := utc) asTenant2 property1) sampleStore in
  Property.status <$> properties sampleStore !! property1 = Some Property.occupied
  ∧ kindOf updated.1 = Success
  ∧ Property.status <$> properties updated.2 !! property1 = Some Property.available
  ∧ kindOf deleted.1 = Success
  ∧ properties deleted.2 !! property1 = None.
Proof.
  split; [vm_compute; reflexivity|].
  split; [vm_compute; reflexivity|].
  split; [vm_compute; reflexivity|].
  apply (tenant_deletes_any_property (P := utc)
           {| _id := tenant2; role := Role.tenant |} property1 property1
           (sampleProperty landlord1 (Some tenant1))).
  - reflexivity.
  - vm_compute. reflexivity.
  - vm_compute. reflexivity.
Qed.

Section Lists.
Context {P : Platform}.

Lemma paginate_subset {A} page limit (docs l : list A) s s' :
  paginate page limit docs s = Continue l s' → s' = s ∧ l ⊆ docs.
Proof.
  unfold paginate. unfold_handler. intros Hrun.
  repeat split_hyp; (split; [reflexivity|]).
  destruct (default 10 limit =? 0).
  - apply subseteq_drop.
  - etrans; [apply subseteq_take|apply subseteq_drop].
Qed.

Lemma applyFilters_pure u query b q q' s s' :
  applyFilters u query b q s = Continue q' s' → s' = s.
Proof.
  unfold applyFilters. unfold_handler. intros Hrun.
  repeat split_hyp; reflexivity.
Qed.

Lemma applyFilters_no_reply u query b q r s s' :
  applyFilters u query b q s ≠ Respond r s'.
Proof.
  unfold applyFilters. unfold_handler. intros Hrun.
  repeat split_hyp.
Qed.

Lemma paginate_no_reply {A} page limit (docs : list A) r s s' :
  paginate page limit docs s ≠ Respond r s'.
Proof.
  unfold paginate. unfold_handler. intros Hrun.
  repeat split_hyp.
Qed.

(** Only an admin's [tenantId] reaches the filter. *)
Lemma applyFilters_keeps_tenant u query b q q' s s' :
  role u ≠ Role.admin →
  applyFilters u query b q s = Continue q' s' →
  Filter.tenant q' = Filter.tenant q.
Proof.
  unfold applyFilters. unfold_handler. intros Hrole Hrun.
  rewrite (bool_decide_eq_false_2 _ Hrole), andb_false_r in Hrun.
  repeat split_hyp; repeat split_goal; reflexivity.
Qed.

(** The property condition survives when no [propertyId] is supplied. *)
Lemma applyFilters_keeps_property u query b q q' s s' :
  truthy (ListQuery.propertyId query) = false →
  applyFilters u query b q s = Continue q' s' →
  Filter.property q' = Filter.property q.
Proof.
  unfold applyFilters. unfold_handler. intros Hnone Hrun. rewrite Hnone in Hrun.
  repeat split_hyp; repeat split_goal; reflexivity.
Qed.

Lemma matches_tenant q uid docTenant docProperty docStatus docMethod docDate :
  Filter.tenant q = Some uid →
  Filter.matches q docTenant docProperty docStatus docMethod docDate = true →
  docTenant = uid.
Proof.
  unfold Filter.matches. intros ->. simpl. rewrite !andb_true_iff.
  intros (((((Ht & _) & _) & _) & _) & _). by apply String.eqb_eq.
Qed.

Lemma matches_property_in q ids docTenant docProperty docStatus docMethod docDate :
  Filter.property q = Some (Filter.In_ ids) →
  Filter.matches q docTenant docProperty docStatus docMethod docDate = true →
  docProperty ∈ ids.
Proof.
  unfold Filter.matches. intros ->. simpl. rewrite !andb_true_iff.
  intros (((((_ & Hp) & _) & _) & _) & _). by apply bool_decide_eq_true in Hp.
Qed.

Lemma ownedPropertyIds_spec uid s pid :
  pid ∈ ownedPropertyIds uid s ↔
  ∃ p, properties s !! pid = Some p ∧ Property.landlord p = uid.
Proof.
  unfold ownedPropertyIds. rewrite list_elem_of_fmap. split.
  - intros ([k p] & -> & Hin). apply elem_of_map_to_list in Hin.
    apply map_lookup_filter_Some in Hin as [Hl Ho]. eauto.
  - intros (p & Hl & Ho). exists (pid, p). split; [reflexivity|].
    apply elem_of_map_to_list, map_lookup_filter_Some. done.
Qed.

Lemma found_elem {D} (matching : string * D → bool) (m : gmap string D) page limit l s s' d
    (R : relation (string * D)) `{!RelDecision R} :
  paginate page limit (merge_sort R (List.filter matching (map_to_list m))) s
  = Continue l s' →
  d ∈ l → m !! d.1 = Some d.2 ∧ matching d = true.
Proof.
  intros Hpage Hd. apply paginate_subset in Hpage as [_ Hsub].
  apply Hsub in Hd. rewrite merge_sort_Permutation in Hd.
  apply list_elem_of_In, filter_In in Hd as [Hin Hm].
  split; [|exact Hm]. apply elem_of_map_to_list.
  destruct d. by apply list_elem_of_In.
Qed.

(** A tenant principal receives only records whose tenant is the
    principal, whatever the query string holds. *)
Lemma tenant_lists_own_records u query s :
  role u = Role.tenant →
  (∀ l n d, payload (route (listRentSchedules (Some u) query) s).1
            = RentScheduleList l n →
     d ∈ l → rentSchedules s !! d.1 = Some d.2 ∧ RentSchedule.tenant d.2 = _id u)
  ∧ (∀ l n d, payload (route (listPayments (Some u) query) s).1 = PaymentList l n →
     d ∈ l → payments s !! d.1 = Some d.2 ∧ Payment.tenant d.2 = _id u).
Proof.
  intros Hrole.
  assert (Hna : role u ≠ Role.admin) by (rewrite Hrole; discriminate).
  split; intros l n d Hpay Hd.
  - unfold listRentSchedules, roleFilter in Hpay. unfold_handler.
    rewrite Hrole in Hpay. simpl in Hpay.
    repeat split_hyp; try discriminate.
    all: try (exfalso; eapply applyFilters_no_reply; eassumption).
    all: try (exfalso; eapply paginate_no_reply; eassumption).
    match goal with H : applyFilters _ _ _ _ _ = _ |- _ =>
      pose proof (applyFilters_pure _ _ _ _ _ _ _ H) as ->;
      apply (applyFilters_keeps_tenant _ _ _ _ _ _ _ Hna) in H as Hten end.
    match goal with H : paginate _ _ _ _ = _ |- _ =>
      destruct (found_elem _ _ _ _ _ _ _ d _ H Hd) as [Hl Hm] end.
    split; [exact Hl|]. eapply matches_tenant; [exact Hten|exact Hm].
  - unfold listPayments, roleFilter in Hpay. unfold_handler.
    rewrite Hrole in Hpay. simpl in Hpay.
    repeat split_hyp; try discriminate.
    all: try (exfalso; eapply applyFilters_no_reply; eassumption).
    all: try (exfalso; eapply paginate_no_reply; eassumption).
    match goal with H : applyFilters _ _ _ _ _ = _ |- _ =>
      pose proof (applyFilters_pure _ _ _ _ _ _ _ H) as ->;
      apply (applyFilters_keeps_tenant _ _ _ _ _ _ _ Hna) in H as Hten end.
    match goal with H : paginate _ _ _ _ = _ |- _ =>
      destruct (found_elem _ _ _ _ _ _ _ d _ H Hd) as [Hl Hm] end.
    split; [exact Hl|]. eapply matches_tenant; [exact Hten|exact Hm].
Qed.

(** A landlord who supplies no [propertyId] receives only records of the
    properties they own. *)
Lemma landlord_lists_own_records u query s :
  role u = Role.landlord →
  truthy (ListQuery.propertyId query) = false →
  (∀ l n d, payload (route (listRentSchedules (Some u) query) s).1
            = RentScheduleList l n →
     d ∈ l →
     ∃ p, properties s !! RentSchedule.property d.2 = Some p
          ∧ Property.landlord p = _id u)
  ∧ (∀ l n d, payload (route (listPayments (Some u) query) s).1 = PaymentList l n →
     d ∈ l →
     ∃ p, properties s !! Payment.property d.2 = Some p
          ∧ Property.landlord p = _id u).
Proof.
  intros Hrole Hnone.
  split; intros l n d Hpay Hd.
  - unfold listRentSchedules, roleFilter in Hpay. unfold_handler.
    rewrite Hrole in Hpay. simpl in Hpay.
    repeat split_hyp; try discriminate.
    all: try (exfalso; eapply applyFilters_no_reply; eassumption).
    all: try (exfalso; eapply paginate_no_reply; eassumption).
    match goal with H : applyFilters _ _ _ _ _ = _ |- _ =>
      pose proof (applyFilters_pure _ _ _ _ _ _ _ H) as ->;
      apply (applyFilters_keeps_property _ _ _ _ _ _ _ Hnone) in H as Hprop end.
    match goal with H : paginate _ _ _ _ = _ |- _ =>
      destruct (found_elem _ _ _ _ _ _ _ d _ H Hd) as [Hl Hm] end.
    apply ownedPropertyIds_spec.
    eapply matches_property_in; [exact Hprop|exact Hm].
  - unfold listPayments, roleFilter in Hpay. unfold_handler.
    rewrite Hrole in Hpay. simpl in Hpay.
    repeat split_hyp; try discriminate.
    all: try (exfalso; eapply applyFilters_no_reply; eassumption).
    all: try (exfalso; eapply paginate_no_reply; eassumption).
    match goal with H : applyFilters _ _ _ _ _ = _ |- _ =>
      pose proof (applyFilters_pure _ _ _ _ _ _ _ H) as ->;
      apply (applyFilters_keeps_property _ _ _ _ _ _ _ Hnone) in H as Hprop end.
    match goal with H : paginate _ _ _ _ = _ |- _ =>
      destruct (found_elem _ _ _ _ _ _ _ d _ H Hd) as [Hl Hm] end.
    apply ownedPropertyIds_spec.
    eapply matches_property_in; [exact Hprop|exact Hm].
Qed.

Lemma filter_all {A} (f : A → bool) (l : list A) :
  (∀ x, f x = true) → List.filter f l = l.
Proof.
  intros Hall. induction l as [|x l IH]; simpl; [reflexivity|].
  rewrite Hall, IH. reflexivity.
Qed.

(** An admin receives all records. *)
Lemma admin_lists_all_records u s :
  role u = Role.admin →
  (∃ l, payload (route (listRentSchedules (Some u) everything) s).1
        = RentScheduleList l (size (rentSchedules s))
        ∧ l ≡ₚ map_to_list (rentSchedules s))
  ∧ (∃ l, payload (route (listPayments (Some u) everything) s).1
        = PaymentList l (size (payments s))
        ∧ l ≡ₚ map_to_list (payments s)).
Proof.
  intros Hrole. split.
  - unfold listRentSchedules, roleFilter, applyFilters, paginate. unfold_handler.
    rewrite Hrole. simpl. rewrite filter_all by done.
    eexists. split; [rewrite length_map_to_list; reflexivity|].
    apply merge_sort_Permutation.
  - unfold listPayments, roleFilter, applyFilters, paginate. unfold_handler.
    rewrite Hrole. simpl. rewrite filter_all by done.
    eexists. split; [rewrite length_map_to_list; reflexivity|].
    apply merge_sort_Permutation.
Qed.

End Lists.

(** C7, at the failing request. Landlord 1 owns property 1 only and asks
    for the records of property 2 with [?propertyId=]: the filter value
    replaces the role condition on [property], and the rent schedule and the
    payment of landlord 2's property are returned. *)
Theorem landlord_lists_foreign_records :
  Property.landlord <$> properties sampleStore !! property2 = Some landlord2
  ∧ payload (route (listRentSchedules (P := utc) asLandlord1 (ofProperty property2))
               sampleStore).1
    = RentScheduleList
        [(schedule2, sampleSchedule property2 tenant2 0 RentSchedule.pending)] 1
  ∧ payload (route (listPayments (P := utc) asLandlord1 (ofProperty property2))
               sampleStore).1
    = PaymentList [(payment1, samplePayment)] 1.
Proof. repeat split; vm_compute; reflexivity. Qed.

Section Payments.
Context {P : Platform}.

Lemma savePayment_fresh env payment s :
  freshTransaction env s →
  (0 <= Payment.amount payment)%Q →
  Payment.paymentMethod payment ∈ paymentMethods →
  Payment.transactionId payment = transactionIdOf env →
  savePayment env payment s
  = Continue (newObjectId env O) (set_payments <[newObjectId env O := payment]> s).
Proof.
  intros [Hid Htx] Hamount Hmethod Heq. unfold savePayment. unfold_handler.
  cbv beta. apply Qle_bool_iff in Hamount. rewrite Hamount.
  unfold isIn. rewrite (bool_decide_eq_true_2 _ Hmethod). simpl.
  rewrite Hid. rewrite bool_decide_eq_false_2 by (intros [? ?]; discriminate).
  rewrite bool_decide_eq_false_2; [reflexivity|].
  rewrite Exists_exists. intros ([k d] & Hin & Hd).
  apply elem_of_map_to_list in Hin. apply (Htx k d Hin). simpl in Hd. congruence.
Qed.


Lemma hasAccess_true u p r s :
  hasAccess u p r →
  (if bool_decide (role u = Role.admin) then λ s0 : Store, Continue true s0
   else λ s0 : Store,
       Continue (String.eqb (Property.landlord p) (_id u)
                 || String.eqb (RentSchedule.tenant r) (_id u)) s0) s
  = Continue true s.
Proof.
  intros Hacc. case_bool_decide; [reflexivity|]. f_equal.
  destruct Hacc as [? | [-> | ->]]; [done| |]; rewrite String.eqb_refl;
    [reflexivity|apply orb_true_r].
Qed.

Lemma createPayment_recorded env u body s oid r p :
  validPaymentBody body →
  castObjectId (NewPayment.rentSchedule body) = Some oid →
  rentSchedules s !! oid = Some r →
  properties s !! RentSchedule.property r = Some p →
  hasAccess u p r →
  (0 <= NewPayment.amount body)%Q →
  freshTransaction env s →
  let amount := NewPayment.amount body in
  let payment := newPayment env body oid r in
  let saved := set_payments <[newObjectId env O := payment]> s in
  route (createPayment env (Some u) body) s
  = (json 201 true (Some "Payment created successfully") (PaymentDoc (Some payment)),
     if Qle_bool (RentSchedule.amount r) amount
     then set_rentSchedules (alter (setStatus RentSchedule.paid) oid) saved
     else if negb (Qle_bool amount 0)
     then set_rentSchedules (alter (setStatus RentSchedule.partial) oid) saved
     else saved).
Proof.
  intros [Hid Hmethod] Hcast Hr Hp Hacc Hamount Hfresh amount payment saved.
  unfold createPayment. unfold_handler. cbn beta iota delta [auth].
  rewrite Hid. unfold isIn at 1. rewrite (bool_decide_eq_true_2 _ Hmethod).
  cbn [check app]. rewrite Hcast. cbn beta iota. rewrite Hr. cbn beta iota. rewrite Hp.
  rewrite (hasAccess_true _ _ _ _ Hacc). cbn [negb].
  pose proof (savePayment_fresh env payment s Hfresh Hamount Hmethod eq_refl) as Hsave.
  subst payment saved amount. unfold newPayment in *. rewrite Hsave.
  destruct (Qle_bool (RentSchedule.amount r) (NewPayment.amount body));
    [|destruct (negb (Qle_bool (NewPayment.amount body) 0))]; cbn beta iota.
  all: f_equal; f_equal; f_equal; simpl; apply lookup_insert_eq.
Qed.

(** C1, amended. A payment recorded by an authorized actor against an
    existing rent schedule sets the schedule's status from this payment's
    amount and the schedule's full amount alone, whatever payments are
    already on record: [amount >= schedule.amount] gives paid,
    [0 < amount < schedule.amount] gives partial, and [amount == 0] leaves
    the status unchanged when the schedule's amount is positive. *)
Theorem payment_settles_schedule env u body s oid r p :
  validPaymentBody body →
  castObjectId (NewPayment.rentSchedule body) = Some oid →
  rentSchedules s !! oid = Some r →
  properties s !! RentSchedule.property r = Some p →
  hasAccess u p r →
  (0 <= NewPayment.amount body)%Q →
  freshTransaction env s →
  let amount := NewPayment.amount body in
  let answer := route (createPayment env (Some u) body) s in
  statusCode answer.1 = 201
  ∧ ∃ st, rentSchedules answer.2 !! oid = Some (setStatus st r)
      ∧ ((RentSchedule.amount r <= amount)%Q → st = RentSchedule.paid)
      ∧ ((0 < amount)%Q ∧ (amount < RentSchedule.amount r)%Q → st = RentSchedule.partial)
      ∧ ((amount == 0)%Q ∧ (0 < RentSchedule.amount r)%Q → st = RentSchedule.status r).
Proof.
  intros Hv Hcast Hr Hp Hacc Hamount Hfresh amount answer. subst answer.
  rewrite (createPayment_recorded env u body s oid r p) by assumption.
  fold amount. split; [reflexivity|]. cbn [fst snd].
  destruct (Qle_bool (RentSchedule.amount r) amount) eqn:Hfull.
  - apply Qle_bool_iff in Hfull. exists RentSchedule.paid.
    split; [simpl; rewrite lookup_alter_eq, Hr; reflexivity|].
    split; [reflexivity|]. split.
    + intros [_ Hlt]. exfalso. apply (Qlt_not_le _ _ Hlt Hfull).
    + intros [Hz Hpos]. exfalso. rewrite Hz in Hfull. apply (Qlt_not_le _ _ Hpos Hfull).
  - assert (Hless : ¬ (RentSchedule.amount r <= amount)%Q).
    { intros Hle. apply Qle_bool_iff in Hle. congruence. }
    destruct (Qle_bool amount 0) eqn:Hzero; cbn [negb].
    + apply Qle_bool_iff in Hzero. exists (RentSchedule.status r).
      split; [simpl; rewrite Hr; by destruct r|].
      split; [done|]. split; [|done].
      intros [Hpos _]. exfalso. apply (Qlt_not_le _ _ Hpos Hzero).
    + assert (Hpos : ¬ (amount <= 0)%Q).
      { intros Hle. apply Qle_bool_iff in Hle. congruence. }
      exists RentSchedule.partial.
      split; [simpl; rewrite lookup_alter_eq, Hr; reflexivity|].
      split; [done|]. split; [done|].
      intros [Hz _]. exfalso. apply Hpos. rewrite Hz. apply Qle_refl.
Qed.

(** Earlier payments are not summed: two stores that agree on the schedule
    and on its property settle it alike, whatever payments they hold. *)
Lemma payment_ignores_earlier_payments env u body s1 s2 oid r p :
  validPaymentBody body →
  castObjectId (NewPayment.rentSchedule body) = Some oid →
  rentSchedules s1 !! oid = Some r → rentSchedules s2 !! oid = Some r →
  properties s1 !! RentSchedule.property r = Some p →
  properties s2 !! RentSchedule.property r = Some p →
  hasAccess u p r →
  (0 <= NewPayment.amount body)%Q →
  freshTransaction env s1 → freshTransaction env s2 →
  rentSchedules (route (createPayment env (Some u) body) s1).2 !! oid
  = rentSchedules (route (createPayment env (Some u) body) s2).2 !! oid.
Proof.
  intros Hv Hcast Hr1 Hr2 Hp1 Hp2 Hacc Hamount Hf1 Hf2.
  rewrite (createPayment_recorded env u body s1 oid r p) by assumption.
  rewrite (createPayment_recorded env u body s2 oid r p) by assumption.
  cbn [snd].
  destruct (Qle_bool _ _); [|destruct (negb _)]; simpl;
    rewrite ?lookup_alter_eq, Hr1, Hr2; reflexivity.
Qed.

Lemma savePayment_cases env payment s :
  savePayment env payment s = Raise s
  ∨ (savePayment env payment s
     = Continue (newObjectId env O) (set_payments <[newObjectId env O := payment]> s)
     ∧ payments s !! newObjectId env O = None
     ∧ ∀ k d, payments s !! k = Some d →
              Payment.transactionId d ≠ Payment.transactionId payment).
Proof.
  unfold savePayment. unfold_handler. cbv beta.
  destruct (negb _); [by left|].
  case_bool_decide as Hid; [by left|].
  case_bool_decide as Htx; [by left|].
  right. split; [reflexivity|]. split.
  - by apply eq_None_not_Some.
  - intros k d Hk Heq. apply Htx, Exists_exists. exists (k, d).
    split; [by apply elem_of_map_to_list|exact Heq].
Qed.

Lemma savePayment_collision env payment s :
  Payment.transactionId payment = transactionIdOf env →
  collides env s → savePayment env payment s = Raise s.
Proof.
  intros Heq (k & d & Hk & Hd).
  destruct (savePayment_cases env payment s) as [Hs | (_ & _ & Hne)]; [exact Hs|].
  exfalso. apply (Hne k d Hk). congruence.
Qed.

Lemma createPayment_payments env user body s :
  let s' := (route (createPayment env user body) s).2 in
  payments s' = payments s
  ∨ ∃ d, payments s' = <[newObjectId env O := d]> (payments s)
         ∧ payments s !! newObjectId env O = None
         ∧ ∀ k d', payments s !! k = Some d' →
                   Payment.transactionId d' ≠ Payment.transactionId d.
Proof.
  unfold createPayment. unfold_handler. cbv zeta.
  repeat split_goal.
  all: try match goal with
       | H : savePayment ?e ?d ?s0 = _ |- _ =>
           destruct (savePayment_cases e d s0) as [Hs | (Hs & Hid & Hne)];
           rewrite Hs in H; simplify_eq
       end.
  all: try (by left).
  all: right; eexists; split; [reflexivity|]; split; assumption.
Qed.

(** C9, amended. The unique index keeps the transaction identifiers of
    the stored payments pairwise distinct across every request; when the
    generated identifier collides with a stored one nothing is written
    (no payment, no status change), the request does not succeed, and a
    request that reached the save is answered with the generic 500
    failure: no second identifier is drawn. *)
Theorem transaction_id_collision_is_fatal env user body s :
  uniqueTransactionIds s →
  uniqueTransactionIds (route (createPayment env user body) s).2
  ∧ (collides env s →
       success (route (createPayment env user body) s).1 = false
       ∧ (route (createPayment env user body) s).2 = s
       ∧ ∀ u oid r p,
           user = Some u → validPaymentBody body →
           castObjectId (NewPayment.rentSchedule body) = Some oid →
           rentSchedules s !! oid = Some r →
           properties s !! RentSchedule.property r = Some p →
           hasAccess u p r →
           (route (createPayment env user body) s).1 = serverError).
Proof.
  intros Huniq. split.
  - pose proof (createPayment_payments env user body s) as Hpay. cbv zeta in Hpay.
    unfold uniqueTransactionIds.
    destruct Hpay as [-> | (d & -> & Hid & Hne)]; [exact Huniq|].
    intros k1 k2 d1 d2 H1 H2 Heq.
    apply lookup_insert_Some in H1 as [[<- <-] | [Hk1 H1]];
      apply lookup_insert_Some in H2 as [[<- <-] | [Hk2 H2]].
    + reflexivity.
    + exfalso. apply (Hne k2 d2 H2). congruence.
    + exfalso. apply (Hne k1 d1 H1). congruence.
    + apply (Huniq k1 k2 d1 d2 H1 H2 Heq).
  - intros Hcol. split; [|split].
    + unfold createPayment. unfold_handler. cbv zeta.
      repeat split_goal; try reflexivity.
      all: match goal with
           | H : savePayment _ _ _ = _ |- _ =>
               rewrite savePayment_collision in H by (reflexivity || assumption);
               simplify_eq
           end.
    + unfold createPayment. unfold_handler. cbv zeta.
      repeat split_goal; try reflexivity.
      all: match goal with
           | H : savePayment _ _ _ = _ |- _ =>
               rewrite savePayment_collision in H by (reflexivity || assumption);
               simplify_eq
           end.
      all: reflexivity.
    + intros u oid r p -> [Hid Hmethod] Hcast Hr Hp Hacc.
      unfold createPayment. unfold_handler. cbn beta iota delta [auth].
      rewrite Hid. unfold isIn at 1. rewrite (bool_decide_eq_true_2 _ Hmethod).
      cbn [check app]. rewrite Hcast. cbn beta iota. rewrite Hr. cbn beta iota.
      rewrite Hp. rewrite (hasAccess_true _ _ _ _ Hacc). cbn [negb].
      rewrite savePayment_collision by (reflexivity || assumption). reflexivity.
Qed.

End Payments.

(** Rent schedule 2 is due 0 and pending; recording a payment of 0 against
    it makes it paid, where the third clause asks for the status to stay. *)
Lemma zero_payment_on_zero_schedule_is_paid :
  ¬ payment_status_as_stated (P := utc) laterEnv asAdmin (pay schedule2 0) sampleStore.
Proof.
  intros Hclaim.
  destruct (Hclaim schedule2 (sampleSchedule property2 tenant2 0 RentSchedule.pending))
    as (r' & Hr' & _ & _ & Hzero).
  - vm_compute. reflexivity.
  - vm_compute. reflexivity.
  - vm_compute in Hr'. injection Hr' as <-.
    specialize (Hzero (Qeq_refl 0)). discriminate.
Qed.

Lemma freshTransaction_sample : freshTransaction laterEnv sampleStore.
Proof.
  split; [vm_compute; reflexivity|].
  intros k d Hk. unfold sampleStore in Hk. simpl in Hk.
  apply lookup_insert_Some in Hk as [[_ <-] | [_ Hk]]; [|by rewrite lookup_empty in Hk].
  vm_compute. discriminate.
Qed.

Lemma payment_settles_schedule_witness :
  let answer := route (createPayment (P := utc) laterEnv asTenant1 (pay schedule1 500))
                  sampleStore in
  statusCode answer.1 = 201
  ∧ RentSchedule.status <$> rentSchedules answer.2 !! schedule1
    = Some RentSchedule.partial.
Proof.
  destruct (payment_settles_schedule (P := utc) laterEnv
              {| _id := tenant1; role := Role.tenant |} (pay schedule1 500) sampleStore
              schedule1 (sampleSchedule property1 tenant1 1000 RentSchedule.pending)
              (sampleProperty landlord1 (Some tenant1)))
    as (Hcode & st & Hst & _ & Hpartial & _).
  - split; [vm_compute; reflexivity|]. unfold paymentMethods. repeat constructor.
  - vm_compute. reflexivity.
  - vm_compute. reflexivity.
  - vm_compute. reflexivity.
  - right. right. reflexivity.
  - vm_compute. discriminate.
  - exact freshTransaction_sample.
  - split; [exact Hcode|].
    cbv zeta in Hst |- *. unfold asTenant1. rewrite Hst. simpl.
    rewrite Hpartial; [reflexivity|]. split; reflexivity.
Defined.

(** The generated identifier equals the stored payment's: the request of
    the admin is answered 500 and no second identifier is tried. *)
Lemma collision_surfaces_as_server_error :
  ¬ collision_is_retried (P := utc) collidingEnv asAdmin (pay schedule1 1000) sampleStore.
Proof.
  intros Hclaim. apply Hclaim.
  - exists payment1, samplePayment. split; vm_compute; reflexivity.
  - vm_compute. reflexivity.
Qed.

Lemma uniqueTransactionIds_sample : uniqueTransactionIds sampleStore.
Proof.
  intros k1 k2 d1 d2 H1 H2 _. unfold sampleStore in *. simpl in *.
  apply lookup_insert_Some in H1 as [[<- _] | [_ H1]]; [|by rewrite lookup_empty in H1].
  apply lookup_insert_Some in H2 as [[<- _] | [_ H2]]; [|by rewrite lookup_empty in H2].
  reflexivity.
Qed.

Lemma transaction_id_collision_is_fatal_witness :
  let answer := route (createPayment (P := utc) collidingEnv asAdmin (pay schedule1 1000))
                  sampleStore in
  uniqueTransactionIds answer.2 ∧ answer.1 = serverError ∧ answer.2 = sampleStore.
Proof.
  destruct (transaction_id_collision_is_fatal (P := utc) collidingEnv asAdmin
              (pay schedule1 1000) sampleStore uniqueTransactionIds_sample)
    as [Huniq Hcol].
  destruct Hcol as (_ & Hsame & Herr).
  - exists payment1, samplePayment. split; vm_compute; reflexivity.
  - split; [exact Huniq|]. split; [|exact Hsame].
    apply (Herr {| _id := adminId; role := Role.admin |} schedule1
             (sampleSchedule property1 tenant1 1000 RentSchedule.pending)
             (sampleProperty landlord1 (Some tenant1)) eq_refl).
    + split; [vm_compute; reflexivity|]. unfold paymentMethods. repeat constructor.
    + vm_compute. reflexivity.
    + vm_compute. reflexivity.
    + vm_compute. reflexivity.
    + left. reflexivity.
Defined.

(** ** The bulk generator *)

(** [YearFromDay] is the year of the day: the largest year that starts on
    or before it. *)
Lemma DayFromYear_bounds y :
  146097 * (y - 1970) - 600 ≤ 400 * JSDate.DayFromYear y ≤ 146097 * (y - 1970) + 600.
Proof. unfold JSDate.DayFromYear. Z.div_mod_to_equations. lia. Qed.

Lemma YearFromDay_spec d :
  JSDate.DayFromYear (JSDate.YearFromDay d) ≤ d
  < JSDate.DayFromYear (JSDate.YearFromDay d + 1).
Proof.
  unfold JSDate.YearFromDay.
  set (y := 1970 + 400 * d / 146097).
  assert (Hy : 146097 * (y - 1970) ≤ 400 * d < 146097 * (y - 1970) + 146097)
    by (subst y; Z.div_mod_to_equations; lia).
  clearbody y.
  pose proof (DayFromYear_bounds (y - 1)). pose proof (DayFromYear_bounds (y + 2)).
  destruct (Z.leb_spec (JSDate.DayFromYear (y + 1)) d).
  - replace (y + 1 + 1) with (y + 2) by lia. lia.
  - destruct (Z.leb_spec (JSDate.DayFromYear y) d).
    + lia.
    + replace (y - 1 + 1) with y by lia. lia.
Qed.

(** 2024-01-01, the last instant of 1969 and the leap day of 2000, read as
    year, month (from 0) and day of the month. *)
Example calendar_readings :
  (JSDate.YearFromTime 1704067200000, JSDate.MonthFromTime 1704067200000,
   JSDate.DateFromTime 1704067200000) = (2024, 0, 1)
  ∧ (JSDate.YearFromTime (-1), JSDate.MonthFromTime (-1), JSDate.DateFromTime (-1))
    = (1969, 11, 31)
  ∧ (JSDate.YearFromTime 951782400000, JSDate.MonthFromTime 951782400000,
     JSDate.DateFromTime 951782400000) = (2000, 1, 29).
Proof. repeat split; vm_compute; reflexivity. Qed.

(** One step from 2024-01-31 on a UTC clock: monthly overflows February and
    lands on 2024-03-02, quarterly gives 2024-05-01 (April has 30 days),
    yearly gives 2025-01-31. *)
Example month_end_steps :
  nextDate (P := utc) "monthly" 1706659200000 = Some 1709337600000
  ∧ nextDate (P := utc) "quarterly" 1706659200000 = Some 1714521600000
  ∧ nextDate (P := utc) "yearly" 1706659200000 = Some 1738281600000.
Proof. repeat split; vm_compute; reflexivity. Qed.

Lemma DayFromYear_succ y :
  JSDate.DayFromYear (y + 1) = JSDate.DayFromYear y + 365 + JSDate.InLeapYear y.
Proof.
  unfold JSDate.DayFromYear, JSDate.InLeapYear.
  repeat match goal with |- context [Z.eqb ?a ?b] => destruct (Z.eqb_spec a b) end;
    simpl; Z.div_mod_to_equations; lia.
Qed.

Lemma InLeapYear_range y : 0 ≤ JSDate.InLeapYear y ≤ 1.
Proof. unfold JSDate.InLeapYear. destruct (_ && _); lia. Qed.

Lemma MonthFromTime_range t : 0 ≤ JSDate.MonthFromTime t ≤ 11.
Proof.
  unfold JSDate.MonthFromTime. cbv zeta.
  repeat (match goal with |- context [Z.ltb ?a ?b] => destruct (Z.ltb a b) end;
          cbv iota; try lia).
Qed.

Ltac compute_month_arith :=
  repeat match goal with
    | |- context [?a / 12] =>
        let v := eval vm_compute in (a / 12) in change (a / 12) with v
    | |- context [?a mod 12] =>
        let v := eval vm_compute in (a mod 12) in change (a mod 12) with v
    end.

Lemma month_arith m :
  0 ≤ m ≤ 11 →
  m = 0 ∨ m = 1 ∨ m = 2 ∨ m = 3 ∨ m = 4 ∨ m = 5 ∨ m = 6 ∨ m = 7 ∨ m = 8
  ∨ m = 9 ∨ m = 10 ∨ m = 11.
Proof. lia. Qed.

(** Moving the month forward by one or by three, or the year by one, moves
    the first day of the month forward by 28 days or more. *)
Lemma MakeDay_month_advances y m k :
  0 ≤ m ≤ 11 → k = 1 ∨ k = 3 →
  JSDate.DayFromYear y + JSDate.firstDayOfMonth m (JSDate.InLeapYear y) + 28
  ≤ JSDate.DayFromYear (y + (m + k) / 12)
    + JSDate.firstDayOfMonth ((m + k) mod 12) (JSDate.InLeapYear (y + (m + k) / 12)).
Proof.
  intros Hm Hk. pose proof (DayFromYear_succ y).
  pose proof (InLeapYear_range y). pose proof (InLeapYear_range (y + 1)).
  apply month_arith in Hm.
  destruct Hk as [-> | ->];
    repeat (destruct Hm as [-> | Hm]); try subst m;
    compute_month_arith; rewrite ?Z.add_0_r; cbn [JSDate.firstDayOfMonth]; lia.
Qed.

Lemma MakeDay_year_advances y m :
  0 ≤ m ≤ 11 →
  JSDate.DayFromYear y + JSDate.firstDayOfMonth m (JSDate.InLeapYear y) + 28
  ≤ JSDate.DayFromYear (y + 1 + m / 12)
    + JSDate.firstDayOfMonth (m mod 12) (JSDate.InLeapYear (y + 1 + m / 12)).
Proof.
  intros Hm. pose proof (DayFromYear_succ y).
  pose proof (InLeapYear_range y). pose proof (InLeapYear_range (y + 1)).
  apply month_arith in Hm.
  repeat (destruct Hm as [-> | Hm]); try subst m;
    compute_month_arith; rewrite ?Z.add_0_r; cbn [JSDate.firstDayOfMonth]; lia.
Qed.

Lemma Day_TimeWithinDay t :
  t = JSDate.Day t * JSDate.msPerDay + JSDate.TimeWithinDay t.
Proof.
  unfold JSDate.Day, JSDate.TimeWithinDay, JSDate.msPerDay.
  Z.div_mod_to_equations. lia.
Qed.

Lemma TimeClip_Some t t' : JSDate.TimeClip t = Some t' → t' = t.
Proof. unfold JSDate.TimeClip. destruct (_ <=? _); congruence. Qed.

(** *** The calendar of the specification *)

Lemma DayFromYear_mono a b :
  a ≤ b → JSDate.DayFromYear a ≤ JSDate.DayFromYear b.
Proof. unfold JSDate.DayFromYear. intros Hab. Z.div_mod_to_equations. lia. Qed.

Lemma YearFromDay_unique y d :
  JSDate.DayFromYear y ≤ d < JSDate.DayFromYear (y + 1) → JSDate.YearFromDay d = y.
Proof.
  intros Hd. pose proof (YearFromDay_spec d) as Hspec.
  destruct (Z.lt_trichotomy (JSDate.YearFromDay d) y) as [Hlt | [Heq | Hgt]]; [|exact Heq|].
  - pose proof (DayFromYear_mono (JSDate.YearFromDay d + 1) y). lia.
  - pose proof (DayFromYear_mono (y + 1) (JSDate.YearFromDay d)). lia.
Qed.

Lemma Day_MakeDate day time :
  0 ≤ time < JSDate.msPerDay →
  JSDate.Day (day * JSDate.msPerDay + time) = day
  ∧ JSDate.TimeWithinDay (day * JSDate.msPerDay + time) = time.
Proof.
  unfold JSDate.Day, JSDate.TimeWithinDay, JSDate.msPerDay. intros Ht.
  Z.div_mod_to_equations. lia.
Qed.

Lemma TimeWithinDay_range t : 0 ≤ JSDate.TimeWithinDay t < JSDate.msPerDay.
Proof. unfold JSDate.TimeWithinDay, JSDate.msPerDay. Z.div_mod_to_equations. lia. Qed.

(** A day of the month up to the 28th exists in every month: the calendar
    reads back the year, month and day that [MakeDay] was given, the month
    carried into the year. *)
Lemma calendar_of_MakeDay y m date time :
  1 ≤ date ≤ 28 → 0 ≤ time < JSDate.msPerDay →
  let t := JSDate.MakeDay y m date * JSDate.msPerDay + time in
  JSDate.YearFromTime t = y + m / 12
  ∧ JSDate.MonthFromTime t = m mod 12
  ∧ JSDate.DateFromTime t = date
  ∧ JSDate.TimeWithinDay t = time.
Proof.
  intros Hdate Htime t.
  destruct (Day_MakeDate (JSDate.MakeDay y m date) time Htime) as [Hday Hwithin].
  fold t in Hday, Hwithin.
  assert (Hmn : 0 ≤ m mod 12 ≤ 11) by (Z.div_mod_to_equations; lia).
  set (ym := y + m / 12) in *. set (mn := m mod 12) in *.
  pose proof (InLeapYear_range ym) as Hleap.
  pose proof (DayFromYear_succ ym) as Hsucc.
  assert (Hyear : JSDate.YearFromTime t = ym).
  { unfold JSDate.YearFromTime. rewrite Hday. apply YearFromDay_unique.
    unfold JSDate.MakeDay. fold ym mn. rewrite Hsucc.
    apply month_arith in Hmn.
    repeat (destruct Hmn as [-> | Hmn]); try rewrite Hmn;
      cbn [JSDate.firstDayOfMonth]; lia. }
  assert (Hwithin_year : JSDate.DayWithinYear t
                         = JSDate.firstDayOfMonth mn (JSDate.InLeapYear ym) + date - 1).
  { unfold JSDate.DayWithinYear. rewrite Hyear, Hday. unfold JSDate.MakeDay.
    fold ym mn. lia. }
  assert (Hmonth : JSDate.MonthFromTime t = mn).
  { unfold JSDate.MonthFromTime. cbv zeta. rewrite Hwithin_year, Hyear.
    apply month_arith in Hmn.
    repeat (destruct Hmn as [-> | Hmn]); try rewrite Hmn;
      cbn [JSDate.firstDayOfMonth];
      repeat (match goal with |- context [Z.ltb ?a ?b] => destruct (Z.ltb_spec a b) end;
              cbv iota; try lia). }
  split; [exact Hyear|]. split; [exact Hmonth|]. split; [|exact Hwithin].
  unfold JSDate.DateFromTime. rewrite Hwithin_year, Hmonth, Hyear. lia.
Qed.

(** And [MakeDay] gives back the day whose calendar reading it is given. *)
Lemma MakeDay_of_calendar t :
  JSDate.MakeDay (JSDate.YearFromTime t) (JSDate.MonthFromTime t) (JSDate.DateFromTime t)
  = JSDate.Day t.
Proof.
  pose proof (MonthFromTime_range t) as Hm.
  unfold JSDate.MakeDay, JSDate.DateFromTime, JSDate.DayWithinYear.
  replace (JSDate.MonthFromTime t / 12) with 0 by (Z.div_mod_to_equations; lia).
  replace (JSDate.MonthFromTime t mod 12) with (JSDate.MonthFromTime t)
    by (Z.div_mod_to_equations; lia).
  rewrite Z.add_0_r. lia.
Qed.

Lemma DateFromTime_pos t : 1 ≤ JSDate.DateFromTime t.
Proof.
  pose proof (YearFromDay_spec (JSDate.Day t)) as [Hyear _].
  unfold JSDate.DateFromTime, JSDate.MonthFromTime. cbv zeta.
  assert (Hd : 0 ≤ JSDate.DayWithinYear t)
    by (unfold JSDate.DayWithinYear, JSDate.YearFromTime; lia).
  repeat (match goal with |- context [Z.ltb ?a ?b] => destruct (Z.ltb_spec a b) end;
          cbv iota; cbn [JSDate.firstDayOfMonth]; try lia).
Qed.

Lemma MakeDay_year y m date :
  JSDate.MakeDay (y + 1) m date = JSDate.MakeDay y (m + 12) date.
Proof.
  unfold JSDate.MakeDay.
  replace ((m + 12) / 12) with (m / 12 + 1) by (Z.div_mod_to_equations; lia).
  replace ((m + 12) mod 12) with (m mod 12) by (Z.div_mod_to_equations; lia).
  replace (y + 1 + m / 12) with (y + (m / 12 + 1)) by lia. reflexivity.
Qed.

Lemma civilTime_monthsLater n c :
  civilTime (monthsLater n c)
  = JSDate.MakeDay (c_year c) (c_month c + n) (c_day c) * JSDate.msPerDay + c_time c.
Proof.
  unfold civilTime, monthsLater, JSDate.MakeDate, JSDate.MakeDay.
  cbn [c_year c_month c_day c_time].
  set (M := 12 * c_year c + c_month c + n).
  replace (M mod 12 / 12) with 0 by (Z.div_mod_to_equations; lia).
  replace (M mod 12 mod 12) with (M mod 12) by (Z.div_mod_to_equations; lia).
  replace (M / 12 + 0) with (c_year c + (c_month c + n) / 12)
    by (subst M; Z.div_mod_to_equations; lia).
  replace (M mod 12) with ((c_month c + n) mod 12)
    by (subst M; Z.div_mod_to_equations; lia).
  reflexivity.
Qed.

Lemma monthsLater_add a b c : monthsLater a (monthsLater b c) = monthsLater (a + b) c.
Proof.
  unfold monthsLater. cbn [c_year c_month c_day c_time].
  set (M := 12 * c_year c + c_month c + b).
  replace (12 * (M / 12) + M mod 12 + a) with (12 * c_year c + c_month c + (a + b))
    by (subst M; Z.div_mod_to_equations; lia).
  reflexivity.
Qed.

Lemma monthsLater_0 t : monthsLater 0 (civil t) = civil t.
Proof.
  pose proof (MonthFromTime_range t) as Hm.
  unfold monthsLater, civil. cbn [c_year c_month c_day c_time]. f_equal.
  - Z.div_mod_to_equations. lia.
  - Z.div_mod_to_equations. lia.
Qed.

Lemma civilTime_civil t : civilTime (civil t) = t.
Proof.
  unfold civilTime, civil, JSDate.MakeDate. cbn [c_year c_month c_day c_time].
  rewrite MakeDay_of_calendar. symmetry. apply Day_TimeWithinDay.
Qed.

(** Up to the 28th the calendar reads what the months-later date says. *)
Lemma civil_monthsLater n c :
  1 ≤ c_day c ≤ 28 → 0 ≤ c_time c < JSDate.msPerDay →
  civil (civilTime (monthsLater n c)) = monthsLater n c.
Proof.
  intros Hday Htime. rewrite civilTime_monthsLater.
  destruct (calendar_of_MakeDay (c_year c) (c_month c + n) (c_day c) (c_time c)
              Hday Htime) as (Hy & Hm & Hd & Ht).
  unfold civil. rewrite Hy, Hm, Hd, Ht. unfold monthsLater. f_equal.
  - Z.div_mod_to_equations. lia.
  - Z.div_mod_to_equations. lia.
Qed.

(** One, three or twelve months later is 28 days later or more. *)
Lemma civilTime_advances n c :
  0 ≤ c_month c ≤ 11 → n = 1 ∨ n = 3 ∨ n = 12 →
  civilTime c + 28 * JSDate.msPerDay ≤ civilTime (monthsLater n c).
Proof.
  intros Hm Hn. rewrite civilTime_monthsLater.
  unfold civilTime, JSDate.MakeDate.
  assert (Hdays : JSDate.MakeDay (c_year c) (c_month c) (c_day c) + 28
                  ≤ JSDate.MakeDay (c_year c) (c_month c + n) (c_day c)).
  { destruct Hn as [-> | [-> | ->]].
    - pose proof (MakeDay_month_advances (c_year c) (c_month c) 1 Hm) as Hadv.
      unfold JSDate.MakeDay.
      replace (c_month c / 12) with 0 by (Z.div_mod_to_equations; lia).
      replace (c_month c mod 12) with (c_month c) by (Z.div_mod_to_equations; lia).
      rewrite Z.add_0_r. specialize (Hadv (or_introl eq_refl)). lia.
    - pose proof (MakeDay_month_advances (c_year c) (c_month c) 3 Hm) as Hadv.
      unfold JSDate.MakeDay.
      replace (c_month c / 12) with 0 by (Z.div_mod_to_equations; lia).
      replace (c_month c mod 12) with (c_month c) by (Z.div_mod_to_equations; lia).
      rewrite Z.add_0_r. specialize (Hadv (or_intror eq_refl)). lia.
    - rewrite <-MakeDay_year.
      pose proof (MakeDay_year_advances (c_year c) (c_month c) Hm) as Hadv.
      unfold JSDate.MakeDay.
      replace (c_month c / 12) with 0 in * by (Z.div_mod_to_equations; lia).
      replace (c_month c mod 12) with (c_month c) in * by (Z.div_mod_to_equations; lia).
      rewrite !Z.add_0_r in *. lia. }
  unfold JSDate.msPerDay. lia.
Qed.

Lemma stepMonths_frequencies frequency :
  frequency ∈ frequencies →
  stepMonths frequency = 1 ∨ stepMonths frequency = 3 ∨ stepMonths frequency = 12.
Proof.
  unfold frequencies. intros Hf.
  repeat (apply elem_of_cons in Hf as [-> | Hf]; [vm_compute; auto|]).
  by apply elem_of_nil in Hf.
Qed.

(** The advanced dates read on the calendar as the specification says, and
    are 28 days or more apart. *)
Lemma civil_advancedDate frequency tza k start :
  JSDate.DateFromTime (start + tza) ≤ 28 →
  civil (advancedDate frequency tza k start + tza)
  = monthsLater (stepMonths frequency * Z.of_nat k) (civil (start + tza)).
Proof.
  intros Hday. unfold advancedDate.
  replace (civilTime (monthsLater (stepMonths frequency * Z.of_nat k)
                        (civil (start + tza))) - tza + tza)
    with (civilTime (monthsLater (stepMonths frequency * Z.of_nat k)
                       (civil (start + tza)))) by lia.
  apply civil_monthsLater.
  - cbn [civil c_day]. pose proof (DateFromTime_pos (start + tza)). lia.
  - cbn [civil c_time]. apply TimeWithinDay_range.
Qed.

Lemma advancedDate_0 frequency tza start : advancedDate frequency tza 0 start = start.
Proof.
  unfold advancedDate. rewrite Z.mul_0_r, monthsLater_0, civilTime_civil. lia.
Qed.

Lemma advancedDate_S frequency tza k start :
  advancedDate frequency tza (S k) start
  = civilTime (monthsLater (stepMonths frequency)
                 (monthsLater (stepMonths frequency * Z.of_nat k) (civil (start + tza))))
    - tza.
Proof.
  unfold advancedDate. rewrite monthsLater_add. do 3 f_equal. lia.
Qed.

Lemma advancedDate_advances frequency tza k start :
  frequency ∈ frequencies →
  JSDate.DateFromTime (start + tza) ≤ 28 →
  advancedDate frequency tza k start + 28 * JSDate.msPerDay
  ≤ advancedDate frequency tza (S k) start.
Proof.
  intros Hf Hday. rewrite advancedDate_S.
  pose proof (civilTime_advances (stepMonths frequency)
                (monthsLater (stepMonths frequency * Z.of_nat k) (civil (start + tza))))
    as Hadv.
  unfold advancedDate.
  assert (Hm : 0 ≤ c_month (monthsLater (stepMonths frequency * Z.of_nat k)
                              (civil (start + tza))) ≤ 11).
  { unfold monthsLater. cbn [c_month]. Z.div_mod_to_equations. lia. }
  specialize (Hadv Hm (stepMonths_frequencies _ Hf)). lia.
Qed.

Lemma advancedDate_monotone frequency tza j k start :
  frequency ∈ frequencies →
  JSDate.DateFromTime (start + tza) ≤ 28 →
  (j ≤ k)%nat →
  advancedDate frequency tza j start ≤ advancedDate frequency tza k start.
Proof.
  intros Hf Hday Hjk. induction Hjk as [|k Hjk IH]; [lia|].
  pose proof (advancedDate_advances frequency tza k start Hf Hday).
  unfold JSDate.msPerDay in *. lia.
Qed.

Section Bulk.
Context {P : Platform}.

Lemma setMonth_eq t m :
  setMonth t m
  = JSDate.TimeClip
      (UTC (JSDate.MakeDay (JSDate.YearFromTime (LocalTime t)) m
              (JSDate.DateFromTime (LocalTime t)) * JSDate.msPerDay
            + JSDate.TimeWithinDay (LocalTime t))).
Proof. reflexivity. Qed.

Lemma advance_in_days day day' time off off' v t :
  t + off = day * JSDate.msPerDay + time →
  day + 28 ≤ day' →
  off' - off ≤ v →
  t + 28 * JSDate.msPerDay - v ≤ day' * JSDate.msPerDay + time - off'.
Proof. unfold JSDate.msPerDay. lia. Qed.

Lemma setMonth_advances v t k t' :
  offsetsVaryBy v →
  k = 1 ∨ k = 3 →
  setMonth t (getMonth t + k) = Some t' → t + 28 * JSDate.msPerDay - v ≤ t'.
Proof.
  intros Hv Hk Hset. rewrite setMonth_eq in Hset.
  apply TimeClip_Some in Hset. subst t'. unfold UTC.
  apply advance_in_days
    with (day := JSDate.Day (LocalTime t)) (off := LocalTZA t true).
  - apply Day_TimeWithinDay.
  - pose proof (MakeDay_month_advances (JSDate.YearFromTime (LocalTime t))
                (JSDate.MonthFromTime (LocalTime t)) k
                (MonthFromTime_range (LocalTime t)) Hk) as Hadv.
    unfold getMonth, JSDate.MakeDay, JSDate.DateFromTime, JSDate.DayWithinYear.
    lia.
  - apply Hv.
Qed.

Lemma setFullYear_eq t y :
  setFullYear t y
  = JSDate.TimeClip
      (UTC (JSDate.MakeDay y (JSDate.MonthFromTime (LocalTime t))
              (JSDate.DateFromTime (LocalTime t)) * JSDate.msPerDay
            + JSDate.TimeWithinDay (LocalTime t))).
Proof. reflexivity. Qed.

Lemma setFullYear_advances v t t' :
  offsetsVaryBy v →
  setFullYear t (getFullYear t + 1) = Some t' → t + 28 * JSDate.msPerDay - v ≤ t'.
Proof.
  intros Hv Hset. rewrite setFullYear_eq in Hset.
  apply TimeClip_Some in Hset. subst t'. unfold UTC.
  apply advance_in_days
    with (day := JSDate.Day (LocalTime t)) (off := LocalTZA t true).
  - apply Day_TimeWithinDay.
  - pose proof (MakeDay_year_advances (JSDate.YearFromTime (LocalTime t))
                (JSDate.MonthFromTime (LocalTime t))
                (MonthFromTime_range (LocalTime t))) as Hadv.
    unfold getFullYear, JSDate.MakeDay, JSDate.DateFromTime, JSDate.DayWithinYear.
    lia.
  - apply Hv.
Qed.

(** Every step of the generator moves the date forward, by 28 days less
    what the offsets of the zone differ by, or more. *)
Lemma nextDate_advances v frequency t t' :
  offsetsVaryBy v →
  frequency ∈ frequencies →
  nextDate frequency t = Some t' → t + 28 * JSDate.msPerDay - v ≤ t'.
Proof.
  intros Hv Hf. unfold nextDate.
  destruct (String.eqb_spec frequency "monthly");
    [apply setMonth_advances; [exact Hv|by left]|].
  destruct (String.eqb_spec frequency "quarterly");
    [apply setMonth_advances; [exact Hv|by right]|].
  destruct (String.eqb_spec frequency "yearly");
    [apply setFullYear_advances; exact Hv|].
  exfalso. unfold frequencies in Hf.
  repeat (apply elem_of_cons in Hf as [Hf | Hf]; [congruence|]).
  by apply elem_of_nil in Hf.
Qed.

Lemma advanced_grows v frequency k start d :
  offsetsVaryBy v →
  frequency ∈ frequencies →
  advanced frequency k start = Some d →
  start + Z.of_nat k * (28 * JSDate.msPerDay - v) ≤ d.
Proof.
  intros Hv Hf. revert start. induction k as [|k IH]; intros start Hk.
  - simpl in Hk. injection Hk as <-. lia.
  - cbn [advanced] in Hk. destruct (nextDate frequency start) as [next|] eqn:Hn;
      [|discriminate]. simpl in Hk.
    apply (nextDate_advances _ _ _ _ Hv Hf) in Hn. apply IH in Hk.
    unfold JSDate.msPerDay in *. lia.
Qed.

(** The loop ends within the rounds the handler allows. *)
Lemma bulkLoop_terminates v body fuel e c :
  offsetsVaryBy v → v ≤ 27 * JSDate.msPerDay →
  Bulk.frequency body ∈ frequencies →
  e - c < Z.of_nat fuel * JSDate.msPerDay →
  is_Some (bulkLoop fuel body (Some e) (Some c)).
Proof.
  intros Hv Hsmall Hf. revert c. induction fuel as [|fuel IH]; intros c Hfuel.
  - simpl. destruct (Z.leb_spec c e); [lia|eauto].
  - cbn [bulkLoop]. destruct (Z.leb_spec c e); [|eauto].
    destruct (nextDate (Bulk.frequency body) c) as [next|] eqn:Hn.
    + apply (nextDate_advances _ _ _ _ Hv Hf) in Hn.
      destruct (IH next) as [entries ->]; [unfold JSDate.msPerDay in *; lia|].
      simpl. eauto.
    + destruct fuel; simpl; eauto.
Qed.

Lemma bulkFuel_suffices v body start end_ :
  offsetsVaryBy v → v ≤ 27 * JSDate.msPerDay →
  Bulk.frequency body ∈ frequencies →
  is_Some (bulkLoop (bulkFuel start end_) body end_ start).
Proof.
  intros Hv Hsmall Hf. destruct start as [c|], end_ as [e|]; simpl bulkFuel.
  - destruct (Z.leb_spec c e).
    + apply (bulkLoop_terminates v body _ e c Hv Hsmall Hf).
      unfold JSDate.msPerDay.
      rewrite Nat2Z.inj_succ, Z2Nat.id by (apply Z.div_pos; lia).
      Z.div_mod_to_equations. lia.
    + cbn [bulkLoop]. destruct (Z.leb_spec c e); [lia|eauto].
  - simpl. eauto.
  - simpl. eauto.
  - simpl. eauto.
Qed.

(** What the loop pushes: entry [k] is due on the date the loop holds after
    [k] rounds, which is no later than the end date, and the first date
    that is not pushed is past the end date (or out of the range of
    dates). *)
Lemma bulkLoop_entries body fuel e c entries :
  bulkLoop fuel body (Some e) (Some c) = Some entries →
  (∀ k entry, entries !! k = Some entry →
     ∃ d, advanced (Bulk.frequency body) k c = Some d ∧ d ≤ e
          ∧ entry = bulkEntry body d)
  ∧ (∀ d, advanced (Bulk.frequency body) (length entries) c = Some d → e < d).
Proof.
  revert c entries. induction fuel as [|fuel IH]; intros c entries Hloop.
  - simpl in Hloop. destruct (Z.leb_spec c e); [discriminate|].
    injection Hloop as <-. split.
    + intros k entry Hk. by rewrite lookup_nil in Hk.
    + simpl. intros d [= <-]. lia.
  - cbn [bulkLoop] in Hloop. destruct (Z.leb_spec c e).
    + destruct (nextDate (Bulk.frequency body) c) as [next|] eqn:Hn.
      * destruct (bulkLoop fuel body (Some e) (Some next)) as [rest|] eqn:Hrest;
          [|discriminate].
        simpl in Hloop. injection Hloop as <-.
        destruct (IH next rest Hrest) as [Hin Hout]. split.
        -- intros [|k] entry Hk.
           ++ simpl in Hk. injection Hk as <-. exists c. done.
           ++ simpl in Hk. cbn [advanced]. rewrite Hn. simpl. by apply Hin.
        -- cbn [length advanced]. rewrite Hn. simpl. exact Hout.
      * assert (Hnone : bulkLoop fuel body (Some e) None = Some [])
          by (destruct fuel; reflexivity).
        rewrite Hnone in Hloop. simpl in Hloop. injection Hloop as <-. split.
        -- intros [|k] entry Hk; [|by destruct k].
           simpl in Hk. injection Hk as <-. exists c. done.
        -- cbn [length advanced]. rewrite Hn. simpl. discriminate.
    + injection Hloop as <-. split.
      * intros k entry Hk. by rewrite lookup_nil in Hk.
      * simpl. intros d [= <-]. lia.
Qed.

(** And every date of the loop within the end date is pushed. *)
Lemma advanced_monotone v frequency j k start dj dk :
  offsetsVaryBy v → v ≤ 27 * JSDate.msPerDay →
  frequency ∈ frequencies → (j ≤ k)%nat →
  advanced frequency j start = Some dj → advanced frequency k start = Some dk →
  dj ≤ dk.
Proof.
  intros Hv Hsmall Hf. revert k start.
  induction j as [|j IH]; intros k start Hjk Hj Hk.
  - simpl in Hj. injection Hj as <-.
    pose proof (advanced_grows _ _ _ _ _ Hv Hf Hk). unfold JSDate.msPerDay in *. nia.
  - destruct k as [|k]; [lia|]. cbn [advanced] in Hj, Hk.
    destruct (nextDate frequency start) as [next|]; [|discriminate].
    simpl in Hj, Hk. apply (IH k next); [lia|assumption..].
Qed.

Lemma advanced_prefix frequency j k start dk :
  (j ≤ k)%nat → advanced frequency k start = Some dk →
  is_Some (advanced frequency j start).
Proof.
  revert k start. induction j as [|j IH]; intros k start Hjk Hk; [simpl; eauto|].
  destruct k as [|k]; [lia|]. cbn [advanced] in Hk |- *.
  destruct (nextDate frequency start) as [next|]; [|discriminate].
  simpl in Hk |- *. apply (IH k next); [lia|assumption].
Qed.

(** The due dates of the batch are the dates of the loop within the end
    date, one for each round. *)
Lemma bulkLoop_dueDates v body fuel e c entries k d :
  offsetsVaryBy v → v ≤ 27 * JSDate.msPerDay →
  Bulk.frequency body ∈ frequencies →
  bulkLoop fuel body (Some e) (Some c) = Some entries →
  entries !! k = Some (bulkEntry body d)
  ↔ advanced (Bulk.frequency body) k c = Some d ∧ d ≤ e.
Proof.
  intros Hv Hsmall Hf Hloop.
  destruct (bulkLoop_entries _ _ _ _ _ Hloop) as [Hin Hout]. split.
  - intros Hk. destruct (Hin k _ Hk) as (d' & Hadv & Hle & Heq).
    assert (d = d') as -> by (by injection Heq). done.
  - intros [Hadv Hle].
    destruct (decide (k < length entries)%nat) as [Hlt | Hge].
    + destruct (lookup_lt_is_Some_2 entries k Hlt) as [entry Hk].
      destruct (Hin k _ Hk) as (d' & Hadv' & _ & ->). congruence.
    + exfalso. assert (Hle' : (length entries ≤ k)%nat) by lia.
      destruct (advanced_prefix _ _ _ _ _ Hle' Hadv) as [dn Hn].
      pose proof (Hout dn Hn).
      pose proof (advanced_monotone _ _ _ _ _ _ _ Hv Hsmall Hf Hle' Hn Hadv). lia.
Qed.

(** *** The insert *)

Lemma validBulkBody_errors body :
  validBulkBody body →
  check (isMongoId (Bulk.property body)) "Invalid value"
  ++ check (isMongoId (Bulk.tenant body)) "Invalid value"
  ++ check (isISO8601 (Bulk.startDate body)) "Invalid value"
  ++ check (isISO8601 (Bulk.endDate body)) "Invalid value"
  ++ check (isIn frequencies (Bulk.frequency body)) "Invalid value"
  ++ optional (Bulk.paymentMethod body) (isIn paymentMethods) "Invalid value" = [].
Proof.
  intros (-> & -> & -> & -> & Hf & Hm). unfold isIn.
  rewrite (bool_decide_eq_true_2 _ Hf). simpl.
  destruct (Bulk.paymentMethod body) as [v|]; [|reflexivity]. simpl.
  by rewrite (bool_decide_eq_true_2 _ (Hm v eq_refl)).
Qed.

Lemma newRentSchedule_bulkEntry body propertyOid tenantOid d :
  validBulkBody body →
  castObjectId (Bulk.property body) = Some propertyOid →
  castObjectId (Bulk.tenant body) = Some tenantOid →
  (0 <= Bulk.amount body)%Q →
  newRentSchedule (bulkEntry body d) = Some (bulkDocument body propertyOid tenantOid d).
Proof.
  intros (_ & _ & _ & _ & Hf & Hm) Hp Ht Hamount.
  unfold newRentSchedule, bulkEntry. cbn [Bulk.e_property Bulk.e_tenant
    Bulk.e_amount Bulk.e_paymentMethod Bulk.e_frequency Bulk.e_dueDate Bulk.e_recurring].
  rewrite Hp, Ht. apply Qle_bool_iff in Hamount. rewrite Hamount.
  unfold isIn. rewrite (bool_decide_eq_true_2 _ Hf).
  rewrite bool_decide_eq_true_2; [reflexivity|].
  destruct (Bulk.paymentMethod body) as [v|]; simpl; [by apply Hm|].
  unfold paymentMethods. repeat constructor.
Qed.

Lemma inserted_lookup_other ids k docs m id :
  (∀ i, id ≠ ids (k + i)%nat) → inserted ids k docs m !! id = m !! id.
Proof.
  revert k m. induction docs as [|d docs IH]; intros k m Hid; [reflexivity|].
  simpl. rewrite IH.
  - apply lookup_insert_ne. specialize (Hid O). rewrite Nat.add_0_r in Hid. done.
  - intros i. specialize (Hid (S i)). by rewrite Nat.add_succ_r in Hid.
Qed.

Lemma inserted_lookup ids k docs m i d :
  (∀ a b, ids a = ids b → a = b) →
  docs !! i = Some d → inserted ids k docs m !! ids (k + i)%nat = Some d.
Proof.
  intros Hinj. revert k m i. induction docs as [|d' docs IH]; intros k m i Hi.
  - by rewrite lookup_nil in Hi.
  - destruct i as [|i]; simpl in Hi |- *.
    + injection Hi as ->. rewrite Nat.add_0_r, inserted_lookup_other.
      * apply lookup_insert_eq.
      * intros j Heq. apply Hinj in Heq. lia.
    + rewrite <- Nat.add_succ_comm. by apply IH.
Qed.

Lemma insertAll_fresh ids k docs s :
  (∀ a b, ids a = ids b → a = b) →
  (∀ i, (k ≤ i)%nat → rentSchedules s !! ids i = None) →
  ∃ created,
    insertAll ids k docs s
    = Continue created (set_rentSchedules (inserted ids k docs) s)
    ∧ length created = length docs.
Proof.
  intros Hinj. revert k s. induction docs as [|d docs IH]; intros k s Hfree.
  - exists []. split; [|reflexivity]. by destruct s.
  - cbn [insertAll]. unfold_handler. rewrite Hfree by lia.
    destruct (IH (S k) (set_rentSchedules <[ids k:=d]> s)) as (created & Hrun & Hlen).
    { intros i Hi. simpl. rewrite lookup_insert_ne; [apply Hfree; lia|].
      intros Heq. apply Hinj in Heq. lia. }
    rewrite Hrun. eexists. split; [reflexivity|]. simpl. by rewrite Hlen.
Qed.

Lemma mapM_bulkEntry body propertyOid tenantOid dueDates :
  validBulkBody body →
  castObjectId (Bulk.property body) = Some propertyOid →
  castObjectId (Bulk.tenant body) = Some tenantOid →
  (0 <= Bulk.amount body)%Q →
  mapM newRentSchedule (bulkEntry body <$> dueDates)
  = Some (bulkDocument body propertyOid tenantOid <$> dueDates).
Proof.
  intros Hv Hp Ht Hamount. induction dueDates as [|d dueDates IH]; [reflexivity|].
  cbn [fmap list_fmap mapM]. rewrite (newRentSchedule_bulkEntry _ _ _ _ Hv Hp Ht Hamount).
  simpl. simpl in IH. rewrite IH. reflexivity.
Qed.

Lemma bulkLoop_is_map body fuel e c entries :
  bulkLoop fuel body (Some e) (Some c) = Some entries →
  entries = bulkEntry body <$> (Bulk.e_dueDate <$> entries).
Proof.
  intros Hloop. destruct (bulkLoop_entries _ _ _ _ _ Hloop) as [Hin _].
  apply list_eq. intros k. rewrite !list_lookup_fmap.
  destruct (entries !! k) as [entry|] eqn:Hk; [|reflexivity].
  destruct (Hin k entry Hk) as (d & _ & _ & ->). reflexivity.
Qed.

(** The answer of the bulk route when its checks pass. *)
Lemma bulkRentSchedules_created v env u body s oid p tenantOid start end_ :
  managesProperty u p → validBulkBody body →
  castObjectId (Bulk.property body) = Some oid →
  properties s !! oid = Some p →
  castObjectId (Bulk.tenant body) = Some tenantOid →
  (0 <= Bulk.amount body)%Q →
  newDate (Bulk.startDate body) = Some start →
  newDate (Bulk.endDate body) = Some end_ →
  freshIds env s →
  offsetsVaryBy v → v ≤ 27 * JSDate.msPerDay →
  ∃ dueDates,
    bulkLoop (bulkFuel (Some start) (Some end_)) body (Some end_) (Some start)
    = Some (bulkEntry body <$> dueDates)
    ∧ route (bulkRentSchedules env (Some u) body) s
      = (json 201 true (Some (bulkMessage (length dueDates))) (Count (length dueDates)),
         set_rentSchedules
           (inserted (newObjectId env) O
              (bulkDocument body oid tenantOid <$> dueDates)) s).
Proof.
  intros Hm Hv Hcast Hp Htenant Hamount Hstart Hend [Hfree Hinj] Hvary Hsmall.
  destruct (bulkFuel_suffices v body (Some start) (Some end_) Hvary Hsmall)
    as [entries Hloop]; [apply Hv|].
  pose proof (bulkLoop_is_map _ _ _ _ _ Hloop) as Hmap.
  remember (Bulk.e_dueDate <$> entries) as dueDates eqn:Hdates.
  clear Hdates. subst entries.
  exists dueDates. split; [exact Hloop|].
  unfold bulkRentSchedules. unfold_handler. cbn beta iota delta [auth].
  rewrite (manages_authorized _ _ Hm), (validBulkBody_errors _ Hv).
  rewrite Hcast. cbn beta iota. rewrite Hp, (foreignLandlord_manages _ _ Hm).
  rewrite Hstart, Hend, Hloop. unfold insertMany.
  rewrite (mapM_bulkEntry _ _ _ _ Hv Hcast Htenant Hamount).
  destruct (insertAll_fresh (newObjectId env) O
              (bulkDocument body oid tenantOid <$> dueDates) s Hinj)
    as (created & -> & Hlen); [intros; apply Hfree|].
  rewrite Hlen, !length_fmap. reflexivity.
Qed.

(** *** A zone at a fixed offset

    Without daylight-saving transitions the generator steps on the local
    calendar as the specification says, as long as the day of the month
    exists in every month. *)

Lemma fixedOffset_varies tza : fixedOffset tza → offsetsVaryBy 0.
Proof. intros Hfix t t' b b'. rewrite !Hfix. lia. Qed.

Lemma LocalTime_fixed tza t : fixedOffset tza → LocalTime t = t + tza.
Proof. intros Hfix. unfold LocalTime. by rewrite Hfix. Qed.

Lemma UTC_fixed tza t : fixedOffset tza → UTC t = t - tza.
Proof. intros Hfix. unfold UTC. by rewrite Hfix. Qed.

(** One step of the code is one step of the specification's calendar. *)
Lemma nextDate_civil tza frequency t :
  fixedOffset tza → frequency ∈ frequencies →
  nextDate frequency t
  = JSDate.TimeClip
      (civilTime (monthsLater (stepMonths frequency) (civil (t + tza))) - tza).
Proof.
  intros Hfix Hf. unfold nextDate, stepMonths.
  rewrite civilTime_monthsLater. cbn [civil c_year c_month c_day c_time].
  destruct (String.eqb_spec frequency "monthly").
  { rewrite setMonth_eq, (UTC_fixed tza _ Hfix). unfold getMonth.
    rewrite !(LocalTime_fixed tza _ Hfix). reflexivity. }
  destruct (String.eqb_spec frequency "quarterly").
  { rewrite setMonth_eq, (UTC_fixed tza _ Hfix). unfold getMonth.
    rewrite !(LocalTime_fixed tza _ Hfix). reflexivity. }
  destruct (String.eqb_spec frequency "yearly").
  { rewrite setFullYear_eq, (UTC_fixed tza _ Hfix). unfold getFullYear.
    rewrite !(LocalTime_fixed tza _ Hfix). rewrite MakeDay_year. reflexivity. }
  exfalso. unfold frequencies in Hf.
  repeat (apply elem_of_cons in Hf as [Hf | Hf]; [congruence|]).
  by apply elem_of_nil in Hf.
Qed.

Lemma nextDate_advancedDate tza frequency k start :
  fixedOffset tza → frequency ∈ frequencies →
  JSDate.DateFromTime (start + tza) ≤ 28 →
  nextDate frequency (advancedDate frequency tza k start)
  = JSDate.TimeClip (advancedDate frequency tza (S k) start).
Proof.
  intros Hfix Hf Hday.
  rewrite (nextDate_civil tza _ _ Hfix Hf), (civil_advancedDate _ _ _ _ Hday).
  by rewrite advancedDate_S.
Qed.

Lemma advanced_succ frequency k start :
  advanced frequency (S k) start = advanced frequency k start ≫= nextDate frequency.
Proof.
  revert start. induction k as [|k IH]; intros start.
  - simpl. by destruct (nextDate frequency start).
  - change (advanced frequency (S (S k)) start)
      with (nextDate frequency start ≫= advanced frequency (S k)).
    change (advanced frequency (S k) start)
      with (nextDate frequency start ≫= advanced frequency k).
    destruct (nextDate frequency start) as [d|]; [|reflexivity].
    simpl. apply IH.
Qed.

(** The dates of the loop are the advanced dates of the specification. *)
Lemma advanced_advancedDate tza frequency k start d :
  fixedOffset tza → frequency ∈ frequencies →
  JSDate.DateFromTime (start + tza) ≤ 28 →
  advanced frequency k start = Some d →
  d = advancedDate frequency tza k start.
Proof.
  intros Hfix Hf Hday. revert d. induction k as [|k IH]; intros d Hk.
  - simpl in Hk. injection Hk as <-. by rewrite advancedDate_0.
  - rewrite advanced_succ in Hk.
    destruct (advanced frequency k start) as [dk|]; [|discriminate].
    cbn [mbind option_bind] in Hk. rewrite (IH dk eq_refl) in Hk.
    rewrite (nextDate_advancedDate tza frequency k start Hfix Hf Hday) in Hk.
    by apply TimeClip_Some in Hk.
Qed.

Lemma advancedDate_advanced tza frequency k start :
  fixedOffset tza → frequency ∈ frequencies →
  JSDate.DateFromTime (start + tza) ≤ 28 →
  Z.abs start ≤ 8640000000000000 →
  advancedDate frequency tza k start ≤ 8640000000000000 →
  advanced frequency k start = Some (advancedDate frequency tza k start).
Proof.
  intros Hfix Hf Hday Hstart. induction k as [|k IH]; intros Hk.
  - simpl. by rewrite advancedDate_0.
  - pose proof (advancedDate_advances frequency tza k start Hf Hday) as Hadv.
    pose proof (advancedDate_monotone frequency tza 0 (S k) start Hf Hday) as Hmono.
    rewrite advancedDate_0 in Hmono. specialize (Hmono ltac:(lia)).
    rewrite advanced_succ, IH by (unfold JSDate.msPerDay in *; lia).
    cbn [mbind option_bind].
    rewrite (nextDate_advancedDate tza frequency k start Hfix Hf Hday).
    unfold JSDate.TimeClip.
    destruct (Z.leb_spec (Z.abs (advancedDate frequency tza (S k) start))
                8640000000000000); [reflexivity|].
    lia.
Qed.

Lemma newDate_range v t : newDate v = Some t → Z.abs t ≤ 8640000000000000.
Proof.
  unfold newDate. destruct (Date_parse v) as [t0|]; [|discriminate]. simpl.
  unfold JSDate.TimeClip. destruct (Z.leb_spec (Z.abs t0) 8640000000000000); [|discriminate].
  by intros [= <-].
Qed.

(** *** Whole days east of Greenwich

    When local time is UTC or ahead of it by less than a day, a UTC
    midnight falls on the same calendar day locally, and the generator
    steps from midnight to midnight as it does on a UTC clock. *)

Lemma calendar_of_midnight day tza :
  0 ≤ tza < JSDate.msPerDay →
  JSDate.YearFromTime (day * JSDate.msPerDay + tza)
  = JSDate.YearFromTime (day * JSDate.msPerDay)
  ∧ JSDate.MonthFromTime (day * JSDate.msPerDay + tza)
    = JSDate.MonthFromTime (day * JSDate.msPerDay)
  ∧ JSDate.DateFromTime (day * JSDate.msPerDay + tza)
    = JSDate.DateFromTime (day * JSDate.msPerDay).
Proof.
  intros Htz. destruct (Day_MakeDate day tza Htz) as [Hday _].
  assert (Hday0 : JSDate.Day (day * JSDate.msPerDay) = day).
  { unfold JSDate.Day, JSDate.msPerDay. Z.div_mod_to_equations. lia. }
  unfold JSDate.DateFromTime, JSDate.MonthFromTime, JSDate.DayWithinYear,
    JSDate.YearFromTime.
  rewrite Hday, Hday0. done.
Qed.

Lemma nextDate_of_midnight tza frequency day :
  fixedOffset tza → 0 ≤ tza < JSDate.msPerDay →
  nextDate frequency (day * JSDate.msPerDay) = nextMidnight frequency day.
Proof.
  intros Hfix Htz. unfold nextDate, nextMidnight. cbv zeta.
  rewrite setMonth_eq, setMonth_eq, setFullYear_eq. unfold getMonth, getFullYear.
  rewrite !(UTC_fixed tza _ Hfix), !(LocalTime_fixed tza _ Hfix).
  destruct (calendar_of_midnight day tza Htz) as (-> & -> & ->).
  destruct (Day_MakeDate day tza Htz) as [_ ->].
  repeat match goal with
    | |- context [?x * JSDate.msPerDay + tza - tza] =>
        replace (x * JSDate.msPerDay + tza - tza)
          with (x * JSDate.msPerDay) by lia
    end.
  reflexivity.
Qed.

Lemma bulkLoop_empty body fuel e c :
  e < c → bulkLoop fuel body (Some e) (Some c) = Some [].
Proof.
  intros Hlt. destruct fuel; simpl; destruct (Z.leb_spec c e); (lia || reflexivity).
Qed.

Lemma bulkLoop_step tza body fuel e day next :
  fixedOffset tza → 0 ≤ tza < JSDate.msPerDay →
  day * JSDate.msPerDay ≤ e →
  nextMidnight (Bulk.frequency body) day = next →
  bulkLoop (S fuel) body (Some e) (Some (day * JSDate.msPerDay))
  = cons (bulkEntry body (day * JSDate.msPerDay)) <$> bulkLoop fuel body (Some e) next.
Proof.
  intros Hfix Htz Hle <-. cbn [bulkLoop].
  destruct (Z.leb_spec (day * JSDate.msPerDay) e); [|lia].
  by rewrite (nextDate_of_midnight tza _ _ Hfix Htz).
Qed.

Lemma bulkLoop_first_quarter_2024 tza body :
  fixedOffset tza → 0 ≤ tza < JSDate.msPerDay →
  Bulk.frequency body = "monthly" →
  bulkLoop (bulkFuel (Some 1704067200000) (Some 1709251200000)) body
    (Some 1709251200000) (Some 1704067200000)
  = Some (bulkEntry body <$> [1704067200000; 1706745600000; 1709251200000]).
Proof.
  intros Hfix Htz Hf.
  change (bulkFuel (Some 1704067200000) (Some 1709251200000)) with 61%nat.
  change (Some 1704067200000) with (Some (19723 * JSDate.msPerDay)).
  rewrite (bulkLoop_step tza body _ _ 19723 (Some (19754 * JSDate.msPerDay)) Hfix Htz);
    [|done|by rewrite Hf].
  rewrite (bulkLoop_step tza body _ _ 19754 (Some (19783 * JSDate.msPerDay)) Hfix Htz);
    [|done|by rewrite Hf].
  rewrite (bulkLoop_step tza body _ _ 19783 (Some (19814 * JSDate.msPerDay)) Hfix Htz);
    [|done|by rewrite Hf].
  rewrite bulkLoop_empty by done. reflexivity.
Qed.

Lemma bulkEntry_dueDates body (dueDates : list Z) :
  Bulk.e_dueDate <$> (bulkEntry body <$> dueDates) = dueDates.
Proof. induction dueDates as [|d l IH]; [reflexivity|]. simpl. by f_equal. Qed.

End Bulk.

Lemma freshIds_sample : freshIds bulkEnv sampleStore.
Proof.
  split.
  - intros k. unfold sampleStore. simpl.
    rewrite !lookup_insert_ne by (unfold sampleIds; simpl; discriminate).
    apply lookup_empty.
  - intros j k Heq. unfold bulkEnv, sampleIds in Heq. simpl in Heq.
    simplify_eq. lia.
Qed.


(** Across the start of daylight-saving time the monthly step keeps the
    local time of day and not the UTC one: from 2023-02-15T17:00Z, noon in
    New York, it leads to 2023-03-15T16:00Z, noon again, 28 days less an
    hour later. *)
Example step_into_daylight_saving :
  nextDate (P := easternTime) "monthly" 1676480400000 = Some 1678896000000
  ∧ 1678896000000 - 1676480400000 = 28 * JSDate.msPerDay - 3600000.
Proof. split; vm_compute; reflexivity. Qed.

(** A step that lands in the hour skipped at the start of daylight-saving
    time does not keep the time of day: from 02:30 on 12 February 2023 in
    New York the monthly step leads to 03:30 on 12 March, as no 02:30
    exists on that day, and the later dates of the batch stay at 03:30. *)
Example step_into_skipped_hour :
  nextDate (P := easternTime) "monthly" 1676187000000 = Some 1678606200000
  ∧ c_time (civil (LocalTime (P := easternTime) 1676187000000)) = 9000000
  ∧ c_time (civil (LocalTime (P := easternTime) 1678606200000)) = 12600000
  ∧ nextDate (P := easternTime) "monthly" 1678606200000 = Some 1681284600000
  ∧ c_time (civil (LocalTime (P := easternTime) 1681284600000)) = 12600000.
Proof. repeat split; vm_compute; reflexivity. Qed.

Lemma fixedOffset_sample tza : fixedOffset (P := samplePlatform tza) tza.
Proof. intros t isUTC. reflexivity. Qed.


(** ** Further properties

    What the routes do beyond the claims above: the effect of each write,
    who may read, how the list routes page, and how the routes compose. *)

(** *** routes/tenants.js: assignment and removal *)

Section TenantEffects.
Context {P : Platform}.

Lemma castDate_castable field old s :
  castableDate field →
  castDate field old s = Continue (assignedDate field old) s.
Proof.
  intros Hc. unfold castDate, assignedDate. unfold_handler.
  destruct (truthy field) eqn:Ht; [|reflexivity].
  destruct field as [v|]; [|discriminate]. simpl in *.
  destruct (Hc v eq_refl) as [d ->]; [|reflexivity].
  intros ->. discriminate.
Qed.

(** The answer and the store after an assignment whose checks pass. *)
Lemma assignProperty_done u id body s tenantOid t oid p :
  managesProperty u p → validAssignBody body →
  castObjectId id = Some tenantOid →
  users s !! tenantOid = Some t → User.role t = Role.tenant →
  castObjectId (TenantProperty.propertyId body) = Some oid →
  properties s !! oid = Some p →
  Property.status p = Property.available →
  castableDate (TenantProperty.moveInDate body) →
  castableDate (TenantProperty.leaseEndDate body) →
  let start := assignedDate (TenantProperty.moveInDate body)
                 (Property.startDate (Property.leaseTerms p)) in
  let end_ := assignedDate (TenantProperty.leaseEndDate body)
                (Property.endDate (Property.leaseTerms p)) in
  let p' := {| Property.name := Property.name p;
               Property.monthlyRent := Property.monthlyRent p;
               Property.landlord := Property.landlord p;
               Property.currentTenant := Some tenantOid;
               Property.status := Property.occupied;
               Property.leaseTerms :=
                 {| Property.startDate := start; Property.endDate := end_;
                    Property.renewalTerms :=
                      Property.renewalTerms (Property.leaseTerms p) |} |} in
  let t' := {| User.role := User.role t;
               User.tenantInfo :=
                 {| User.moveInDate :=
                      if truthy (TenantProperty.moveInDate body) then start
                      else User.moveInDate (User.tenantInfo t);
                    User.leaseEndDate :=
                      if truthy (TenantProperty.leaseEndDate body) then end_
                      else User.leaseEndDate (User.tenantInfo t) |} |} in
  ∃ s', route (assignProperty (Some u) id body) s
        = (json 200 true (Some "Tenant assigned to property successfully")
             (PropertyDoc (Some p')), s')
        ∧ properties s' = <[oid := p']> (properties s)
        ∧ users s' = (if truthy (TenantProperty.moveInDate body)
                         || truthy (TenantProperty.leaseEndDate body)
                      then <[tenantOid := t']> (users s) else users s)
        ∧ rentSchedules s' = rentSchedules s ∧ payments s' = payments s.
Proof.
  intros Hm Hv Hid Ht Hrole Hcast Hp Hst Hin Hend start end_ p' t'.
  unfold assignProperty.
  unfold route, auth, authorize, findById, validationResult, rejectIf, bind, ret,
    reply, throw, gets, modify.
  rewrite (manages_authorized _ _ Hm), (validAssignBody_errors _ Hv).
  rewrite Hid. cbn beta iota. rewrite Ht. cbn [fmap option_fmap option_map].
  rewrite Hrole. rewrite bool_decide_eq_true_2 by reflexivity. cbn [negb].
  rewrite Hcast. cbn beta iota. rewrite Hp, (foreignLandlord_manages _ _ Hm).
  rewrite Hst. rewrite bool_decide_eq_true_2 by reflexivity. cbn [negb].
  rewrite (castDate_castable _ _ _ Hin), (castDate_castable _ _ _ Hend).
  fold start end_.
  destruct (truthy (TenantProperty.moveInDate body)
            || truthy (TenantProperty.leaseEndDate body)) eqn:Hany; cbn beta iota.
  - cbn [properties set_users set_properties]. rewrite lookup_insert_eq.
    eexists. split; [reflexivity|]. simpl.
    split; [reflexivity|]. split; [|done].
    apply map_eq. intros k. rewrite lookup_alter.
    destruct (decide (tenantOid = k)) as [<-|Hne].
    + rewrite lookup_insert_eq, Ht. reflexivity.
    + rewrite lookup_insert_ne by done. reflexivity.
  - cbn [properties set_users set_properties]. rewrite lookup_insert_eq.
    eexists. split; [reflexivity|]. done.
Qed.

(** X1. An assignment whose checks pass moves the tenant in: the property
    becomes occupied by the tenant and keeps its landlord, the lease dates
    are those of the request where it gives them, the same dates are
    mirrored on the tenant's profile, and no other property, user, rent
    schedule or payment changes. *)
Theorem assign_moves_tenant_in u id body s tenantOid t oid p :
  managesProperty u p → validAssignBody body →
  castObjectId id = Some tenantOid →
  users s !! tenantOid = Some t → User.role t = Role.tenant →
  castObjectId (TenantProperty.propertyId body) = Some oid →
  properties s !! oid = Some p →
  Property.status p = Property.available →
  castableDate (TenantProperty.moveInDate body) →
  castableDate (TenantProperty.leaseEndDate body) →
  success (route (assignProperty (Some u) id body) s).1 = true
  ∧ (∃ p', properties (route (assignProperty (Some u) id body) s).2 !! oid = Some p'
       ∧ Property.currentTenant p' = Some tenantOid
       ∧ Property.status p' = Property.occupied
       ∧ Property.landlord p' = Property.landlord p
       ∧ Property.startDate (Property.leaseTerms p')
         = assignedDate (TenantProperty.moveInDate body)
             (Property.startDate (Property.leaseTerms p))
       ∧ Property.endDate (Property.leaseTerms p')
         = assignedDate (TenantProperty.leaseEndDate body)
             (Property.endDate (Property.leaseTerms p)))
  ∧ (∃ t', users (route (assignProperty (Some u) id body) s).2 !! tenantOid = Some t'
       ∧ User.role t' = Role.tenant
       ∧ User.moveInDate (User.tenantInfo t')
         = assignedDate (TenantProperty.moveInDate body)
             (User.moveInDate (User.tenantInfo t))
       ∧ User.leaseEndDate (User.tenantInfo t')
         = assignedDate (TenantProperty.leaseEndDate body)
             (User.leaseEndDate (User.tenantInfo t)))
  ∧ (∀ k, k ≠ oid →
       properties (route (assignProperty (Some u) id body) s).2 !! k = properties s !! k)
  ∧ (∀ k, k ≠ tenantOid →
       users (route (assignProperty (Some u) id body) s).2 !! k = users s !! k)
  ∧ rentSchedules (route (assignProperty (Some u) id body) s).2 = rentSchedules s
  ∧ payments (route (assignProperty (Some u) id body) s).2 = payments s.
Proof.
  intros Hm Hv Hid Ht Hrole Hcast Hp Hst Hin Hend.
  destruct (assignProperty_done u id body s tenantOid t oid p)
    as (s' & -> & Hprops & Husers & Hrs & Hpay); try assumption.
  cbn [fst snd]. rewrite Hprops, Husers.
  split; [reflexivity|]. split; [|split; [|split; [|split]]].
  - eexists. split; [apply lookup_insert_eq|]. done.
  - unfold assignedDate.
    destruct (truthy (TenantProperty.moveInDate body)),
      (truthy (TenantProperty.leaseEndDate body)); cbn [orb];
      ((eexists; split; [apply lookup_insert_eq|]; by rewrite Hrole)
       || (exists t; by rewrite Hrole)).
  - intros k Hk. by rewrite lookup_insert_ne.
  - intros k Hk. destruct (_ || _); [by rewrite lookup_insert_ne|reflexivity].
  - done.
Qed.

(** The answer and the store after a removal whose checks pass. *)
Lemma removeProperty_done u id body s tenantOid t oid p :
  managesProperty u p →
  isMongoId (TenantProperty.propertyId body) = true →
  castObjectId id = Some tenantOid →
  users s !! tenantOid = Some t → User.role t = Role.tenant →
  castObjectId (TenantProperty.propertyId body) = Some oid →
  properties s !! oid = Some p →
  Property.currentTenant p = Some id →
  let p' := {| Property.name := Property.name p;
               Property.monthlyRent := Property.monthlyRent p;
               Property.landlord := Property.landlord p;
               Property.currentTenant := None;
               Property.status := Property.available;
               Property.leaseTerms := Property.noLeaseTerms |} in
  route (removeProperty (Some u) id body) s
  = (json 200 true (Some "Tenant removed from property successfully")
       (PropertyDoc (Some p')), set_properties <[oid := p']> s).
Proof.
  intros Hm Hv Hid Ht Hrole Hcast Hp Hct p'.
  unfold removeProperty. unfold_handler. cbn beta iota delta [auth].
  rewrite (manages_authorized _ _ Hm), Hv. cbn [check].
  rewrite Hid. cbn beta iota. rewrite Ht. cbn [fmap option_fmap option_map].
  rewrite Hrole. rewrite bool_decide_eq_true_2 by reflexivity. cbn [negb].
  rewrite Hcast. cbn beta iota. rewrite Hp, (foreignLandlord_manages _ _ Hm).
  rewrite Hct. rewrite bool_decide_eq_true_2 by reflexivity. cbn [negb].
  cbn [properties set_properties]. rewrite lookup_insert_eq. reflexivity.
Qed.

(** X2. A removal whose checks pass vacates the property: it becomes
    available with no current tenant and no lease terms and keeps its name,
    rent and landlord; every other property stays as it was, and so do the
    users (the dates mirrored on the tenant's profile stay), the rent
    schedules and the payments. *)
Theorem remove_vacates_property u id body s tenantOid t oid p :
  managesProperty u p →
  isMongoId (TenantProperty.propertyId body) = true →
  castObjectId id = Some tenantOid →
  users s !! tenantOid = Some t → User.role t = Role.tenant →
  castObjectId (TenantProperty.propertyId body) = Some oid →
  properties s !! oid = Some p →
  Property.currentTenant p = Some id →
  success (route (removeProperty (Some u) id body) s).1 = true
  ∧ (∃ p', properties (route (removeProperty (Some u) id body) s).2 !! oid = Some p'
       ∧ Property.currentTenant p' = None
       ∧ Property.status p' = Property.available
       ∧ Property.leaseTerms p' = Property.noLeaseTerms
       ∧ Property.name p' = Property.name p
       ∧ Property.monthlyRent p' = Property.monthlyRent p
       ∧ Property.landlord p' = Property.landlord p)
  ∧ (∀ k, k ≠ oid →
       properties (route (removeProperty (Some u) id body) s).2 !! k = properties s !! k)
  ∧ users (route (removeProperty (Some u) id body) s).2 = users s
  ∧ rentSchedules (route (removeProperty (Some u) id body) s).2 = rentSchedules s
  ∧ payments (route (removeProperty (Some u) id body) s).2 = payments s.
Proof.
  intros Hm Hv Hid Ht Hrole Hcast Hp Hct.
  rewrite (removeProperty_done u id body s tenantOid t oid p) by assumption.
  cbn [fst snd]. split; [reflexivity|]. split; [|split; [|done]].
  - eexists. split; [apply lookup_insert_eq|]. done.
  - intros k Hk. simpl. by rewrite lookup_insert_ne.
Qed.

(** X3. Assign and remove compose to a round trip: after an assignment
    whose checks pass, the same actor's request to remove the same tenant id
    (an id in canonical form) from the same property succeeds, and the
    properties collection is the one before the assignment except that the
    property's lease terms are cleared; for a property that had no lease
    terms and no tenant it is exactly the one before. *)
Theorem assign_then_remove_round_trip u id body s t oid p :
  managesProperty u p → validAssignBody body →
  castObjectId id = Some id →
  users s !! id = Some t → User.role t = Role.tenant →
  castObjectId (TenantProperty.propertyId body) = Some oid →
  properties s !! oid = Some p →
  Property.status p = Property.available →
  castableDate (TenantProperty.moveInDate body) →
  castableDate (TenantProperty.leaseEndDate body) →
  let assigned := (route (assignProperty (Some u) id body) s).2 in
  let removed := route (removeProperty (Some u) id body) assigned in
  success removed.1 = true
  ∧ properties removed.2
    = <[oid := {| Property.name := Property.name p;
                  Property.monthlyRent := Property.monthlyRent p;
                  Property.landlord := Property.landlord p;
                  Property.currentTenant := None;
                  Property.status := Property.available;
                  Property.leaseTerms := Property.noLeaseTerms |}]> (properties s)
  ∧ (Property.currentTenant p = None →
     Property.leaseTerms p = Property.noLeaseTerms →
     properties removed.2 = properties s).
Proof.
  intros Hm Hv Hid Ht Hrole Hcast Hp Hst Hin Hend assigned removed.
  destruct (assignProperty_done u id body s id t oid p)
    as (s' & Hrun & Hprops & Husers & _); try assumption.
  subst removed assigned. rewrite Hrun. cbn [snd].
  assert (Ht' : ∃ t', users s' !! id = Some t' ∧ User.role t' = Role.tenant).
  { rewrite Husers. destruct (_ || _).
    - eexists. split; [apply lookup_insert_eq|]. by rewrite Hrole.
    - eauto. }
  destruct Ht' as (t' & Ht' & Hrole').
  erewrite (removeProperty_done u id body s' id t' oid); cycle 1.
  - instantiate (1 := {| Property.landlord := Property.landlord p |}). exact Hm.
  - apply Hv.
  - exact Hid.
  - exact Ht'.
  - exact Hrole'.
  - exact Hcast.
  - rewrite Hprops. apply lookup_insert_eq.
  - reflexivity.
  - cbn [fst snd properties set_properties Property.name Property.monthlyRent
         Property.landlord].
    split; [reflexivity|]. rewrite Hprops, insert_insert_eq.
    split; [reflexivity|]. intros Hct Hlt.
    apply insert_id. rewrite Hp. f_equal. destruct p. simpl in *. congruence.
Qed.
End TenantEffects.

Lemma assign_moves_tenant_in_witness :
  success (route (assignProperty (P := utc) asLandlord2 tenant2 movingIn) sampleStore).1
  = true
  ∧ ∃ p', properties (route (assignProperty (P := utc) asLandlord2 tenant2 movingIn)
                        sampleStore).2 !! property2 = Some p'
          ∧ Property.currentTenant p' = Some tenant2
          ∧ Property.startDate (Property.leaseTerms p') = Some 1706745600000.
Proof.
  destruct (assign_moves_tenant_in (P := utc) {| _id := landlord2; role := Role.landlord |}
              tenant2 movingIn sampleStore tenant2 (sampleUser Role.tenant)
              property2 (sampleProperty landlord2 None))
    as (Hok & (p' & Hp' & Hct & _ & _ & Hstart & _) & _).
  - right. split; reflexivity.
  - repeat split; try (vm_compute; reflexivity).
    + intros v [= <-]. vm_compute. reflexivity.
    + intros v [= <-]. vm_compute. reflexivity.
  - vm_compute. reflexivity.
  - vm_compute. reflexivity.
  - reflexivity.
  - vm_compute. reflexivity.
  - vm_compute. reflexivity.
  - reflexivity.
  - intros v [= <-] _. vm_compute. eauto.
  - intros v [= <-] _. vm_compute. eauto.
  - split; [exact Hok|]. exists p'. split; [exact Hp'|]. split; [exact Hct|].
    rewrite Hstart. vm_compute. reflexivity.
Defined.


Lemma remove_vacates_property_witness :
  success (route (removeProperty (P := utc) asLandlord1 tenant1 (onProperty property1))
             sampleStore).1 = true
  ∧ users (route (removeProperty (P := utc) asLandlord1 tenant1 (onProperty property1))
             sampleStore).2 = users sampleStore.
Proof.
  destruct (remove_vacates_property (P := utc) {| _id := landlord1; role := Role.landlord |}
              tenant1 (onProperty property1) sampleStore tenant1 (sampleUser Role.tenant)
              property1 (sampleProperty landlord1 (Some tenant1)))
    as (Hok & _ & _ & Hu & _).
  - right. split; reflexivity.
  - vm_compute. reflexivity.
  - vm_compute. reflexivity.
  - vm_compute. reflexivity.
  - reflexivity.
  - vm_compute. reflexivity.
  - vm_compute. reflexivity.
  - reflexivity.
  - split; assumption.
Defined.

Lemma assign_then_remove_round_trip_witness :
  properties
    (route (removeProperty (P := utc) asLandlord2 tenant2 movingIn)
       (route (assignProperty (P := utc) asLandlord2 tenant2 movingIn) sampleStore).2).2
  = properties sampleStore.
Proof.
  destruct (assign_then_remove_round_trip (P := utc)
              {| _id := landlord2; role := Role.landlord |}
              tenant2 movingIn sampleStore (sampleUser Role.tenant)
              property2 (sampleProperty landlord2 None))
    as (_ & _ & Hback).
  - right. split; reflexivity.
  - repeat split; try (vm_compute; reflexivity).
    + intros v [= <-]. vm_compute. reflexivity.
    + intros v [= <-]. vm_compute. reflexivity.
  - vm_compute. reflexivity.
  - vm_compute. reflexivity.
  - reflexivity.
  - vm_compute. reflexivity.
  - vm_compute. reflexivity.
  - reflexivity.
  - intros v [= <-] _. vm_compute. eauto.
  - intros v [= <-] _. vm_compute. eauto.
  - apply Hback; reflexivity.
Defined.

(** *** The list routes: pages *)

Section ListPages.
Context {P : Platform}.

#[local] Existing Instance dueDateAscending_dec.
#[local] Existing Instance paymentDateDescending_dec.
#[local] Instance dueDateAscending_trans : Transitive dueDateAscending.
Proof. intros a b c. unfold dueDateAscending. lia. Qed.
#[local] Instance dueDateAscending_total : Total dueDateAscending.
Proof. intros a b. unfold dueDateAscending. lia. Qed.
#[local] Instance paymentDateDescending_trans : Transitive paymentDateDescending.
Proof. intros a b c. unfold paymentDateDescending. lia. Qed.
#[local] Instance paymentDateDescending_total : Total paymentDateDescending.
Proof. intros a b. unfold paymentDateDescending. lia. Qed.

Lemma StronglySorted_drop {A} (R : relation A) n (l : list A) :
  StronglySorted R l → StronglySorted R (drop n l).
Proof. rewrite <-(take_drop n l) at 1. apply StronglySorted_app_1_r. Qed.

Lemma StronglySorted_take {A} (R : relation A) n (l : list A) :
  StronglySorted R l → StronglySorted R (take n l).
Proof. rewrite <-(take_drop n l) at 1. apply StronglySorted_app_1_l. Qed.

(** A page is a contiguous piece of the sorted matches, no longer than the
    limit. *)
Lemma paginate_page {A} (R : relation A) page limit (docs l : list A) s s' :
  paginate page limit docs s = Continue l s' →
  StronglySorted R docs →
  StronglySorted R l ∧ l `sublist_of` docs
  ∧ (default 10 limit ≠ 0 → Z.of_nat (length l) ≤ Z.abs (default 10 limit)).
Proof.
  unfold paginate. unfold_handler. intros Hrun Hsorted.
  repeat split_hyp.
  destruct (default 10 limit =? 0) eqn:Hl.
  - split; [by apply StronglySorted_drop|]. split; [apply sublist_drop|]. lia.
  - split; [by apply StronglySorted_take, StronglySorted_drop|].
    split; [etrans; [apply sublist_take|apply sublist_drop]|].
    intros _. rewrite length_take. lia.
Qed.

Lemma paginate_unpaged {A} (docs : list A) s :
  paginate (Some 1) (Some 0) docs s = Continue docs s.
Proof. reflexivity. Qed.

Lemma applyFilters_unpaged u query b q s :
  applyFilters u (unpaged query) b q s = applyFilters u query b q s.
Proof. reflexivity. Qed.

(** How the two list routes run: the filter is built without touching the
    store, then the matches are sorted and cut to a page. *)
Lemma listRentSchedules_run u query s :
  ∃ q0, roleFilter u s = Continue q0 s
  ∧ match applyFilters u query false q0 s with
    | Continue q _ =>
      let found := List.filter (matchesRentSchedule q) (map_to_list (rentSchedules s)) in
      match paginate (ListQuery.page query) (ListQuery.limit query)
              (merge_sort dueDateAscending found) s with
      | Continue l _ =>
        route (listRentSchedules (Some u) query) s
        = (json 200 true None (RentScheduleList l (length found)), s)
      | _ => route (listRentSchedules (Some u) query) s = (serverError, s)
      end
    | _ => route (listRentSchedules (Some u) query) s = (serverError, s)
    end.
Proof.
  unfold listRentSchedules. unfold route, auth, bind, ret, gets.
  assert (∃ q0, roleFilter u s = Continue q0 s) as [q0 Hq0].
  { unfold roleFilter. unfold_handler. destruct (role u); eauto. }
  exists q0. split; [exact Hq0|]. rewrite Hq0.
  destruct (applyFilters u query false q0 s) as [q s1|r s1|s1] eqn:Hq.
  - apply applyFilters_pure in Hq as ->. cbv zeta.
    destruct (paginate _ _ _ s) as [l s2|r s2|s2] eqn:Hpage.
    + apply paginate_subset in Hpage as [-> _]. reflexivity.
    + by apply paginate_no_reply in Hpage.
    + revert Hpage. unfold paginate. unfold_handler. intros. by repeat split_hyp.
  - by apply applyFilters_no_reply in Hq.
  - revert Hq. unfold applyFilters. unfold_handler. intros. by repeat split_hyp.
Qed.

Lemma listPayments_run u query s :
  ∃ q0, roleFilter u s = Continue q0 s
  ∧ match applyFilters u query true q0 s with
    | Continue q _ =>
      let found := List.filter (matchesPayment q) (map_to_list (payments s)) in
      match paginate (ListQuery.page query) (ListQuery.limit query)
              (merge_sort paymentDateDescending found) s with
      | Continue l _ =>
        route (listPayments (Some u) query) s
        = (json 200 true None (PaymentList l (length found)), s)
      | _ => route (listPayments (Some u) query) s = (serverError, s)
      end
    | _ => route (listPayments (Some u) query) s = (serverError, s)
    end.
Proof.
  unfold listPayments. unfold route, auth, bind, ret, gets.
  assert (∃ q0, roleFilter u s = Continue q0 s) as [q0 Hq0].
  { unfold roleFilter. unfold_handler. destruct (role u); eauto. }
  exists q0. split; [exact Hq0|]. rewrite Hq0.
  destruct (applyFilters u query true q0 s) as [q s1|r s1|s1] eqn:Hq.
  - apply applyFilters_pure in Hq as ->. cbv zeta.
    destruct (paginate _ _ _ s) as [l s2|r s2|s2] eqn:Hpage.
    + apply paginate_subset in Hpage as [-> _]. reflexivity.
    + by apply paginate_no_reply in Hpage.
    + revert Hpage. unfold paginate. unfold_handler. intros. by repeat split_hyp.
  - by apply applyFilters_no_reply in Hq.
  - revert Hq. unfold applyFilters. unfold_handler. intros. by repeat split_hyp.
Qed.

Lemma listRentSchedules_pure u query s :
  (route (listRentSchedules (Some u) query) s).2 = s.
Proof.
  destruct (listRentSchedules_run u query s) as (q0 & _ & Hrs).
  destruct (applyFilters u query false q0 s); cbv beta iota zeta in Hrs;
    [destruct (paginate _ _ _ s)|..]; cbv beta iota zeta in Hrs; by rewrite Hrs.
Qed.

Lemma listPayments_pure u query s :
  (route (listPayments (Some u) query) s).2 = s.
Proof.
  destruct (listPayments_run u query s) as (q0 & _ & Hrs).
  destruct (applyFilters u query true q0 s); cbv beta iota zeta in Hrs;
    [destruct (paginate _ _ _ s)|..]; cbv beta iota zeta in Hrs; by rewrite Hrs.
Qed.

Lemma listRentSchedules_success u query s l n :
  payload (route (listRentSchedules (Some u) query) s).1 = RentScheduleList l n →
  ∃ q0 q, roleFilter u s = Continue q0 s
    ∧ applyFilters u query false q0 s = Continue q s
    ∧ paginate (ListQuery.page query) (ListQuery.limit query)
        (merge_sort dueDateAscending
           (List.filter (matchesRentSchedule q) (map_to_list (rentSchedules s)))) s
      = Continue l s
    ∧ n = length (List.filter (matchesRentSchedule q) (map_to_list (rentSchedules s))).
Proof.
  intros Hpay.
  destruct (listRentSchedules_run u query s) as (q0 & Hq0 & Hrs).
  destruct (applyFilters u query false q0 s) as [q s1| |] eqn:Hq;
    cbv beta iota zeta in Hrs;
    [destruct (paginate _ _ _ s) as [l1 s2| |] eqn:Hpage|..];
    cbv beta iota zeta in Hrs; rewrite Hrs in Hpay; try discriminate.
  injection Hpay as <- <-.
  apply applyFilters_pure in Hq as Hs1. subst s1.
  apply paginate_subset in Hpage as Hs2. destruct Hs2 as [-> _].
  exists q0, q. done.
Qed.

Lemma listPayments_success u query s l n :
  payload (route (listPayments (Some u) query) s).1 = PaymentList l n →
  ∃ q0 q, roleFilter u s = Continue q0 s
    ∧ applyFilters u query true q0 s = Continue q s
    ∧ paginate (ListQuery.page query) (ListQuery.limit query)
        (merge_sort paymentDateDescending
           (List.filter (matchesPayment q) (map_to_list (payments s)))) s
      = Continue l s
    ∧ n = length (List.filter (matchesPayment q) (map_to_list (payments s))).
Proof.
  intros Hpay.
  destruct (listPayments_run u query s) as (q0 & Hq0 & Hrs).
  destruct (applyFilters u query true q0 s) as [q s1| |] eqn:Hq;
    cbv beta iota zeta in Hrs;
    [destruct (paginate _ _ _ s) as [l1 s2| |] eqn:Hpage|..];
    cbv beta iota zeta in Hrs; rewrite Hrs in Hpay; try discriminate.
  injection Hpay as <- <-.
  apply applyFilters_pure in Hq as Hs1. subst s1.
  apply paginate_subset in Hpage as Hs2. destruct Hs2 as [-> _].
  exists q0, q. done.
Qed.

Lemma StronglySorted_True {A} (l : list A) : StronglySorted (λ _ _, True) l.
Proof. induction l; constructor; [done|]. by apply Forall_true. Qed.

(** X4. Every list answer of GET /api/rent-schedules is in ascending order
    of due date, and every list answer of GET /api/payments in descending
    order of payment date; a page never holds more records than the
    absolute value of a non-zero limit (10 when the query gives none) nor
    more than the reported total, and listing never changes the store. *)
Theorem list_pages_are_sorted_and_bounded u query s :
  (route (listRentSchedules (Some u) query) s).2 = s
  ∧ (route (listPayments (Some u) query) s).2 = s
  ∧ (∀ l n, payload (route (listRentSchedules (Some u) query) s).1
            = RentScheduleList l n →
       StronglySorted dueDateAscending l
       ∧ (length l ≤ n)%nat
       ∧ (default 10 (ListQuery.limit query) ≠ 0 →
          Z.of_nat (length l) ≤ Z.abs (default 10 (ListQuery.limit query))))
  ∧ (∀ l n, payload (route (listPayments (Some u) query) s).1 = PaymentList l n →
       StronglySorted paymentDateDescending l
       ∧ (length l ≤ n)%nat
       ∧ (default 10 (ListQuery.limit query) ≠ 0 →
          Z.of_nat (length l) ≤ Z.abs (default 10 (ListQuery.limit query)))).
Proof.
  split; [apply listRentSchedules_pure|]. split; [apply listPayments_pure|].
  split; intros l n Hpay.
  - apply listRentSchedules_success in Hpay as (q0 & q & _ & _ & Hpage & ->).
    eapply paginate_page in Hpage as (Hs & Hsub & Hlen);
      [|apply StronglySorted_merge_sort; apply _].
    split; [exact Hs|]. split; [|exact Hlen].
    apply sublist_length in Hsub. by rewrite merge_sort_Permutation in Hsub.
  - apply listPayments_success in Hpay as (q0 & q & _ & _ & Hpage & ->).
    eapply paginate_page in Hpage as (Hs & Hsub & Hlen);
      [|apply StronglySorted_merge_sort; apply _].
    split; [exact Hs|]. split; [|exact Hlen].
    apply sublist_length in Hsub. by rewrite merge_sort_Permutation in Hsub.
Qed.

(** X5. The total reported beside a page counts all matches of the query,
    not the page: the same query asked with page 1 and limit 0 (no limit)
    is answered with a list of exactly [total] records, and every record of
    the page is one of them. *)
Theorem list_total_counts_unpaged_matches u query s :
  (∀ l n, payload (route (listRentSchedules (Some u) query) s).1
          = RentScheduleList l n →
     ∃ l', payload (route (listRentSchedules (Some u) (unpaged query)) s).1
           = RentScheduleList l' n
           ∧ length l' = n ∧ ∀ r, r ∈ l → r ∈ l')
  ∧ (∀ l n, payload (route (listPayments (Some u) query) s).1 = PaymentList l n →
     ∃ l', payload (route (listPayments (Some u) (unpaged query)) s).1
           = PaymentList l' n
           ∧ length l' = n ∧ ∀ r, r ∈ l → r ∈ l').
Proof.
  split; intros l n Hpay.
  - apply listRentSchedules_success in Hpay as (q0 & q & Hq0 & Hq & Hpage & ->).
    destruct (listRentSchedules_run u (unpaged query) s) as (q1 & Hq1 & Hall).
    rewrite Hq0 in Hq1. injection Hq1 as <-.
    rewrite applyFilters_unpaged, Hq in Hall. cbv beta iota zeta in Hall.
    change (ListQuery.page (unpaged query)) with (Some 1) in Hall.
    change (ListQuery.limit (unpaged query)) with (Some 0) in Hall.
    rewrite paginate_unpaged in Hall. rewrite Hall.
    eexists. split; [reflexivity|]. split.
    + by rewrite merge_sort_Permutation.
    + eapply (paginate_page (λ _ _, True)) in Hpage as (_ & Hsub & _);
        [|apply StronglySorted_True].
      intros r Hr. exact (elem_of_sublist _ _ _ Hr Hsub).
  - apply listPayments_success in Hpay as (q0 & q & Hq0 & Hq & Hpage & ->).
    destruct (listPayments_run u (unpaged query) s) as (q1 & Hq1 & Hall).
    rewrite Hq0 in Hq1. injection Hq1 as <-.
    rewrite applyFilters_unpaged, Hq in Hall. cbv beta iota zeta in Hall.
    change (ListQuery.page (unpaged query)) with (Some 1) in Hall.
    change (ListQuery.limit (unpaged query)) with (Some 0) in Hall.
    rewrite paginate_unpaged in Hall. rewrite Hall.
    eexists. split; [reflexivity|]. split.
    + by rewrite merge_sort_Permutation.
    + eapply (paginate_page (λ _ _, True)) in Hpage as (_ & Hsub & _);
        [|apply StronglySorted_True].
      intros r Hr. exact (elem_of_sublist _ _ _ Hr Hsub).
Qed.

(** X6. A page number below the first with a positive limit (page 0 with
    the default limit, say) asks the database to skip a negative number of
    records: both list routes answer any authenticated caller with the
    generic 500 failure instead of a validation error or an empty page. *)
Theorem list_page_below_first_is_server_error u query s :
  (default 1 (ListQuery.page query) - 1) * default 10 (ListQuery.limit query) < 0 →
  route (listRentSchedules (Some u) query) s = (serverError, s)
  ∧ route (listPayments (Some u) query) s = (serverError, s).
Proof.
  intros Hskip. apply Z.ltb_lt in Hskip.
  destruct (listRentSchedules_run u query s) as (q0 & _ & Hrs).
  destruct (listPayments_run u query s) as (q0' & _ & Hps).
  split.
  - destruct (applyFilters u query false q0 s); [|done..].
    cbv zeta in Hrs. unfold paginate in Hrs. by rewrite Hskip in Hrs.
  - destruct (applyFilters u query true q0' s); [|done..].
    cbv zeta in Hps. unfold paginate in Hps. by rewrite Hskip in Hps.
Qed.

End ListPages.

Lemma list_page_below_first_is_server_error_witness :
  kindOf (route (listRentSchedules (P := utc) asTenant1 pageZero) sampleStore).1
  = InternalFailure.
Proof.
  destruct (list_page_below_first_is_server_error (P := utc)
              {| _id := tenant1; role := Role.tenant |} pageZero sampleStore) as [Hrun _].
  - vm_compute. reflexivity.
  - unfold asTenant1. rewrite Hrun. reflexivity.
Defined.

Lemma list_pages_are_sorted_and_bounded_witness :
  ∃ l n, payload (route (listRentSchedules (P := utc) asAdmin dueSoon) sampleStore).1
         = RentScheduleList l n
         ∧ (length l ≤ n)%nat ∧ Z.of_nat (length l) ≤ 1.
Proof.
  destruct (list_pages_are_sorted_and_bounded (P := utc)
              {| _id := adminId; role := Role.admin |} dueSoon sampleStore)
    as (_ & _ & Hpage & _).
  eexists _, _. split; [vm_compute; reflexivity|].
  edestruct Hpage as (_ & Hn & Hl); [vm_compute; reflexivity|].
  split; [exact Hn|]. apply Hl. vm_compute. discriminate.
Defined.

Lemma list_total_counts_unpaged_matches_witness :
  ∃ l l', payload (route (listRentSchedules (P := utc) asAdmin dueSoon) sampleStore).1
          = RentScheduleList l 2
          ∧ payload (route (listRentSchedules (P := utc) asAdmin (unpaged dueSoon))
                       sampleStore).1 = RentScheduleList l' 2
          ∧ length l = 1%nat ∧ length l' = 2%nat.
Proof.
  destruct (list_total_counts_unpaged_matches (P := utc)
              {| _id := adminId; role := Role.admin |} dueSoon sampleStore)
    as [Hall _].
  edestruct Hall as (l' & Hl' & Hlen & _); [vm_compute; reflexivity|].
  eexists _, l'. split; [vm_compute; reflexivity|].
  split; [exact Hl'|]. split; [reflexivity|exact Hlen].
Defined.

(** *** routes/payments.js: recording a payment *)

Section PaymentEffects.
Context {P : Platform}.

(** X7. Recording a payment is all or nothing. An answer that is not a
    success leaves the whole store as it was. A success stores exactly one
    new payment, under a fresh id, for the schedule named in the body: it
    copies the schedule's property and tenant, carries the body's amount and
    method, its notes with the blanks around them trimmed away, and the
    status completed; users and properties are untouched and no rent
    schedule other than the paid one changes. *)
Theorem payment_is_all_or_nothing env user body s :
  (success (route (createPayment env user body) s).1 = false →
   (route (createPayment env user body) s).2 = s)
  ∧ (success (route (createPayment env user body) s).1 = true →
     ∃ oid r,
       castObjectId (NewPayment.rentSchedule body) = Some oid
       ∧ rentSchedules s !! oid = Some r
       ∧ payments s !! newObjectId env O = None
       ∧ payments (route (createPayment env user body) s).2
         = <[newObjectId env O := newPayment env body oid r]> (payments s)
       ∧ payload (route (createPayment env user body) s).1
         = PaymentDoc (Some (newPayment env body oid r))
       ∧ users (route (createPayment env user body) s).2 = users s
       ∧ properties (route (createPayment env user body) s).2 = properties s
       ∧ ∀ k, k ≠ oid →
           rentSchedules (route (createPayment env user body) s).2 !! k
           = rentSchedules s !! k).
Proof.
  unfold createPayment. unfold_handler. cbv zeta.
  repeat split_goal.
  all: try match goal with
       | H : savePayment ?e ?d ?s0 = _ |- _ =>
           destruct (savePayment_cases e d s0) as [Hs | (Hs & Hid & Hne)];
           rewrite Hs in H; simplify_eq
       end.
  all: split; [try done|try done].
  all: intros _; eexists _, _; split; [reflexivity|]; split; [eassumption|].
  all: split; [exact Hid|]; simpl.
  all: rewrite ?lookup_insert_eq.
  all: repeat (split; [reflexivity|]).
  all: intros k Hk; by rewrite ?lookup_alter_ne.
Qed.

(** X8. The validators of POST /api/payments let a negative amount
    through ([isNumeric]); it is the schema ([min: 0]) that refuses it when
    the payment is saved, so an authorized request with a negative amount
    is answered with the generic 500 failure, not a validation error, and
    nothing is written. *)
Theorem negative_payment_is_server_error env u body s oid r p :
  validPaymentBody body →
  castObjectId (NewPayment.rentSchedule body) = Some oid →
  rentSchedules s !! oid = Some r →
  properties s !! RentSchedule.property r = Some p →
  hasAccess u p r →
  (NewPayment.amount body < 0)%Q →
  route (createPayment env (Some u) body) s = (serverError, s).
Proof.
  intros [Hid Hmethod] Hcast Hr Hp Hacc Hneg.
  unfold createPayment. unfold_handler. cbn beta iota delta [auth].
  rewrite Hid. unfold isIn at 1. rewrite (bool_decide_eq_true_2 _ Hmethod).
  cbn [check app]. rewrite Hcast. cbn beta iota. rewrite Hr. cbn beta iota.
  rewrite Hp. rewrite (hasAccess_true _ _ _ _ Hacc). cbn [negb].
  unfold savePayment. unfold_handler. cbn beta.
  cbn [Payment.amount].
  assert (Qle_bool 0 (NewPayment.amount body) = false) as ->; [|reflexivity].
  destruct (Qle_bool 0 (NewPayment.amount body)) eqn:Hle; [|reflexivity].
  apply Qle_bool_iff in Hle. exfalso. apply (Qlt_not_le _ _ Hneg Hle).
Qed.

(** X9. Deleting a property does not cascade: its rent schedules and
    payments stay in the store. A schedule left behind can no longer be
    paid by anyone: the handler dereferences the populated property, which
    is now null, and every authenticated caller is answered with the generic
    500 failure. *)
Theorem payment_on_schedule_of_deleted_property env u id pid p body oid r s :
  foreignLandlord u (Property.landlord p) = false →
  castObjectId id = Some pid →
  properties s !! pid = Some p →
  validPaymentBody body →
  castObjectId (NewPayment.rentSchedule body) = Some oid →
  rentSchedules s !! oid = Some r →
  RentSchedule.property r = pid →
  success (route (deleteProperty (Some u) id) s).1 = true
  ∧ properties (route (deleteProperty (Some u) id) s).2 = delete pid (properties s)
  ∧ rentSchedules (route (deleteProperty (Some u) id) s).2 = rentSchedules s
  ∧ payments (route (deleteProperty (Some u) id) s).2 = payments s
  ∧ ∀ v, route (createPayment env (Some v) body)
           (route (deleteProperty (Some u) id) s).2
         = (serverError, (route (deleteProperty (Some u) id) s).2).
Proof.
  intros Hown Hid Hp [Hmongo Hmethod] Hcast Hr Hprop.
  assert (Hdel : route (deleteProperty (Some u) id) s
                 = (json 200 true (Some "Property deleted successfully") NoPayload,
                    set_properties (delete pid) s)).
  { unfold deleteProperty. unfold_handler. cbn beta iota delta [auth].
    rewrite Hid. cbn beta iota. rewrite Hp, Hown. reflexivity. }
  rewrite Hdel. cbn [fst snd success properties rentSchedules payments set_properties].
  repeat (split; [reflexivity|]).
  intros v. unfold createPayment. unfold_handler. cbn beta iota delta [auth].
  rewrite Hmongo. unfold isIn at 1. rewrite (bool_decide_eq_true_2 _ Hmethod).
  cbn [check app]. rewrite Hcast. cbn beta iota.
  cbn [rentSchedules set_properties]. rewrite Hr. cbn beta iota.
  cbn [properties set_properties]. rewrite Hprop, lookup_delete_eq.
  destruct (bool_decide (role v = Role.admin)); reflexivity.
Qed.

End PaymentEffects.

Lemma payment_is_all_or_nothing_witness :
  ∃ d, payments (route (createPayment (P := utc) laterEnv asTenant1
                          (payNoting schedule1 500 "  March rent ")) sampleStore).2
       = <[payment2 := d]> (payments sampleStore)
       ∧ Payment.tenant d = tenant1 ∧ Payment.property d = property1
       ∧ Payment.notes d = Some "March rent".
Proof.
  destruct (payment_is_all_or_nothing (P := utc) laterEnv asTenant1
              (payNoting schedule1 500 "  March rent ") sampleStore) as [_ Hdone].
  destruct Hdone as (oid & r & Hcast & Hr & _ & Hpay & _); [vm_compute; reflexivity|].
  eexists. split; [exact Hpay|].
  vm_compute in Hcast. injection Hcast as <-.
  vm_compute in Hr. injection Hr as <-. repeat split; vm_compute; reflexivity.
Defined.

Lemma negative_payment_is_server_error_witness :
  kindOf (route (createPayment (P := utc) laterEnv asTenant1 (pay schedule1 (-5)))
            sampleStore).1 = InternalFailure.
Proof.
  unfold asTenant1.
  rewrite (negative_payment_is_server_error (P := utc) laterEnv
             {| _id := tenant1; role := Role.tenant |} (pay schedule1 (-5)) sampleStore
             schedule1 (sampleSchedule property1 tenant1 1000 RentSchedule.pending)
             (sampleProperty landlord1 (Some tenant1))).
  - reflexivity.
  - split; [vm_compute; reflexivity|]. unfold paymentMethods. repeat constructor.
  - vm_compute. reflexivity.
  - vm_compute. reflexivity.
  - vm_compute. reflexivity.
  - right. right. reflexivity.
  - reflexivity.
Defined.

Lemma payment_on_schedule_of_deleted_property_witness :
  kindOf (route (createPayment (P := utc) laterEnv asTenant1 (pay schedule1 1000))
            (route (deleteProperty (P := utc) asLandlord1 property1) sampleStore).2).1
  = InternalFailure.
Proof.
  destruct (payment_on_schedule_of_deleted_property (P := utc) laterEnv
              {| _id := landlord1; role := Role.landlord |} property1 property1
              (sampleProperty landlord1 (Some tenant1)) (pay schedule1 1000) schedule1
              (sampleSchedule property1 tenant1 1000 RentSchedule.pending) sampleStore)
    as (_ & _ & _ & _ & Hfail).
  - vm_compute. reflexivity.
  - vm_compute. reflexivity.
  - vm_compute. reflexivity.
  - split; [vm_compute; reflexivity|]. unfold paymentMethods. repeat constructor.
  - vm_compute. reflexivity.
  - vm_compute. reflexivity.
  - reflexivity.
  - unfold asTenant1, asLandlord1. rewrite Hfail. reflexivity.
Defined.

(** *** routes/properties.js: reading, creating and updating *)

Section PropertyRoutes.
Context {P : Platform}.

(** X10. Who may read a property (GET /api/properties/:id), for a property
    that exists: an admin always; a tenant exactly when the property's
    current tenant is the caller (and that user still exists), otherwise
    Forbidden; a landlord exactly when they own it, otherwise Forbidden,
    and the generic 500 failure when the owner's user record is gone.
    Reading never changes the store. *)
Theorem property_read_access u id pid p s :
  castObjectId id = Some pid →
  properties s !! pid = Some p →
  (route (getProperty (Some u) id) s).2 = s
  ∧ (role u = Role.admin →
     (route (getProperty (Some u) id) s).1
     = json 200 true None (PropertyDoc (Some p)))
  ∧ (role u = Role.tenant →
     (Property.currentTenant p = Some (_id u) → is_Some (users s !! _id u) →
      (route (getProperty (Some u) id) s).1
      = json 200 true None (PropertyDoc (Some p)))
     ∧ (Property.currentTenant p ≠ Some (_id u) →
        kindOf (route (getProperty (Some u) id) s).1 = Forbidden))
  ∧ (role u = Role.landlord →
     (users s !! Property.landlord p = None →
      (route (getProperty (Some u) id) s).1 = serverError)
     ∧ (is_Some (users s !! Property.landlord p) →
        (Property.landlord p = _id u →
         (route (getProperty (Some u) id) s).1
         = json 200 true None (PropertyDoc (Some p)))
        ∧ (Property.landlord p ≠ _id u →
           kindOf (route (getProperty (Some u) id) s).1 = Forbidden))).
Proof.
  intros Hid Hp. unfold getProperty. unfold_handler. cbn beta iota delta [auth].
  rewrite Hid. cbn beta iota. rewrite Hp. cbn beta iota.
  split; [repeat split_goal; reflexivity|].
  split; [|split].
  - intros Hr. rewrite Hr. reflexivity.
  - intros Hr. rewrite Hr. cbn [bool_decide decide_rel andb]. split.
    + intros Hct [t Ht].
      rewrite Hct. cbn [mbind option_bind]. rewrite Ht. cbn [mbind option_bind].
      rewrite !bool_decide_eq_true_2 by reflexivity.
      rewrite bool_decide_eq_false_2 by discriminate. reflexivity.
    + intros Hct.
      rewrite !(bool_decide_eq_true_2 (Role.tenant = Role.tenant)) by reflexivity.
      rewrite bool_decide_eq_false_2; [reflexivity|].
      intros Heq. apply Hct. destruct (Property.currentTenant p) as [t|]; [|done].
      simpl in Heq. destruct (users s !! t); simpl in Heq; congruence.
  - intros Hr. rewrite Hr.
    rewrite !(bool_decide_eq_false_2 (Role.landlord = Role.tenant)) by discriminate.
    rewrite !(bool_decide_eq_true_2 (Role.landlord = Role.landlord)) by reflexivity.
    cbn [andb]. split.
    + intros ->. reflexivity.
    + intros [l ->]. split.
      * intros ->. rewrite String.eqb_refl. reflexivity.
      * intros Hne. apply String.eqb_neq in Hne. rewrite Hne. reflexivity.
Qed.

(** X11. PUT /api/properties/:id does not keep status and occupancy in
    step: an update that sets only the status to available on a property
    with a current tenant succeeds for whoever may update it and keeps the
    tenant and the lease terms, so the stored property is available and
    occupied at once. *)
Theorem put_status_keeps_current_tenant u id pid p body s :
  foreignLandlord u (Property.landlord p) = false →
  castObjectId id = Some pid →
  properties s !! pid = Some p →
  PropertyUpdate.name body = None →
  PropertyUpdate.monthlyRent body = None →
  PropertyUpdate.status body = Some "available" →
  success (route (putProperty (Some u) id body) s).1 = true
  ∧ ∃ p', properties (route (putProperty (Some u) id body) s).2 !! pid = Some p'
      ∧ Property.status p' = Property.available
      ∧ Property.currentTenant p' = Property.currentTenant p
      ∧ Property.leaseTerms p' = Property.leaseTerms p
      ∧ (Property.currentTenant p ≠ None → ¬ occupancyInvariant p').
Proof.
  intros Hown Hid Hp Hname Hrent Hstatus.
  unfold putProperty, updateProperty. unfold_handler. cbn beta iota delta [auth].
  rewrite Hname, Hrent, Hstatus. cbn [optional check app].
  unfold isIn. rewrite bool_decide_eq_true_2 by repeat constructor.
  cbn [check app]. rewrite Hid. cbn beta iota. rewrite Hp, Hown.
  cbn. split; [reflexivity|].
  eexists. split; [apply lookup_insert_eq|]. cbn.
  repeat (split; [reflexivity|]).
  intros Hct [_ Hfree]. apply Hct, Hfree. reflexivity.
Qed.

(** The property POST /api/properties stores, when it stores one. *)
Lemma createProperty_cases trim env user body s :
  (success (route (createProperty trim env user body) s).1 = false
   ∧ (route (createProperty trim env user body) s).2 = s)
  ∨ ∃ u p,
      user = Some u
      ∧ newPropertyDoc trim body
          (if bool_decide (role u = Role.landlord) then Some (_id u)
           else NewProperty.landlord body ≫= castObjectId) = Some p
      ∧ properties s !! newObjectId env O = None
      ∧ route (createProperty trim env user body) s
        = (json 201 true (Some "Property created successfully") (PropertyDoc (Some p)),
           set_properties <[newObjectId env O := p]> s).
Proof.
  unfold createProperty. unfold_handler. cbv zeta.
  destruct user as [u|]; [|by left]. cbn beta iota.
  destruct (negb (bool_decide (role u ∈ [Role.admin; Role.landlord]))); [by left|].
  cbn beta iota.
  destruct (check _ _ ++ _); [|by left]. cbn beta iota.
  destruct (newPropertyDoc trim body _) as [p|] eqn:Hdoc; [|by left].
  cbn beta iota.
  destruct (properties s !! newObjectId env O) eqn:Hfree; [by left|].
  right. exists u, p. repeat (split; [done|]).
  cbn [properties set_properties]. by rewrite lookup_insert_eq.
Qed.

Lemma newPropertyDoc_fields trim body owner p :
  newPropertyDoc trim body owner = Some p →
  owner = Some (Property.landlord p)
  ∧ (NewProperty.status body = None → Property.status p = Property.available)
  ∧ (NewProperty.currentTenant body = None → Property.currentTenant p = None)
  ∧ (0 <= Property.monthlyRent p)%Q.
Proof.
  unfold newPropertyDoc. intros Hdoc.
  destruct owner as [o|]; [|done].
  destruct (match NewProperty.status body with
            | Some v => propertyStatusOfName v | None => Some Property.available end)
    as [st|] eqn:Hst; [|done].
  destruct (match NewProperty.currentTenant body with
            | Some v => Some <$> castObjectId v | None => Some None end)
    as [ct|] eqn:Hct; [|done].
  destruct (_ && _) eqn:Hok in Hdoc; [|done].
  injection Hdoc as <-. cbn.
  split; [reflexivity|]. split; [|split].
  - intros Hnone. rewrite Hnone in Hst. congruence.
  - intros Hnone. rewrite Hnone in Hct. congruence.
  - rewrite !andb_true_iff in Hok. apply Qle_bool_iff. tauto.
Qed.

(** X12. POST /api/properties is all or nothing, and a landlord can only
    create properties of their own: an answer that is not a success leaves
    the store as it was; a success stores exactly one new property under a
    fresh id, whose landlord is the caller when the caller is a landlord
    (whatever landlord the body names), whose rent is not negative, and
    which is available and without tenant unless the body says otherwise. *)
Theorem created_property_belongs_to_its_landlord trim env user body s :
  (success (route (createProperty trim env user body) s).1 = false →
   (route (createProperty trim env user body) s).2 = s)
  ∧ (success (route (createProperty trim env user body) s).1 = true →
     ∃ u p,
       user = Some u
       ∧ payload (route (createProperty trim env user body) s).1 = PropertyDoc (Some p)
       ∧ properties s !! newObjectId env O = None
       ∧ (route (createProperty trim env user body) s).2
         = set_properties <[newObjectId env O := p]> s
       ∧ (role u = Role.landlord → Property.landlord p = _id u)
       ∧ (NewProperty.status body = None → Property.status p = Property.available)
       ∧ (NewProperty.currentTenant body = None → Property.currentTenant p = None)
       ∧ (0 <= Property.monthlyRent p)%Q).
Proof.
  destruct (createProperty_cases trim env user body s)
    as [[Hfail Hs] | (u & p & -> & Hdoc & Hfree & Hrun)].
  - split; [done|]. rewrite Hfail. discriminate.
  - rewrite Hrun. cbn [fst snd success payload json]. split; [discriminate|].
    intros _. exists u, p.
    apply newPropertyDoc_fields in Hdoc as (Howner & Hst & Hct & Hrent).
    repeat (split; [done|]). split; [|done].
    intros Hrole. rewrite bool_decide_eq_true_2 in Howner by done. congruence.
Qed.

(** The answer of GET /api/properties/:id to an admin and to the owner. *)
Lemma getProperty_granted u id pid p s :
  castObjectId id = Some pid →
  properties s !! pid = Some p →
  role u = Role.admin
  ∨ (role u = Role.landlord ∧ Property.landlord p = _id u
     ∧ is_Some (users s !! Property.landlord p)) →
  (route (getProperty (Some u) id) s).1 = json 200 true None (PropertyDoc (Some p)).
Proof.
  intros Hid Hp Hrole. unfold getProperty. unfold_handler. cbn beta iota delta [auth].
  rewrite Hid. cbn beta iota. rewrite Hp. cbn beta iota.
  destruct Hrole as [Hr | (Hr & Hown & [l Hl])]; rewrite Hr.
  - reflexivity.
  - rewrite !(bool_decide_eq_false_2 (Role.landlord = Role.tenant)) by discriminate.
    rewrite !(bool_decide_eq_true_2 (Role.landlord = Role.landlord)) by reflexivity.
    cbn [andb]. rewrite Hl, Hown, String.eqb_refl. reflexivity.
Qed.

(** X13. A property reads back as it was created: after a successful
    POST /api/properties, GET /api/properties/:id with the new id, sent by
    an admin or by the landlord who now owns it (whose user record
    exists), answers with the very document the creation returned. *)
Theorem created_property_reads_back trim env u body s p :
  payload (route (createProperty trim env (Some u) body) s).1 = PropertyDoc (Some p) →
  castObjectId (newObjectId env O) = Some (newObjectId env O) →
  (role u = Role.landlord → is_Some (users s !! _id u)) →
  (route (getProperty (Some u) (newObjectId env O))
     (route (createProperty trim env (Some u) body) s).2).1
  = json 200 true None (PropertyDoc (Some p)).
Proof.
  intros Hpay Hcanon Huser.
  destruct (createProperty_cases trim env (Some u) body s)
    as [[Hfail Hs] | (u' & p' & [= <-] & Hdoc & Hfree & Hrun)].
  - revert Hpay Hfail. clear.
    unfold createProperty. unfold_handler. cbv zeta. cbn beta iota.
    repeat split_goal; done.
  - rewrite Hrun in Hpay |- *. injection Hpay as ->. cbn [snd].
    assert (Hrole : role u = Role.admin ∨ role u = Role.landlord).
    { revert Hrun. unfold createProperty. unfold_handler. cbn beta iota.
      destruct (role u) eqn:Hr; [by left|by right|].
      rewrite bool_decide_eq_false_2; [discriminate|].
      intros [?|[?|[]%elem_of_nil]%elem_of_cons]%elem_of_cons; discriminate. }
    apply newPropertyDoc_fields in Hdoc as (Howner & _).
    apply (getProperty_granted u _ (newObjectId env O)); [exact Hcanon| |].
    { apply lookup_insert_eq. }
    destruct Hrole as [Hr | Hr]; [by left|right].
    rewrite bool_decide_eq_true_2 in Howner by done. injection Howner as Howner.
    split; [done|]. split; [done|]. rewrite <-Howner. cbn. by apply Huser.
Qed.

End PropertyRoutes.

Lemma property_read_access_witness :
  kindOf (route (getProperty (P := utc) asTenant2 property1) sampleStore).1 = Forbidden
  ∧ success (route (getProperty (P := utc) asTenant1 property1) sampleStore).1 = true.
Proof.
  split.
  - destruct (property_read_access (P := utc) {| _id := tenant2; role := Role.tenant |}
                property1 property1 (sampleProperty landlord1 (Some tenant1)) sampleStore)
      as (_ & _ & Htenant & _); [vm_compute; reflexivity..|].
    apply Htenant; [reflexivity|]. vm_compute. discriminate.
  - destruct (property_read_access (P := utc) {| _id := tenant1; role := Role.tenant |}
                property1 property1 (sampleProperty landlord1 (Some tenant1)) sampleStore)
      as (_ & _ & Htenant & _); [vm_compute; reflexivity..|].
    unfold asTenant1. rewrite (proj1 (Htenant eq_refl)); [reflexivity..|].
    vm_compute. eauto.
Defined.

Lemma put_status_keeps_current_tenant_witness :
  ∃ p', properties (route (putProperty (P := utc) asLandlord1 property1 markAvailable)
                      sampleStore).2 !! property1 = Some p'
        ∧ Property.status p' = Property.available
        ∧ Property.currentTenant p' = Some tenant1.
Proof.
  destruct (put_status_keeps_current_tenant (P := utc)
              {| _id := landlord1; role := Role.landlord |} property1 property1
              (sampleProperty landlord1 (Some tenant1)) markAvailable sampleStore)
    as (_ & p' & Hp' & Hst & Hct & _); try (vm_compute; reflexivity).
  exists p'. split; [exact Hp'|]. split; [exact Hst|]. rewrite Hct. reflexivity.
Defined.

Lemma created_property_belongs_to_its_landlord_witness :
  ∃ p, payload (route (createProperty (P := utc) trimBlanks propertyEnv asLandlord1 newFlat)
                  sampleStore).1 = PropertyDoc (Some p)
       ∧ Property.landlord p = landlord1
       ∧ Property.status p = Property.available.
Proof.
  destruct (created_property_belongs_to_its_landlord (P := utc) trimBlanks propertyEnv
              asLandlord1 newFlat sampleStore) as [_ Hdone].
  destruct Hdone as (u & p & Hu & Hpay & _ & _ & Hown & Hst & _);
    [vm_compute; reflexivity|].
  injection Hu as <-.
  exists p. split; [exact Hpay|]. split; [apply Hown|apply Hst]; reflexivity.
Defined.

Lemma created_property_reads_back_witness :
  ∃ p, (route (getProperty (P := utc) asLandlord1 property3)
          (route (createProperty (P := utc) trimBlanks propertyEnv asLandlord1 newFlat)
             sampleStore).2).1
       = json 200 true None (PropertyDoc (Some p))
       ∧ Property.landlord p = landlord1.
Proof.
  eexists. split.
  - apply (created_property_reads_back (P := utc) trimBlanks propertyEnv
             {| _id := landlord1; role := Role.landlord |} newFlat sampleStore).
    + vm_compute. reflexivity.
    + vm_compute. reflexivity.
    + intros _. vm_compute. eauto.
  - reflexivity.
Defined.

(** *** routes/rentSchedules.js: one schedule *)

Section RentScheduleRoutes.
Context {P : Platform}.

(** X14. Who may read a rent schedule (GET /api/rent-schedules/:id), for a
    schedule that exists: an admin always; a tenant exactly when the
    schedule is theirs, otherwise Forbidden; a landlord exactly when they
    own the schedule's property, otherwise Forbidden. A tenant reading a
    schedule whose tenant record is gone, or a landlord reading one whose
    property is gone, gets the generic 500 failure. Reading never changes
    the store. *)
Theorem schedule_read_access u id oid r s :
  castObjectId id = Some oid →
  rentSchedules s !! oid = Some r →
  (routeWith (getRentSchedule (Some u) id) s).2 = s
  ∧ (role u = Role.admin →
     (routeWith (getRentSchedule (Some u) id) s).1
     = (json 200 true None NoPayload, Some r))
  ∧ (role u = Role.tenant →
     (users s !! RentSchedule.tenant r = None →
      (routeWith (getRentSchedule (Some u) id) s).1 = (serverError, None))
     ∧ (is_Some (users s !! RentSchedule.tenant r) →
        (RentSchedule.tenant r = _id u →
         (routeWith (getRentSchedule (Some u) id) s).1
         = (json 200 true None NoPayload, Some r))
        ∧ (RentSchedule.tenant r ≠ _id u →
           kindOf (routeWith (getRentSchedule (Some u) id) s).1.1 = Forbidden)))
  ∧ (role u = Role.landlord →
     (properties s !! RentSchedule.property r = None →
      (routeWith (getRentSchedule (Some u) id) s).1 = (serverError, None))
     ∧ (∀ p, properties s !! RentSchedule.property r = Some p →
        (Property.landlord p = _id u →
         (routeWith (getRentSchedule (Some u) id) s).1
         = (json 200 true None NoPayload, Some r))
        ∧ (Property.landlord p ≠ _id u →
           kindOf (routeWith (getRentSchedule (Some u) id) s).1.1 = Forbidden))).
Proof.
  intros Hid Hr. unfold routeWith, getRentSchedule. unfold_handler.
  cbn beta iota delta [auth].
  rewrite Hid. cbn beta iota. rewrite Hr. cbn beta iota.
  split; [repeat split_goal; reflexivity|].
  split; [|split].
  - intros Hrole. rewrite Hrole. reflexivity.
  - intros Hrole. rewrite Hrole.
    rewrite !(bool_decide_eq_true_2 (Role.tenant = Role.tenant)) by reflexivity.
    rewrite !(bool_decide_eq_false_2 (Role.tenant = Role.landlord)) by discriminate.
    split.
    + intros ->. reflexivity.
    + intros [t ->]. split.
      * intros ->. rewrite String.eqb_refl. reflexivity.
      * intros Hne. apply String.eqb_neq in Hne. rewrite Hne. reflexivity.
  - intros Hrole. rewrite Hrole.
    rewrite !(bool_decide_eq_false_2 (Role.landlord = Role.tenant)) by discriminate.
    rewrite !(bool_decide_eq_true_2 (Role.landlord = Role.landlord)) by reflexivity.
    split.
    + intros ->. reflexivity.
    + intros p ->. split.
      * intros ->. rewrite String.eqb_refl. reflexivity.
      * intros Hne. apply String.eqb_neq in Hne. rewrite Hne. reflexivity.
Qed.

(** How POST /api/rent-schedules ends. *)
Lemma createRentSchedule_cases env user body s :
  (success (routeWith (createRentSchedule env user body) s).1.1 = false
   ∧ (routeWith (createRentSchedule env user body) s).2 = s)
  ∨ ∃ u pid p r,
      user = Some u
      ∧ (role u = Role.admin ∨ role u = Role.landlord)
      ∧ castObjectId (NewRentSchedule.property body) = Some pid
      ∧ properties s !! pid = Some p
      ∧ foreignLandlord u (Property.landlord p) = false
      ∧ newRentScheduleDoc body pid = Some r
      ∧ rentSchedules s !! newObjectId env O = None
      ∧ routeWith (createRentSchedule env user body) s
        = (json 201 true (Some "Rent schedule created successfully") NoPayload,
           Some (Some r), set_rentSchedules <[newObjectId env O := r]> s).
Proof.
  unfold routeWith, createRentSchedule. unfold_handler. cbv zeta.
  destruct user as [u|]; [|by left]. cbn beta iota.
  destruct (bool_decide (role u ∈ [Role.admin; Role.landlord])) eqn:Hrole;
    [|by left].
  cbn [negb]. cbn beta iota.
  destruct (check _ _ ++ _); [|by left]. cbn beta iota.
  destruct (castObjectId (NewRentSchedule.property body)) as [pid|] eqn:Hpid;
    [|by left].
  cbn beta iota.
  destruct (properties s !! pid) as [p|] eqn:Hp; [|by left].
  destruct (foreignLandlord u (Property.landlord p)) eqn:Hown; [by left|].
  cbn [mbind option_bind]. cbn beta iota.
  destruct (newRentScheduleDoc body pid) as [r|] eqn:Hdoc; [|by left].
  cbn beta iota.
  destruct (rentSchedules s !! newObjectId env O) eqn:Hfree; [by left|].
  right. exists u, pid, p, r. split; [done|]. split.
  { apply bool_decide_eq_true in Hrole.
    apply elem_of_cons in Hrole as [?|[?|[]%elem_of_nil]%elem_of_cons]; auto. }
  repeat (split; [done|]).
  cbn [rentSchedules set_rentSchedules]. by rewrite lookup_insert_eq.
Qed.

Lemma newRentScheduleDoc_fields body pid r :
  newRentScheduleDoc body pid = Some r →
  RentSchedule.property r = pid
  ∧ castObjectId (NewRentSchedule.tenant body) = Some (RentSchedule.tenant r)
  ∧ RentSchedule.amount r = NewRentSchedule.amount body
  ∧ (0 <= RentSchedule.amount r)%Q
  ∧ Date_cast (NewRentSchedule.dueDate body) = Some (RentSchedule.dueDate r)
  ∧ (NewRentSchedule.status body = None → RentSchedule.status r = RentSchedule.pending).
Proof.
  unfold newRentScheduleDoc. intros Hdoc.
  destruct (castObjectId (NewRentSchedule.tenant body)) as [t|]; [|done].
  destruct (Date_cast (NewRentSchedule.dueDate body)) as [d|]; [|done].
  destruct (match NewRentSchedule.status body with
            | Some v => rentScheduleStatusOfName v | None => Some RentSchedule.pending end)
    as [st|] eqn:Hst; [|done].
  destruct (_ && _) eqn:Hok in Hdoc; [|done].
  injection Hdoc as <-. cbn.
  repeat (split; [reflexivity|]). split; [|split; [reflexivity|]].
  - rewrite !andb_true_iff in Hok. apply Qle_bool_iff. tauto.
  - intros Hnone. rewrite Hnone in Hst. congruence.
Qed.

(** X15. POST /api/rent-schedules is all or nothing and only reaches
    properties the caller manages: an answer that is not a success leaves
    the store as it was; a success comes from an admin or from the landlord
    who owns the property named in the body, and stores exactly one new
    schedule under a fresh id, on that property, for the tenant id and with
    the amount (never negative) and due date of the body, pending unless the
    body says otherwise. *)
Theorem created_schedule_is_on_managed_property env user body s :
  (success (routeWith (createRentSchedule env user body) s).1.1 = false →
   (routeWith (createRentSchedule env user body) s).2 = s)
  ∧ (success (routeWith (createRentSchedule env user body) s).1.1 = true →
     ∃ u pid p r,
       user = Some u
       ∧ castObjectId (NewRentSchedule.property body) = Some pid
       ∧ properties s !! pid = Some p
       ∧ managesProperty u p
       ∧ (routeWith (createRentSchedule env user body) s).1.2 = Some (Some r)
       ∧ rentSchedules s !! newObjectId env O = None
       ∧ (routeWith (createRentSchedule env user body) s).2
         = set_rentSchedules <[newObjectId env O := r]> s
       ∧ RentSchedule.property r = pid
       ∧ castObjectId (NewRentSchedule.tenant body) = Some (RentSchedule.tenant r)
       ∧ RentSchedule.amount r = NewRentSchedule.amount body
       ∧ (0 <= RentSchedule.amount r)%Q
       ∧ Date_cast (NewRentSchedule.dueDate body) = Some (RentSchedule.dueDate r)
       ∧ (NewRentSchedule.status body = None →
          RentSchedule.status r = RentSchedule.pending)).
Proof.
  destruct (createRentSchedule_cases env user body s)
    as [[Hfail Hs] | (u & pid & p & r & -> & Hrole & Hpid & Hp & Hown & Hdoc & Hfree & Hrun)].
  - split; [done|]. rewrite Hfail. discriminate.
  - rewrite Hrun. cbn [fst snd success json]. split; [discriminate|].
    intros _. exists u, pid, p, r.
    repeat (split; [done|]). split.
    { unfold foreignLandlord in Hown. destruct Hrole as [Hr|Hr]; [by left|right].
      split; [done|]. rewrite bool_decide_eq_true_2 in Hown by done.
      cbn [andb] in Hown. apply negb_false_iff in Hown. by apply String.eqb_eq. }
    repeat (split; [done|]).
    by apply newRentScheduleDoc_fields.
Qed.

(** The answer of GET /api/rent-schedules/:id to an admin and to the
    landlord of the schedule's property. *)
Lemma getRentSchedule_granted u id oid r p s :
  castObjectId id = Some oid →
  rentSchedules s !! oid = Some r →
  properties s !! RentSchedule.property r = Some p →
  role u = Role.admin ∨ (role u = Role.landlord ∧ Property.landlord p = _id u) →
  (routeWith (getRentSchedule (Some u) id) s).1
  = (json 200 true None NoPayload, Some r).
Proof.
  intros Hid Hr Hp Hrole. unfold routeWith, getRentSchedule. unfold_handler.
  cbn beta iota delta [auth].
  rewrite Hid. cbn beta iota. rewrite Hr. cbn beta iota.
  destruct Hrole as [Ha | [Hl Hown]].
  - rewrite Ha. reflexivity.
  - rewrite Hl.
    rewrite !(bool_decide_eq_false_2 (Role.landlord = Role.tenant)) by discriminate.
    rewrite !(bool_decide_eq_true_2 (Role.landlord = Role.landlord)) by reflexivity.
    rewrite Hp, Hown, String.eqb_refl. reflexivity.
Qed.

(** X16. A schedule just created reads back and deletes cleanly: after a
    successful POST /api/rent-schedules, the same caller's GET with the new
    id answers with the stored document, and the same caller's DELETE with
    the new id succeeds and brings the rent schedules back to what they
    were before the creation. *)
Theorem created_schedule_round_trip env u body s r :
  (routeWith (createRentSchedule env (Some u) body) s).1.2 = Some (Some r) →
  castObjectId (newObjectId env O) = Some (newObjectId env O) →
  (routeWith (getRentSchedule (Some u) (newObjectId env O))
     (routeWith (createRentSchedule env (Some u) body) s).2).1
  = (json 200 true None NoPayload, Some r)
  ∧ success (route (deleteRentSchedule (Some u) (newObjectId env O))
               (routeWith (createRentSchedule env (Some u) body) s).2).1 = true
  ∧ rentSchedules (route (deleteRentSchedule (Some u) (newObjectId env O))
                     (routeWith (createRentSchedule env (Some u) body) s).2).2
    = rentSchedules s.
Proof.
  intros Hout Hcanon.
  destruct (createRentSchedule_cases env (Some u) body s)
    as [[Hfail Hs] | (u' & pid & p & r' & [= <-] & Hrole & Hpid & Hp & Hown & Hdoc
                      & Hfree & Hrun)].
  - exfalso. revert Hout Hfail. clear.
    unfold routeWith, createRentSchedule. unfold_handler. cbv zeta. cbn beta iota.
    repeat split_goal; done.
  - rewrite Hrun in Hout |- *. cbn [fst snd] in Hout |- *. injection Hout as ->.
    apply newRentScheduleDoc_fields in Hdoc as (Hprop & _).
    split.
    + apply (getRentSchedule_granted u _ (newObjectId env O) r p); [exact Hcanon|..].
      { apply lookup_insert_eq. }
      { cbn. by rewrite Hprop. }
      destruct Hrole as [Hr | Hr]; [by left|right]. split; [done|].
      unfold foreignLandlord in Hown. rewrite bool_decide_eq_true_2 in Hown by done.
      cbn [andb] in Hown. apply negb_false_iff in Hown. by apply String.eqb_eq.
    + unfold deleteRentSchedule. unfold_handler. cbn beta iota delta [auth].
      rewrite Hcanon. cbn beta iota.
      cbn [rentSchedules properties set_rentSchedules].
      rewrite lookup_insert_eq. cbn beta iota.
      cbn [rentSchedules properties set_rentSchedules]. rewrite Hprop, Hp.
      unfold foreignLandlord in Hown.
      destruct (bool_decide (role u = Role.landlord)); cbn [andb] in Hown;
        [rewrite Hown|]; cbn.
      all: split; [reflexivity|]; rewrite delete_insert_eq; by apply delete_id.
Qed.

(** How PUT /api/rent-schedules/:id ends for a caller with access. *)
Lemma putRentSchedule_status u id oid r p v st s :
  castObjectId id = Some oid →
  rentSchedules s !! oid = Some r →
  properties s !! RentSchedule.property r = Some p →
  hasAccess u p r →
  rentScheduleStatusOfName v = Some st →
  routeWith (putRentSchedule (Some u) id
               {| RentScheduleUpdate.amount := None;
                  RentScheduleUpdate.dueDate := None;
                  RentScheduleUpdate.status := Some v;
                  RentScheduleUpdate.paymentMethod := None;
                  RentScheduleUpdate.lateFee := None;
                  RentScheduleUpdate.notes := None |}) s
  = (json 200 true (Some "Rent schedule updated successfully") NoPayload,
     Some (Some (setStatus st r)),
     set_rentSchedules <[oid := setStatus st r]> s).
Proof.
  intros Hid Hr Hp Hacc Hst.
  unfold routeWith, putRentSchedule, updateRentSchedule. unfold_handler.
  cbn beta iota delta [auth].
  cbn [RentScheduleUpdate.amount RentScheduleUpdate.dueDate RentScheduleUpdate.status
       RentScheduleUpdate.paymentMethod RentScheduleUpdate.lateFee
       RentScheduleUpdate.notes optional app].
  assert (isIn rentScheduleStatuses v = true) as ->.
  { unfold isIn, rentScheduleStatuses. apply bool_decide_eq_true_2.
    revert Hst. unfold rentScheduleStatusOfName.
    destruct (String.eqb_spec v "pending") as [->|_]; [intros _; repeat constructor|].
    destruct (String.eqb_spec v "paid") as [->|_]; [intros _; repeat constructor|].
    destruct (String.eqb_spec v "overdue") as [->|_]; [intros _; repeat constructor|].
    destruct (String.eqb_spec v "partial") as [->|_]; [intros _; repeat constructor|].
    discriminate. }
  cbn [check app]. rewrite Hid. cbn beta iota. rewrite Hr. cbn beta iota.
  rewrite Hp. rewrite (hasAccess_true _ _ _ _ Hacc). cbn [negb]. rewrite Hst.
  cbn. destruct r; reflexivity.
Qed.

(** X17. PUT /api/rent-schedules/:id lets anyone with access to a schedule
    set its status, the schedule's own tenant included: a body that names
    only a status of the enum is answered with success, the stored schedule
    takes that status and keeps every other field, and no payment is
    recorded. A tenant can thus mark their rent as paid without paying. *)
Theorem schedule_status_set_without_payment u id oid r p v st s :
  castObjectId id = Some oid →
  rentSchedules s !! oid = Some r →
  properties s !! RentSchedule.property r = Some p →
  hasAccess u p r →
  rentScheduleStatusOfName v = Some st →
  let answer :=
    routeWith (putRentSchedule (Some u) id
                 {| RentScheduleUpdate.amount := None;
                    RentScheduleUpdate.dueDate := None;
                    RentScheduleUpdate.status := Some v;
                    RentScheduleUpdate.paymentMethod := None;
                    RentScheduleUpdate.lateFee := None;
                    RentScheduleUpdate.notes := None |}) s in
  success answer.1.1 = true
  ∧ rentSchedules answer.2 !! oid = Some (setStatus st r)
  ∧ (∀ k, k ≠ oid → rentSchedules answer.2 !! k = rentSchedules s !! k)
  ∧ payments answer.2 = payments s
  ∧ properties answer.2 = properties s
  ∧ users answer.2 = users s.
Proof.
  intros Hid Hr Hp Hacc Hst answer. subst answer.
  rewrite (putRentSchedule_status u id oid r p v st s) by assumption.
  cbn [fst snd success json rentSchedules set_rentSchedules payments properties users].
  split; [reflexivity|]. split; [apply lookup_insert_eq|].
  split; [|done]. intros k Hk. by rewrite lookup_insert_ne.
Qed.

(** X18. Deleting a rent schedule does not cascade to its payments: after
    a successful DELETE /api/rent-schedules/:id the payments, properties
    and users are as before and only that schedule is gone; reading it then
    answers NotFound for every caller, and so does recording a payment
    against it. *)
Theorem deleted_schedule_keeps_its_payments env u id oid s :
  castObjectId id = Some oid →
  success (route (deleteRentSchedule (Some u) id) s).1 = true →
  rentSchedules (route (deleteRentSchedule (Some u) id) s).2
  = delete oid (rentSchedules s)
  ∧ payments (route (deleteRentSchedule (Some u) id) s).2 = payments s
  ∧ properties (route (deleteRentSchedule (Some u) id) s).2 = properties s
  ∧ users (route (deleteRentSchedule (Some u) id) s).2 = users s
  ∧ (∀ v, kindOf (routeWith (getRentSchedule (Some v) id)
                     (route (deleteRentSchedule (Some u) id) s).2).1.1 = NotFound)
  ∧ (∀ v body, validPaymentBody body → NewPayment.rentSchedule body = id →
       kindOf (route (createPayment env (Some v) body)
                 (route (deleteRentSchedule (Some u) id) s).2).1 = NotFound).
Proof.
  intros Hid Hok.
  assert (Hdel : (route (deleteRentSchedule (Some u) id) s).2
                 = set_rentSchedules (delete oid) s).
  { revert Hok. unfold deleteRentSchedule. unfold_handler.
    cbn beta iota delta [auth]. rewrite Hid. cbn beta iota.
    repeat split_goal; done. }
  rewrite Hdel. cbn [rentSchedules payments properties users set_rentSchedules].
  repeat (split; [reflexivity|]). split.
  - intros v. unfold routeWith, getRentSchedule. unfold_handler.
    cbn beta iota delta [auth]. rewrite Hid. cbn beta iota.
    cbn [rentSchedules set_rentSchedules]. rewrite lookup_delete_eq. reflexivity.
  - intros v body [Hmongo Hmethod] Hbody.
    unfold createPayment. unfold_handler. cbn beta iota delta [auth].
    rewrite Hmongo. unfold isIn at 1. rewrite (bool_decide_eq_true_2 _ Hmethod).
    cbn [check app]. rewrite Hbody, Hid. cbn beta iota.
    cbn [rentSchedules set_rentSchedules]. rewrite lookup_delete_eq. reflexivity.
Qed.

End RentScheduleRoutes.

Lemma schedule_read_access_witness :
  kindOf (routeWith (getRentSchedule (P := utc) asTenant2 schedule1) sampleStore).1.1
  = Forbidden
  ∧ (routeWith (getRentSchedule (P := utc) asTenant1 schedule1) sampleStore).1.2
    = Some (sampleSchedule property1 tenant1 1000 RentSchedule.pending).
Proof.
  split.
  - destruct (schedule_read_access (P := utc) {| _id := tenant2; role := Role.tenant |}
                schedule1 schedule1
                (sampleSchedule property1 tenant1 1000 RentSchedule.pending) sampleStore)
      as (_ & _ & Htenant & _); [vm_compute; reflexivity..|].
    apply Htenant; [reflexivity|vm_compute; eauto|vm_compute; discriminate].
  - destruct (schedule_read_access (P := utc) {| _id := tenant1; role := Role.tenant |}
                schedule1 schedule1
                (sampleSchedule property1 tenant1 1000 RentSchedule.pending) sampleStore)
      as (_ & _ & Htenant & _); [vm_compute; reflexivity..|].
    destruct (Htenant eq_refl) as [_ Hsome].
    destruct Hsome as [Hown _]; [vm_compute; eauto|].
    unfold asTenant1. rewrite Hown; reflexivity.
Defined.

Lemma created_schedule_is_on_managed_property_witness :
  ∃ r, rentSchedules
         (routeWith (createRentSchedule (P := utc) scheduleEnv asLandlord1 marchRent)
            sampleStore).2 !! schedule3 = Some r
       ∧ RentSchedule.property r = property1
       ∧ RentSchedule.status r = RentSchedule.pending.
Proof.
  destruct (created_schedule_is_on_managed_property (P := utc) scheduleEnv asLandlord1
              marchRent sampleStore) as [_ Hdone].
  destruct Hdone as (u & pid & p & r & _ & Hpid & _ & _ & _ & _ & Hs & Hprop & _ & _
                     & _ & _ & Hst);
    [vm_compute; reflexivity|].
  exists r. rewrite Hs. split; [apply lookup_insert_eq|].
  split; [|by apply Hst]. rewrite Hprop. vm_compute in Hpid.
  injection Hpid as <-. reflexivity.
Defined.

Lemma created_schedule_round_trip_witness :
  rentSchedules
    (route (deleteRentSchedule (P := utc) asLandlord1 schedule3)
       (routeWith (createRentSchedule (P := utc) scheduleEnv asLandlord1 marchRent)
          sampleStore).2).2
  = rentSchedules sampleStore.
Proof.
  edestruct (created_schedule_round_trip (P := utc) scheduleEnv
               {| _id := landlord1; role := Role.landlord |} marchRent sampleStore)
    as (_ & _ & Hback).
  - vm_compute. reflexivity.
  - vm_compute. reflexivity.
  - exact Hback.
Defined.

Lemma schedule_status_set_without_payment_witness :
  let answer := routeWith (putRentSchedule (P := utc) asTenant1 schedule1 markPaid)
                  sampleStore in
  RentSchedule.status <$> rentSchedules answer.2 !! schedule1 = Some RentSchedule.paid
  ∧ payments answer.2 = payments sampleStore.
Proof.
  destruct (schedule_status_set_without_payment (P := utc)
              {| _id := tenant1; role := Role.tenant |} schedule1 schedule1
              (sampleSchedule property1 tenant1 1000 RentSchedule.pending)
              (sampleProperty landlord1 (Some tenant1)) "paid" RentSchedule.paid
              sampleStore)
    as (_ & Hst & _ & Hpay & _).
  - vm_compute. reflexivity.
  - vm_compute. reflexivity.
  - vm_compute. reflexivity.
  - right. right. reflexivity.
  - reflexivity.
  - cbv zeta. unfold asTenant1, markPaid. rewrite Hst. split; [reflexivity|exact Hpay].
Defined.

Lemma deleted_schedule_keeps_its_payments_witness :
  payments (route (deleteRentSchedule (P := utc) asAdmin schedule1) sampleStore).2
  = payments sampleStore
  ∧ kindOf (route (createPayment (P := utc) laterEnv asTenant1 (pay schedule1 1000))
              (route (deleteRentSchedule (P := utc) asAdmin schedule1) sampleStore).2).1
    = NotFound.
Proof.
  destruct (deleted_schedule_keeps_its_payments (P := utc) laterEnv
              {| _id := adminId; role := Role.admin |} schedule1 schedule1 sampleStore)
    as (_ & Hpay & _ & _ & _ & Hgone).
  - vm_compute. reflexivity.
  - vm_compute. reflexivity.
  - split; [exact Hpay|]. apply Hgone; [|reflexivity].
    split; [vm_compute; reflexivity|]. unfold paymentMethods. repeat constructor.
Defined.

(** *** routes/rentSchedules.js: the bulk batch *)

Section BulkBatches.
Context {P : Platform}.

Lemma inserted_lookup_beyond ids k docs m i :
  (∀ a b, ids a = ids b → a = b) →
  (i < k)%nat → inserted ids k docs m !! ids i = m !! ids i.
Proof.
  intros Hinj Hlt. apply inserted_lookup_other.
  intros j Heq. apply Hinj in Heq. lia.
Qed.

(** X19. The batch POST /api/rent-schedules/bulk stores, for an authorized
    well-formed request on a server whose zone offsets differ by [v]
    milliseconds at most ([v] up to 27 days): its due dates start at the
    start date, lie between start and end date, and consecutive ones are 28
    days less [v] or more apart (28 days in a zone without daylight-saving
    transitions, 28 days less an hour with them), so the batch holds at
    most (end - start) / (28 days - v) + 1 schedules; every schedule is on
    the property and for the tenant and amount of the body; and no record
    other than the new schedules changes. *)
Theorem bulk_batch_is_spread_and_bounded v env u body s oid p tenantOid start end_ :
  managesProperty u p → validBulkBody body →
  castObjectId (Bulk.property body) = Some oid →
  properties s !! oid = Some p →
  castObjectId (Bulk.tenant body) = Some tenantOid →
  (0 <= Bulk.amount body)%Q →
  newDate (Bulk.startDate body) = Some start →
  newDate (Bulk.endDate body) = Some end_ →
  freshIds env s →
  offsetsVaryBy v → v ≤ 27 * JSDate.msPerDay →
  ∃ dueDates,
    (route (bulkRentSchedules env (Some u) body) s).1
    = json 201 true (Some (bulkMessage (length dueDates))) (Count (length dueDates))
    ∧ (∀ k d, dueDates !! k = Some d →
         rentSchedules (route (bulkRentSchedules env (Some u) body) s).2
           !! newObjectId env k
         = Some (bulkDocument body oid tenantOid d)
         ∧ start ≤ d ≤ end_)
    ∧ (start ≤ end_ → dueDates !! O = Some start)
    ∧ (∀ k d d', dueDates !! k = Some d → dueDates !! S k = Some d' →
         d + (28 * JSDate.msPerDay - v) ≤ d')
    ∧ Z.of_nat (length dueDates)
      ≤ Z.max 0 ((end_ - start) / (28 * JSDate.msPerDay - v) + 1)
    ∧ (∀ id, (∀ k, id ≠ newObjectId env k) →
         rentSchedules (route (bulkRentSchedules env (Some u) body) s).2 !! id
         = rentSchedules s !! id)
    ∧ payments (route (bulkRentSchedules env (Some u) body) s).2 = payments s
    ∧ properties (route (bulkRentSchedules env (Some u) body) s).2 = properties s
    ∧ users (route (bulkRentSchedules env (Some u) body) s).2 = users s.
Proof.
  intros Hm Hv Hoid Hp Hten Hamount Hstart Hend Hfresh Hvary Hsmall.
  assert (Hfreq : Bulk.frequency body ∈ frequencies) by apply Hv.
  destruct (bulkRentSchedules_created v env u body s oid p tenantOid start end_)
    as (dueDates & Hloop & Hrun); try assumption.
  assert (Hdates : ∀ k d, dueDates !! k = Some d
            ↔ advanced (Bulk.frequency body) k start = Some d ∧ d ≤ end_).
  { intros k d.
    rewrite <-(bulkLoop_dueDates v body _ end_ start _ k d Hvary Hsmall Hfreq Hloop).
    rewrite list_lookup_fmap. split.
    - intros ->. reflexivity.
    - destruct (dueDates !! k) as [d'|]; [|discriminate].
      simpl. intros [= Heq]. f_equal.
      change (Bulk.e_dueDate (bulkEntry body d') = Bulk.e_dueDate (bulkEntry body d)).
      by rewrite Heq. }
  exists dueDates. rewrite Hrun.
  cbn [fst snd rentSchedules payments properties users set_rentSchedules].
  destruct Hfresh as [Hfree Hinj].
  split; [reflexivity|]. split; [|split; [|split; [|split; [|split]]]].
  - intros k d Hk. split.
    + apply (inserted_lookup (newObjectId env) O _ _ k); [exact Hinj|].
      by rewrite list_lookup_fmap, Hk.
    + apply Hdates in Hk as [Hadv Hle]. split; [|exact Hle].
      pose proof (advanced_grows _ _ _ _ _ Hvary Hfreq Hadv) as Hgrow.
      unfold JSDate.msPerDay in *. nia.
  - intros Hle. apply Hdates. split; [reflexivity|exact Hle].
  - intros k d d' Hk Hk'.
    apply Hdates in Hk as [Hadv _]. apply Hdates in Hk' as [Hadv' _].
    rewrite advanced_succ, Hadv in Hadv'. cbn [mbind option_bind] in Hadv'.
    pose proof (nextDate_advances _ _ _ _ Hvary Hfreq Hadv'). lia.
  - destruct (length dueDates) as [|n] eqn:Hlen; [lia|].
    assert (is_Some (dueDates !! n)) as [d Hd] by (apply lookup_lt_is_Some; lia).
    apply Hdates in Hd as [Hadv Hle].
    pose proof (advanced_grows _ _ _ _ _ Hvary Hfreq Hadv) as Hgrow.
    assert (Z.of_nat n ≤ (end_ - start) / (28 * JSDate.msPerDay - v)).
    { apply Z.div_le_lower_bound; [unfold JSDate.msPerDay in *; lia|]. lia. }
    lia.
  - intros id Hid. apply inserted_lookup_other. intros i. apply Hid.
  - done.
Qed.

End BulkBatches.

Lemma easternTime_offsets : offsetsVaryBy (P := easternTime) 3600000.
Proof.
  intros t t' isUTC isUTC'. cbn [LocalTZA easternTime samplePlatformOf].
  unfold easternOffset.
  destruct isUTC, isUTC';
    repeat match goal with |- context [if ?b then _ else _] => destruct b end; lia.
Qed.

(** Across the start of daylight-saving time in New York the bound is
    reached: two schedules, 28 days less an hour apart. *)
Lemma bulk_batch_is_spread_and_bounded_witness :
  ∃ dueDates : list Z,
    (route (bulkRentSchedules (P := easternTime) bulkEnv asAdmin
              (monthly "2023-02-15T17:00:00Z" "2023-03-15T16:00:00Z")) sampleStore).1
    = json 201 true (Some "2 rent schedules created successfully")
        (Count (length dueDates))
    ∧ Z.of_nat (length dueDates) ≤ 2.
Proof.
  destruct (bulk_batch_is_spread_and_bounded (P := easternTime) 3600000 bulkEnv
              {| _id := adminId; role := Role.admin |}
              (monthly "2023-02-15T17:00:00Z" "2023-03-15T16:00:00Z") sampleStore
              property1 (sampleProperty landlord1 (Some tenant1)) tenant1
              1676480400000 1678896000000)
    as (dueDates & Hanswer & _ & _ & _ & Hbound & _).
  - left. reflexivity.
  - repeat split; try (vm_compute; reflexivity).
    + unfold frequencies. simpl. repeat constructor.
    + intros v Hv. discriminate.
  - vm_compute. reflexivity.
  - vm_compute. reflexivity.
  - vm_compute. reflexivity.
  - vm_compute. discriminate.
  - vm_compute. reflexivity.
  - vm_compute. reflexivity.
  - exact freshIds_sample.
  - exact easternTime_offsets.
  - vm_compute. discriminate.
  - exists dueDates. split; [|exact Hbound].
    unfold asAdmin. rewrite Hanswer.
    assert (Hlen : length dueDates = 2%nat).
    { assert (Hpay : payload (route (bulkRentSchedules (P := easternTime) bulkEnv
                                 (Some {| _id := adminId; role := Role.admin |})
                                 (monthly "2023-02-15T17:00:00Z" "2023-03-15T16:00:00Z"))
                                sampleStore).1 = Count 2)
        by (vm_compute; reflexivity).
      rewrite Hanswer in Hpay. by injection Hpay. }
    rewrite Hlen. vm_compute. reflexivity.
Defined.

(** *** routes/tenants.js: the properties of a tenant *)

Section TenantProperties.
Context {P : Platform}.

#[local] Existing Instance newestFirst_dec.

#[local] Instance newestFirst_trans createdAt : Transitive (newestFirst createdAt).
Proof. intros a b c. unfold newestFirst. lia. Qed.
#[local] Instance newestFirst_total createdAt : Total (newestFirst createdAt).
Proof. intros a b. unfold newestFirst. lia. Qed.

Lemma filter_sublist {A} (f : A → bool) (l : list A) : List.filter f l `sublist_of` l.
Proof.
  induction l as [|x l IH]; simpl; [constructor|].
  destruct (f x); by constructor.
Qed.

(** How GET /api/tenants/:id/properties runs for a caller it admits. *)
Lemma tenantProperties_run createdAt u id oid s :
  castObjectId id = Some oid →
  (role u = Role.tenant → _id u = id) →
  routeWith (tenantProperties createdAt (Some u) id) s
  = (json 200 true None NoPayload,
     Some (merge_sort (newestFirst createdAt)
             (List.filter
                (λ kp, bool_decide (Property.currentTenant kp.2 = Some oid)
                       && (negb (bool_decide (role u = Role.landlord))
                           || String.eqb (Property.landlord kp.2) (_id u)))
                (map_to_list (properties s)))),
     s).
Proof.
  intros Hid Hself. unfold routeWith, tenantProperties. unfold_handler.
  cbn beta iota delta [auth].
  assert (bool_decide (role u = Role.tenant) && negb (String.eqb (_id u) id) = false)
    as ->.
  { case_bool_decide as Hr; [|reflexivity].
    rewrite (Hself Hr), String.eqb_refl. reflexivity. }
  rewrite Hid. reflexivity.
Qed.

(** What the list of GET /api/tenants/:id/properties holds. *)
Lemma tenantProperties_mem createdAt u id oid s :
  castObjectId id = Some oid →
  (role u = Role.tenant → _id u = id) →
  ∃ l, routeWith (tenantProperties createdAt (Some u) id) s
       = (json 200 true None NoPayload, Some l, s)
       ∧ l = merge_sort (newestFirst createdAt)
               (List.filter
                  (λ kp, bool_decide (Property.currentTenant kp.2 = Some oid)
                         && (negb (bool_decide (role u = Role.landlord))
                             || String.eqb (Property.landlord kp.2) (_id u)))
                  (map_to_list (properties s)))
       ∧ ∀ k p, (k, p) ∈ l ↔
           properties s !! k = Some p
           ∧ Property.currentTenant p = Some oid
           ∧ (role u = Role.landlord → Property.landlord p = _id u).
Proof.
  intros Hid Hself. rewrite (tenantProperties_run createdAt u id oid s Hid Hself).
  eexists. split; [reflexivity|]. split; [reflexivity|].
  intros k p. rewrite merge_sort_Permutation.
  rewrite list_elem_of_In, filter_In, <-list_elem_of_In, elem_of_map_to_list.
  cbn [snd]. rewrite andb_true_iff, bool_decide_eq_true, orb_true_iff.
  rewrite negb_true_iff, bool_decide_eq_false, String.eqb_eq.
  split.
  - intros (Hk & Hct & Hown). split; [done|]. split; [done|].
    intros Hr. destruct Hown; done.
  - intros (Hk & Hct & Hown). split; [done|]. split; [done|].
    destruct (decide (role u = Role.landlord)); [right; auto|left; done].
Qed.

(** X20. GET /api/tenants/:id/properties answers an admin, a landlord and
    the tenant themself with exactly the stored properties whose current
    tenant is that id, for a landlord only those they own, each once and
    newest first, and changes nothing; a tenant asking for another tenant's
    id is answered Forbidden. *)
Theorem tenant_properties_are_the_occupied_ones createdAt u id oid s :
  castObjectId id = Some oid →
  (role u = Role.tenant → _id u ≠ id →
   kindOf (routeWith (tenantProperties createdAt (Some u) id) s).1.1 = Forbidden
   ∧ (routeWith (tenantProperties createdAt (Some u) id) s).2 = s)
  ∧ ((role u = Role.tenant → _id u = id) →
     ∃ l, routeWith (tenantProperties createdAt (Some u) id) s
          = (json 200 true None NoPayload, Some l, s)
          ∧ (∀ k p, (k, p) ∈ l ↔
               properties s !! k = Some p
               ∧ Property.currentTenant p = Some oid
               ∧ (role u = Role.landlord → Property.landlord p = _id u))
          ∧ NoDup l.*1
          ∧ StronglySorted (newestFirst createdAt) l).
Proof.
  intros Hid. split.
  - intros Hr Hne. unfold routeWith, tenantProperties. unfold_handler.
    cbn beta iota delta [auth].
    rewrite (bool_decide_eq_true_2 _ Hr). apply String.eqb_neq in Hne. rewrite Hne.
    split; reflexivity.
  - intros Hself. destruct (tenantProperties_mem createdAt u id oid s Hid Hself)
      as (l & Hrun & Hl & Hmem).
    exists l. split; [exact Hrun|]. split; [exact Hmem|]. subst l. split.
    + rewrite merge_sort_Permutation.
      eapply sublist_NoDup; [apply (NoDup_fst_map_to_list (properties s))|].
      apply fmap_sublist, filter_sublist.
    + apply StronglySorted_merge_sort; apply _.
Qed.

(** X21. The list follows assignment and removal: after an assignment
    whose checks pass, the actor's GET /api/tenants/:id/properties lists the
    property as occupied by the tenant; after a removal whose checks pass,
    nobody's list for that tenant id holds the property any more. *)
Theorem tenant_properties_follow_assignment createdAt u id body s tenantOid t oid p :
  managesProperty u p →
  isMongoId (TenantProperty.propertyId body) = true →
  castObjectId id = Some tenantOid →
  users s !! tenantOid = Some t → User.role t = Role.tenant →
  castObjectId (TenantProperty.propertyId body) = Some oid →
  properties s !! oid = Some p →
  (validAssignBody body → Property.status p = Property.available →
   castableDate (TenantProperty.moveInDate body) →
   castableDate (TenantProperty.leaseEndDate body) →
   ∃ l p', (routeWith (tenantProperties createdAt (Some u) id)
              (route (assignProperty (Some u) id body) s).2).1.2 = Some l
           ∧ (oid, p') ∈ l
           ∧ Property.status p' = Property.occupied)
  ∧ (Property.currentTenant p = Some id →
     ∀ v l p', (routeWith (tenantProperties createdAt (Some v) id)
                  (route (removeProperty (Some u) id body) s).2).1.2 = Some l →
               (oid, p') ∉ l).
Proof.
  intros Hm Hmongo Hid Ht Hrole Hcast Hp.
  assert (Hself : role u = Role.tenant → _id u = id).
  { intros Hr. destruct Hm as [Ha | [Hl _]]; congruence. }
  split.
  - intros Hv Hst Hin Hend.
    destruct (assignProperty_done u id body s tenantOid t oid p)
      as (s' & -> & Hprops & _); try assumption.
    cbn [snd].
    destruct (tenantProperties_mem createdAt u id tenantOid s' Hid Hself)
      as (l & -> & _ & Hmem).
    eexists l, _. split; [reflexivity|]. split.
    + apply Hmem. rewrite Hprops. split; [apply lookup_insert_eq|].
      split; [reflexivity|]. intros Hr. cbn.
      destruct Hm as [Ha | [_ Hown]]; [congruence|exact Hown].
    + reflexivity.
  - intros Hct v l p' Hl Hmem.
    rewrite (removeProperty_done u id body s tenantOid t oid p) in Hl by assumption.
    cbn [snd] in Hl.
    destruct (decide (role v = Role.tenant → _id v = id)) as [Hv | Hv].
    + destruct (tenantProperties_mem createdAt v id tenantOid
                  (set_properties
                     <[oid := {| Property.name := Property.name p;
                                 Property.monthlyRent := Property.monthlyRent p;
                                 Property.landlord := Property.landlord p;
                                 Property.currentTenant := None;
                                 Property.status := Property.available;
                                 Property.leaseTerms := Property.noLeaseTerms |}]> s)
                  Hid Hv)
        as (l' & Hrun & _ & Hmem').
      rewrite Hrun in Hl. injection Hl as <-.
      apply Hmem' in Hmem as (Hlook & Hocc & _).
      cbn [properties set_properties] in Hlook. rewrite lookup_insert_eq in Hlook.
      injection Hlook as <-. discriminate.
    + revert Hl. unfold routeWith, tenantProperties. unfold_handler.
      cbn beta iota delta [auth].
      destruct (bool_decide (role v = Role.tenant)) eqn:Hr.
      * apply bool_decide_eq_true in Hr.
        destruct (String.eqb_spec (_id v) id) as [Heq|Hne]; [by destruct Hv|].
        discriminate.
      * apply bool_decide_eq_false in Hr. by destruct Hv.
Qed.

End TenantProperties.

Lemma tenant_properties_are_the_occupied_ones_witness :
  ∃ l, (routeWith (tenantProperties (P := utc) (λ _, 0) asTenant1 tenant1) sampleStore).1.2
       = Some l
       ∧ (property1, sampleProperty landlord1 (Some tenant1)) ∈ l.
Proof.
  destruct (tenant_properties_are_the_occupied_ones (P := utc) (λ _, 0)
              {| _id := tenant1; role := Role.tenant |} tenant1 tenant1 sampleStore)
    as [_ Hlist]; [vm_compute; reflexivity|].
  destruct Hlist as (l & Hrun & Hmem & _); [reflexivity|].
  exists l. unfold asTenant1. rewrite Hrun. split; [reflexivity|].
  apply Hmem. split; [vm_compute; reflexivity|]. split; [reflexivity|discriminate].
Defined.

Lemma tenant_properties_follow_assignment_witness :
  ∃ l p', (routeWith (tenantProperties (P := utc) (λ _, 0) asLandlord2 tenant2)
             (route (assignProperty (P := utc) asLandlord2 tenant2 movingIn)
                sampleStore).2).1.2 = Some l
          ∧ (property2, p') ∈ l.
Proof.
  destruct (tenant_properties_follow_assignment (P := utc) (λ _, 0)
              {| _id := landlord2; role := Role.landlord |}
              tenant2 movingIn sampleStore tenant2 (sampleUser Role.tenant)
              property2 (sampleProperty landlord2 None))
    as [Hassigned _].
  - right. split; reflexivity.
  - vm_compute. reflexivity.
  - vm_compute. reflexivity.
  - vm_compute. reflexivity.
  - reflexivity.
  - vm_compute. reflexivity.
  - vm_compute. reflexivity.
  - destruct Hassigned as (l & p' & Hl & Hmem & _).
    + repeat split; try (vm_compute; reflexivity).
      * intros v [= <-]. vm_compute. reflexivity.
      * intros v [= <-]. vm_compute. reflexivity.
    + reflexivity.
    + intros v [= <-] _. vm_compute. eauto.
    + intros v [= <-] _. vm_compute. eauto.
    + exists l, p'. split; [exact Hl|exact Hmem].
Defined.

(** *** Access to updates, and lists after writes *)

Section Composition.
Context {P : Platform}.

#[local] Existing Instance paymentDateDescending_dec.

(** X22. PUT /api/rent-schedules/:id never lets a caller without access
    change a schedule: a caller who is neither an admin, nor the landlord
    of the schedule's property, nor the schedule's tenant is refused
    (Forbidden, or ValidationFailed when the body is malformed) and the
    store stays as it was. *)
Theorem schedule_update_needs_access u id oid r p body s :
  castObjectId id = Some oid →
  rentSchedules s !! oid = Some r →
  properties s !! RentSchedule.property r = Some p →
  ¬ hasAccess u p r →
  (routeWith (putRentSchedule (Some u) id body) s).2 = s
  ∧ (routeWith (putRentSchedule (Some u) id body) s).1.2 = None
  ∧ (kindOf (routeWith (putRentSchedule (Some u) id body) s).1.1 = Forbidden
     ∨ kindOf (routeWith (putRentSchedule (Some u) id body) s).1.1 = ValidationFailed).
Proof.
  intros Hid Hr Hp Hacc.
  unfold routeWith, putRentSchedule. unfold_handler. cbn beta iota delta [auth].
  destruct (optional _ _ _ ++ _) as [|e errors]; [|by auto]. cbn beta iota.
  rewrite Hid. cbn beta iota. rewrite Hr. cbn beta iota. rewrite Hp.
  assert (Hadmin : bool_decide (role u = Role.admin) = false).
  { apply bool_decide_eq_false. intros Ha. apply Hacc. by left. }
  assert (Hother : String.eqb (Property.landlord p) (_id u)
                   || String.eqb (RentSchedule.tenant r) (_id u) = false).
  { apply orb_false_iff. split; apply String.eqb_neq; intros Heq; apply Hacc.
    - right. by left.
    - right. by right. }
  rewrite Hadmin, Hother. cbn. auto.
Qed.

Lemma applyFilters_everything u b q s :
  applyFilters u everything b q s = Continue q s.
Proof. reflexivity. Qed.

Lemma paginate_everything {A} (docs : list A) s :
  paginate (ListQuery.page everything) (ListQuery.limit everything) docs s
  = Continue docs s.
Proof. reflexivity. Qed.

(** X23. A recorded payment shows up in the payer's list: after a
    successful POST /api/payments by an admin, by the landlord of the
    schedule's property or by the schedule's tenant, the same caller's
    GET /api/payments (no filters, no limit) lists the new payment, its
    notes trimmed as they were stored, under its new id. *)
Theorem recorded_payment_is_listed env u body s oid r p :
  validPaymentBody body →
  castObjectId (NewPayment.rentSchedule body) = Some oid →
  rentSchedules s !! oid = Some r →
  properties s !! RentSchedule.property r = Some p →
  role u = Role.admin
  ∨ (role u = Role.landlord ∧ Property.landlord p = _id u)
  ∨ (role u = Role.tenant ∧ RentSchedule.tenant r = _id u) →
  (0 <= NewPayment.amount body)%Q →
  freshTransaction env s →
  ∃ l n, payload (route (listPayments (Some u) everything)
                    (route (createPayment env (Some u) body) s).2).1
         = PaymentList l n
         ∧ (newObjectId env O, newPayment env body oid r) ∈ l.
Proof.
  intros Hbody Hcast Hr Hp Hrole Hamount Hfresh.
  assert (Hacc : hasAccess u p r).
  { destruct Hrole as [?|[[_ ?]|[_ ?]]]; [by left|right; by left|right; by right]. }
  pose proof (createPayment_recorded env u body s oid r p Hbody Hcast Hr Hp Hacc
                Hamount Hfresh) as Hrun.
  cbv zeta in Hrun.
  set (s1 := (route (createPayment env (Some u) body) s).2).
  assert (Hpays : payments s1 = <[newObjectId env O := newPayment env body oid r]>
                                  (payments s)).
  { subst s1. rewrite Hrun. cbn [snd].
    destruct (Qle_bool _ _); [reflexivity|]. destruct (negb _); reflexivity. }
  assert (Hprops : properties s1 = properties s).
  { subst s1. rewrite Hrun. cbn [snd].
    destruct (Qle_bool _ _); [reflexivity|]. destruct (negb _); reflexivity. }
  clearbody s1. clear Hrun.
  destruct (listPayments_run u everything s1) as (q0 & Hq0 & Hlist).
  rewrite applyFilters_everything in Hlist. cbv zeta in Hlist.
  rewrite paginate_everything in Hlist. rewrite Hlist. cbn [fst payload json].
  eexists _, _. split; [reflexivity|].
  rewrite merge_sort_Permutation.
  apply list_elem_of_In, filter_In. split.
  - apply list_elem_of_In, elem_of_map_to_list. rewrite Hpays. apply lookup_insert_eq.
  - revert Hq0. unfold roleFilter. unfold_handler.
    destruct Hrole as [Hr' | [[Hr' Hown] | [Hr' Hten]]]; rewrite Hr'; intros [= <-].
    + reflexivity.
    + unfold matchesPayment, Filter.matches. cbn.
      rewrite !andb_true_r. apply bool_decide_eq_true.
      apply ownedPropertyIds_spec. exists p. by rewrite Hprops.
    + unfold matchesPayment, Filter.matches. cbn.
      rewrite !andb_true_r. rewrite Hten. apply String.eqb_refl.
Qed.

End Composition.

Lemma schedule_update_needs_access_witness :
  kindOf (routeWith (putRentSchedule (P := utc) asTenant2 schedule1 markPaid)
            sampleStore).1.1 = Forbidden.
Proof.
  destruct (schedule_update_needs_access (P := utc)
              {| _id := tenant2; role := Role.tenant |} schedule1 schedule1
              (sampleSchedule property1 tenant1 1000 RentSchedule.pending)
              (sampleProperty landlord1 (Some tenant1)) markPaid sampleStore)
    as (_ & _ & [Hkind | Hkind]).
  - vm_compute. reflexivity.
  - vm_compute. reflexivity.
  - vm_compute. reflexivity.
  - intros [Ha | [Hl | Ht]]; discriminate.
  - exact Hkind.
  - vm_compute in Hkind. discriminate.
Defined.

Lemma recorded_payment_is_listed_witness :
  ∃ l n d, payload (route (listPayments (P := utc) asTenant1 everything)
                      (route (createPayment (P := utc) laterEnv asTenant1
                                (payNoting schedule1 500 "  March rent "))
                         sampleStore).2).1
           = PaymentList l n
           ∧ (payment2, d) ∈ l ∧ Payment.notes d = Some "March rent".
Proof.
  destruct (recorded_payment_is_listed (P := utc) laterEnv
              {| _id := tenant1; role := Role.tenant |}
              (payNoting schedule1 500 "  March rent ") sampleStore
              schedule1 (sampleSchedule property1 tenant1 1000 RentSchedule.pending)
              (sampleProperty landlord1 (Some tenant1)))
    as (l & n & Hl & Hmem).
  - split; [vm_compute; reflexivity|]. unfold paymentMethods. repeat constructor.
  - vm_compute. reflexivity.
  - vm_compute. reflexivity.
  - vm_compute. reflexivity.
  - right. right. split; reflexivity.
  - vm_compute. discriminate.
  - exact freshTransaction_sample.
  - exists l, n. eexists. split; [exact Hl|]. split; [exact Hmem|].
    vm_compute. reflexivity.
Defined.

(** *** Negative amounts *)

Section NegativeAmounts.
Context {P : Platform}.

(** X24. The validators of the two update routes let a negative number
    through ([isNumeric]); the schema ([min: 0], run by [runValidators])
    refuses it. An update by a caller with access that sets only a negative
    amount on a rent schedule, or only a negative monthly rent on a
    property, is answered with the generic 500 failure, not a validation
    error, and changes nothing. *)
Theorem negative_amount_update_is_server_error u id oid a s :
  castObjectId id = Some oid →
  (a < 0)%Q →
  (∀ r p, rentSchedules s !! oid = Some r →
     properties s !! RentSchedule.property r = Some p →
     hasAccess u p r →
     routeWith (putRentSchedule (Some u) id
                  {| RentScheduleUpdate.amount := Some a;
                     RentScheduleUpdate.dueDate := None;
                     RentScheduleUpdate.status := None;
                     RentScheduleUpdate.paymentMethod := None;
                     RentScheduleUpdate.lateFee := None;
                     RentScheduleUpdate.notes := None |}) s
     = (serverError, None, s))
  ∧ (∀ p, properties s !! oid = Some p →
     foreignLandlord u (Property.landlord p) = false →
     route (putProperty (Some u) id
              {| PropertyUpdate.name := None;
                 PropertyUpdate.monthlyRent := Some a;
                 PropertyUpdate.status := None |}) s
     = (serverError, s)).
Proof.
  intros Hid Hneg.
  assert (Hle : Qle_bool 0 a = false).
  { destruct (Qle_bool 0 a) eqn:Hle; [|reflexivity].
    apply Qle_bool_iff in Hle. exfalso. apply (Qlt_not_le _ _ Hneg Hle). }
  split.
  - intros r p Hr Hp Hacc.
    unfold routeWith, putRentSchedule, updateRentSchedule. unfold_handler.
    cbn beta iota delta [auth].
    cbn [RentScheduleUpdate.amount RentScheduleUpdate.dueDate RentScheduleUpdate.status
         RentScheduleUpdate.paymentMethod RentScheduleUpdate.lateFee
         RentScheduleUpdate.notes optional app].
    rewrite Hid. cbn beta iota. rewrite Hr. cbn beta iota.
    rewrite Hp. rewrite (hasAccess_true _ _ _ _ Hacc). cbn [negb]. rewrite Hle.
    reflexivity.
  - intros p Hp Hown.
    unfold putProperty, updateProperty. unfold_handler. cbn beta iota delta [auth].
    cbn [PropertyUpdate.name PropertyUpdate.monthlyRent PropertyUpdate.status
         optional app].
    rewrite Hid. cbn beta iota. rewrite Hp, Hown, Hle. reflexivity.
Qed.

End NegativeAmounts.

Lemma negative_amount_update_is_server_error_witness :
  kindOf (route (putProperty (P := utc) asLandlord1 property1
                   {| PropertyUpdate.name := None;
                      PropertyUpdate.monthlyRent := Some (-1)%Q;
                      PropertyUpdate.status := None |}) sampleStore).1
  = InternalFailure.
Proof.
  destruct (negative_amount_update_is_server_error (P := utc)
              {| _id := landlord1; role := Role.landlord |} property1 property1 (-1)%Q
              sampleStore) as [_ Hprop].
  - vm_compute. reflexivity.
  - reflexivity.
  - unfold asLandlord1.
    rewrite (Hprop (sampleProperty landlord1 (Some tenant1)));
      [reflexivity|vm_compute; reflexivity..].
Defined.

(** *** routes/properties.js: the scope of the list *)

Section PropertyListScope.

#[local] Existing Instance newestFirst_dec.
#[local] Instance newestFirst_transitive createdAt : Transitive (newestFirst createdAt).
Proof. intros a b c. unfold newestFirst. lia. Qed.
#[local] Instance newestFirst_is_total createdAt : Total (newestFirst createdAt).
Proof. intros a b. unfold newestFirst. lia. Qed.

Lemma listProperties_success createdAt u query s l n :
  (routeWith (listProperties createdAt (Some u) query) s).1.2 = Some (l, n) →
  paginate (PropertyQuery.page query) (PropertyQuery.limit query)
    (merge_sort (newestFirst createdAt)
       (List.filter (matchesProperty u query) (map_to_list (properties s)))) s
  = Continue l s
  ∧ n = length (List.filter (matchesProperty u query) (map_to_list (properties s))).
Proof.
  unfold routeWith, listProperties. unfold route, auth, bind, ret, gets.
  destruct (paginate _ _ _ s) as [l1 s1| |] eqn:Hpage; [|discriminate..].
  cbn [fst snd]. intros [= <- <-].
  apply paginate_subset in Hpage as Hs. destruct Hs as [-> _]. done.
Qed.

(** X25. The property list is scoped by role whatever the query holds:
    every record GET /api/properties returns is a stored property; to a
    landlord only properties they own are returned and to a tenant only
    properties whose current tenant they are, since the filters of the
    query go under keys of their own and never replace the role condition.
    The list is ordered newest first, is never longer than the total, and
    listing changes nothing. *)
Theorem property_list_is_scoped createdAt u query s :
  (routeWith (listProperties createdAt (Some u) query) s).2 = s
  ∧ ∀ l n, (routeWith (listProperties createdAt (Some u) query) s).1.2 = Some (l, n) →
      (∀ k p, (k, p) ∈ l →
         properties s !! k = Some p
         ∧ (role u = Role.landlord → Property.landlord p = _id u)
         ∧ (role u = Role.tenant → Property.currentTenant p = Some (_id u))
         ∧ (∀ m, PropertyQuery.maxRent query = Some m → (Property.monthlyRent p <= m)%Q)
         ∧ (∀ m, PropertyQuery.minRent query = Some m → (m <= Property.monthlyRent p)%Q))
      ∧ StronglySorted (newestFirst createdAt) l
      ∧ (length l ≤ n)%nat.
Proof.
  split.
  - unfold routeWith, listProperties. unfold route, auth, bind, ret, gets.
    destruct (paginate _ _ _ s) as [l1 s1|r s1|s1] eqn:Hpage; cbn [snd].
    + by apply paginate_subset in Hpage as [-> _].
    + by apply paginate_no_reply in Hpage.
    + revert Hpage. unfold paginate. unfold_handler. intros. by repeat split_hyp.
  - intros l n Hl. apply listProperties_success in Hl as [Hpage ->].
    split; [|split].
    + intros k p Hmem.
      destruct (found_elem _ _ _ _ _ _ _ (k, p) _ Hpage Hmem) as [Hlook Hmatch].
      cbn [fst snd] in Hlook. split; [exact Hlook|].
      unfold matchesProperty in Hmatch. cbn [fst snd] in Hmatch.
      rewrite !andb_true_iff in Hmatch.
      destruct Hmatch as ((((Hrole & _) & Hmin) & Hmax) & _).
      split; [|split; [|split]].
      * intros Hr. rewrite Hr in Hrole. by apply String.eqb_eq.
      * intros Hr. rewrite Hr in Hrole. by apply bool_decide_eq_true in Hrole.
      * intros m Hm. rewrite Hm in Hmax. by apply Qle_bool_iff.
      * intros m Hm. rewrite Hm in Hmin. by apply Qle_bool_iff.
    + eapply paginate_page in Hpage as (Hs & _); [exact Hs|].
      apply StronglySorted_merge_sort; apply _.
    + eapply (paginate_page (λ _ _, True)) in Hpage as (_ & Hsub & _);
        [|apply StronglySorted_True].
      apply sublist_length in Hsub. by rewrite merge_sort_Permutation in Hsub.
Qed.

End PropertyListScope.

Lemma property_list_is_scoped_witness :
  ∃ l n, (routeWith (listProperties (λ _, 0) asLandlord1 affordable)
            sampleStore).1.2 = Some (l, n)
         ∧ ∀ k p, (k, p) ∈ l → Property.landlord p = landlord1.
Proof.
  destruct (property_list_is_scoped (λ _, 0)
              {| _id := landlord1; role := Role.landlord |} affordable sampleStore)
    as [_ Hscope].
  eexists _, _. split; [vm_compute; reflexivity|].
  intros k p Hmem.
  edestruct Hscope as (Hrec & _); [vm_compute; reflexivity|].
  destruct (Hrec k p Hmem) as (_ & Hown & _). by apply Hown.
Defined.
